(** * Pulsar smart irrigation backend: the scheduling routes

    A shallow embedding of [backend/routes/irrigation.py]: the ML
    recommendation endpoint [arroser], the schedule ingestion endpoint
    [receive_schedule] and the background loop [monitor_schedules],
    together with the part of Python's data model these functions use.

    Python objects are values of [pyval]; binary64 floats are the
    [spec_float] of the standard library at precision 53, so products such
    as [duration_minutes * 60] are rounded as IEEE 754 prescribes.
    Exceptions are an explicit [result]; the module globals, the calls made
    to the external services and the output are threaded through a state
    monad over [world]. *)

From Stdlib Require Import ZArith List String Ascii Bool Arith Lia.
From Stdlib Require Import Floats.SpecFloat.
Import ListNotations.

Set Warnings "-register-all".

Local Open Scope string_scope.
Local Open Scope Z_scope.

(** ** Python values *)

Module Py.

(** The exception classes the routes can meet.  All of them derive from
    [Exception], so that an [except Exception] clause catches everyone. *)
Inductive exn : Type :=
| TypeError
| ValueError
| OverflowError
| AttributeError
| KeyError
| ServiceError    (* raised inside an external service *)
| OSError.        (* raised by a write to a stream that is closed or broken *)

Inductive result (A : Type) : Type :=
| Ok (a : A)
| Raise (e : exn).

Arguments Ok {A} a.
Arguments Raise {A} e.

(** The objects that reach the routes: what [request.get_json()] produces
    and what the services return.  A [str] is a sequence of characters,
    one [ascii] per code point; a [dict] keeps its insertion order. *)
Inductive pyval : Type :=
| PNone
| PBool (b : bool)
| PInt (z : Z)
| PFloat (f : spec_float)
| PStr (s : string)
| PList (l : list pyval)
| PDict (d : list (string * pyval)).

Definition dict : Type := list (string * pyval).

(** *** binary64 *)

Definition prec : Z := 53.
Definition emax : Z := 1024.

(** The float nearest to an integer (ties to even); an infinity when the
    integer is out of range. *)
Definition float_of_Z (z : Z) : spec_float := binary_normalize prec emax z 0 false.

(** A decimal literal [num/den], correctly rounded. *)
Definition float_lit (num den : Z) : spec_float :=
  SFdiv prec emax (float_of_Z num) (float_of_Z den).

Definition float_mul (x y : spec_float) : spec_float := SFmul prec emax x y.

(** [float.__trunc__]: the integer part, towards zero. *)
Definition float_trunc (f : spec_float) : result Z :=
  match f with
  | S754_zero _ => Ok 0
  | S754_infinity _ => Raise OverflowError
  | S754_nan => Raise ValueError
  | S754_finite s m e =>
      Ok (cond_Zopp s (match e with
                       | Zneg p => Z.shiftr (Zpos m) (Zpos p)
                       | _ => Z.shiftl (Zpos m) e
                       end))
  end.

(** *** dict *)

Fixpoint dict_get (d : dict) (k : string) : option pyval :=
  match d with
  | [] => None
  | (k', v) :: d' => if String.eqb k' k then Some v else dict_get d' k
  end.

Definition dict_mem (d : dict) (k : string) : bool :=
  match dict_get d k with Some _ => true | None => false end.

(** [d[k] = v]: an existing key keeps its position, a new one goes last. *)
Fixpoint dict_set (d : dict) (k : string) (v : pyval) : dict :=
  match d with
  | [] => [(k, v)]
  | (k', v') :: d' =>
      if String.eqb k' k then (k', v) :: d' else (k', v') :: dict_set d' k v
  end.

(** [d.update(items)], also the meaning of the items of a dict display. *)
Definition dict_update (d : dict) (items : list (string * pyval)) : dict :=
  fold_left (fun acc kv => dict_set acc (fst kv) (snd kv)) items d.

Definition dict_keys (d : dict) : list string := map fst d.

(** *** builtins *)

Definition is_zero (f : spec_float) : bool :=
  match f with S754_zero _ => true | _ => false end.

(** Truth value testing. *)
Definition truthy (v : pyval) : bool :=
  match v with
  | PNone => false
  | PBool b => b
  | PInt z => negb (z =? 0)
  | PFloat f => negb (is_zero f)
  | PStr s => negb (String.eqb s "")
  | PList l => match l with [] => false | _ => true end
  | PDict d => match d with [] => false | _ => true end
  end.

(** [v == s] for a [str] [s]. *)
Definition eq_str (v : pyval) (s : string) : bool :=
  match v with
  | PStr t => String.eqb t s
  | _ => false
  end.

(** [v.get(k, default)]: only a dict has the method. *)
Definition get (v : pyval) (k : string) (default : pyval) : result pyval :=
  match v with
  | PDict d => Ok (match dict_get d k with Some x => x | None => default end)
  | _ => Raise AttributeError
  end.

(** [v[k]] for a [str] key. *)
Definition getitem (v : pyval) (k : string) : result pyval :=
  match v with
  | PDict d => match dict_get d k with Some x => Ok x | None => Raise KeyError end
  | _ => Raise TypeError
  end.

(** [**v] inside a dict display. *)
Definition unpack (v : pyval) : result dict :=
  match v with
  | PDict d => Ok (dict_update [] d)
  | _ => Raise TypeError
  end.

(** [v.items()]. *)
Definition items (v : pyval) : result (list (string * pyval)) :=
  match v with
  | PDict d => Ok d
  | _ => Raise AttributeError
  end.

Definition len (v : pyval) : result Z :=
  match v with
  | PStr s => Ok (Z.of_nat (String.length s))
  | PList l => Ok (Z.of_nat (List.length l))
  | PDict d => Ok (Z.of_nat (List.length d))
  | _ => Raise TypeError
  end.

(** [sub in s] for two strings. *)
Fixpoint substring_of (sub s : string) : bool :=
  if String.prefix sub s then true
  else match s with
       | EmptyString => false
       | String _ s' => substring_of sub s'
       end.

(** [k in v] for a [str] [k]: a key of a dict, an element of a list, a
    substring of a string. *)
Definition contains (v : pyval) (k : string) : result bool :=
  match v with
  | PDict d => Ok (dict_mem d k)
  | PList l => Ok (existsb (fun x => eq_str x k) l)
  | PStr s => Ok (substring_of k s)
  | _ => Raise TypeError
  end.

(** The elements a [for] clause draws from [v]. *)
Definition iter (v : pyval) : result (list pyval) :=
  match v with
  | PList l => Ok l
  | PStr s => Ok (map (fun c => PStr (String c EmptyString)) (list_ascii_of_string s))
  | PDict d => Ok (map PStr (dict_keys d))
  | _ => Raise TypeError
  end.

(** [float(z)] for an [int]. *)
Definition float_of_int (z : Z) : result spec_float :=
  match float_of_Z z with
  | S754_infinity _ => Raise OverflowError
  | f => Ok f
  end.

Fixpoint repeat_string (s : string) (n : nat) : string :=
  match n with
  | O => EmptyString
  | S n' => s ++ repeat_string s n'
  end.

Section Builtins.

(** The two string parsers of CPython are not reproduced: [float(s)] and
    [int(s)] for a [str] are whatever these give, [None] standing for
    [ValueError]. *)
Variable parse_float : string -> option spec_float.
Variable parse_int : string -> option Z.

(** [float(v)]. *)
Definition to_float (v : pyval) : result spec_float :=
  match v with
  | PBool b => Ok (float_of_Z (if b then 1 else 0))
  | PInt z => float_of_int z
  | PFloat f => Ok f
  | PStr s => match parse_float s with Some f => Ok f | None => Raise ValueError end
  | PNone | PList _ | PDict _ => Raise TypeError
  end.

(** [int(v)]. *)
Definition to_int (v : pyval) : result Z :=
  match v with
  | PBool b => Ok (if b then 1 else 0)
  | PInt z => Ok z
  | PFloat f => float_trunc f
  | PStr s => match parse_int s with Some z => Ok z | None => Raise ValueError end
  | PNone | PList _ | PDict _ => Raise TypeError
  end.

End Builtins.

(** [v * n] for an [int] literal [n] that is not negative. *)
Definition mul_int (v : pyval) (n : Z) : result pyval :=
  match v with
  | PBool b => Ok (PInt ((if b then 1 else 0) * n))
  | PInt z => Ok (PInt (z * n))
  | PFloat f => Ok (PFloat (float_mul f (float_of_Z n)))
  | PStr s => Ok (PStr (repeat_string s (Z.to_nat n)))
  | PList l => Ok (PList (List.concat (List.repeat l (Z.to_nat n))))
  | PNone | PDict _ => Raise TypeError
  end.

(** Whether [format(v, ".1f")] (or any other precision) goes through; the
    text it gives is not needed. *)
Definition format_f (v : pyval) : result unit :=
  match v with
  | PBool _ | PFloat _ => Ok tt
  | PInt z => match float_of_int z with Ok _ => Ok tt | Raise e => Raise e end
  | PStr _ => Raise ValueError
  | PNone | PList _ | PDict _ => Raise TypeError
  end.

End Py.

Import Py.

(** ** Wall-clock time *)

Inductive weekday : Type :=
| Monday | Tuesday | Wednesday | Thursday | Friday | Saturday | Sunday.

(** What the loop uses of [datetime.datetime.now()]: the day of the week,
    the hour (0..23) and the minute (0..59). *)
Record datetime : Type := mk_datetime {
  dt_weekday : weekday;
  dt_hour : nat;
  dt_minute : nat
}.

Definition valid_datetime (t : datetime) : bool :=
  (dt_hour t <? 24)%nat && (dt_minute t <? 60)%nat.

(** [strftime('%A')] in the C locale. *)
Definition strftime_A (t : datetime) : string :=
  match dt_weekday t with
  | Monday => "Monday" | Tuesday => "Tuesday" | Wednesday => "Wednesday"
  | Thursday => "Thursday" | Friday => "Friday" | Saturday => "Saturday"
  | Sunday => "Sunday"
  end.

Definition digit (n : nat) : ascii := ascii_of_nat (48 + n).

Definition two_digits (n : nat) : string :=
  String (digit (n / 10)) (String (digit (n mod 10)) EmptyString).

(** [strftime('%H:%M')]. *)
Definition strftime_HM (t : datetime) : string :=
  two_digits (dt_hour t) ++ ":" ++ two_digits (dt_minute t).

(** ** The process: globals, services, output *)

(** One constructor per [print] statement of the module. *)
Inductive message : Type :=
| MsgRequeteML (features : pyval)
| MsgErreurConversion (e : exn)
| MsgPredictionReussie (prediction : pyval)
| MsgErreurML (e : exn)
| MsgErreurGenerale (e : exn)
| MsgReceptionPlanning (schedules : pyval)
| MsgPlanningOptimise (day : string)
| MsgErreurIA (day : string) (e : exn)
| MsgThreadDemarre
| MsgErreurTraitement (e : exn)
| MsgDemarrageSurveillance
| MsgDeclenchement (french_day current_hour_min : string)
| MsgIrrigationDemarree (duration_minutes : pyval)
| MsgEchecIrrigation (reason : string)
| MsgErreurSurveillance (e : exn)
| MsgErreurStatut (e : exn)
| MsgLogManuelle (duration_minutes volume_m3 : pyval)
| MsgErreurLogManuelle (e : exn)
| MsgLegacyManuelle
| MsgErreurLegacyManuelle (e : exn)
| MsgArretDemande
| MsgErreurArret (e : exn).

(** What the process does to the outside, in the order it does it. *)
Inductive event : Type :=
| Print (m : message)
| PredictIrrigation (features : list pyval)
| DemarrerArrosage (duration_seconds : Z) (volume_m3 : pyval) (source : string)
| LogIrrigation (action : string) (duration_minutes volume_m3 : pyval)
                (mqtt_status source : string)
| Sleep (seconds : Z)
| StartThread.

Inductive outcome (A : Type) : Type :=
| Returns (a : A)
| Raises.

Arguments Returns {A} a.
Arguments Raises {A}.

(** Modelled from the spec: the collaborators [services.ml_service] and
    [services.mqtt_service], whose modules are not among the sources.
    [ml_service.predict_irrigation] returns a recommendation (any object
    here) or raises; [mqtt_service.demarrer_arrosage_async] returns the pair
    [(success, message)] or raises.  The answer to the [k]-th call of a
    service, and the [k]-th reading of the wall clock, are given by
    position, which fixes nothing about how they depend on the arguments or
    on time.  [parse_float] and [parse_int] are the string parsers of the
    builtins [float] and [int]. *)
Record services : Type := mk_services {
  predict_irrigation : nat -> outcome pyval;
  demarrer_arrosage_async : nat -> outcome (bool * string);
  now : nat -> datetime;
  parse_float : string -> option spec_float;
  parse_int : string -> option Z
}.

(** The module globals, the output so far (newest first) and the number of
    calls made to each service. *)
Record world : Type := mk_world {
  active_schedules : dict;
  schedule_thread : bool;    (* schedule_thread is not None and is alive *)
  trace : list event;
  ml_calls : nat;
  mqtt_calls : nat;
  clock_reads : nat
}.

Definition M (A : Type) : Type := world -> result A * world.

Definition ret {A : Type} (a : A) : M A := fun w => (Ok a, w).

Definition bind {A B : Type} (m : M A) (k : A -> M B) : M B :=
  fun w => match m w with
           | (Ok a, w') => k a w'
           | (Raise e, w') => (Raise e, w')
           end.

Definition lift {A : Type} (r : result A) : M A := fun w => (r, w).

(** [try: body / except Exception as e: handler e / else: k]. *)
Definition try_else {A B : Type} (body : M A) (handler : exn -> M B) (k : A -> M B) : M B :=
  fun w => match body w with
           | (Ok a, w') => k a w'
           | (Raise e, w') => handler e w'
           end.

(** [try: body / except Exception as e: handler e]. *)
Definition try_except {A : Type} (body : M A) (handler : exn -> M A) : M A :=
  try_else body handler ret.

Declare Scope py_scope.
Delimit Scope py_scope with py.

Notation "x <- m ;; k" := (bind m (fun x => k))
  (at level 100, m at next level, right associativity) : py_scope.
Notation "m ;;; k" := (bind m (fun _ => k))
  (at level 100, right associativity) : py_scope.

Local Open Scope py_scope.

Definition record (ev : event) (w : world) : world :=
  mk_world (active_schedules w) (schedule_thread w) (ev :: trace w)
           (ml_calls w) (mqtt_calls w) (clock_reads w).

Definition emit (ev : event) : M unit := fun w => (Ok tt, record ev w).

(** [print] on a standard output that takes every line; [Stdout.print]
    below is the one whose line can be refused. *)
Definition print (m : message) : M unit := emit (Print m).

Definition sleep (seconds : Z) : M unit := emit (Sleep seconds).

(** Modelled from the spec: [config.database.log_irrigation], whose module
    is not among the sources.  It appends a record to the activity log and
    does not raise to its caller. *)
Definition log_irrigation (action : string) (duration_minutes volume_m3 : pyval)
    (mqtt_status source : string) : M unit :=
  emit (LogIrrigation action duration_minutes volume_m3 mqtt_status source).

(** [ml_service.predict_irrigation(features)]. *)
Definition call_predict (sv : services) (features : list pyval) : M pyval :=
  fun w =>
    let w' := mk_world (active_schedules w) (schedule_thread w)
                       (PredictIrrigation features :: trace w)
                       (Datatypes.S (ml_calls w)) (mqtt_calls w) (clock_reads w) in
    match predict_irrigation sv (ml_calls w) with
    | Returns v => (Ok v, w')
    | Raises => (Raise ServiceError, w')
    end.

(** [mqtt_service.demarrer_arrosage_async(duration_seconds, volume_m3, source)]. *)
Definition call_demarrer_arrosage (sv : services) (duration_seconds : Z)
    (volume_m3 : pyval) (source : string) : M (bool * string) :=
  fun w =>
    let w' := mk_world (active_schedules w) (schedule_thread w)
                       (DemarrerArrosage duration_seconds volume_m3 source :: trace w)
                       (ml_calls w) (Datatypes.S (mqtt_calls w)) (clock_reads w) in
    match demarrer_arrosage_async sv (mqtt_calls w) with
    | Returns r => (Ok r, w')
    | Raises => (Raise ServiceError, w')
    end.

(** [datetime.datetime.now()]. *)
Definition read_clock (sv : services) : M datetime :=
  fun w => (Ok (now sv (clock_reads w)),
            mk_world (active_schedules w) (schedule_thread w) (trace w)
                     (ml_calls w) (mqtt_calls w) (Datatypes.S (clock_reads w))).

(** Reading and rebinding the global [active_schedules]. *)
Definition load_active_schedules : M dict := fun w => (Ok (active_schedules w), w).

Definition store_active_schedules (d : dict) : M unit :=
  fun w => (Ok tt, mk_world d (schedule_thread w) (trace w)
                            (ml_calls w) (mqtt_calls w) (clock_reads w)).

(** ** The routes *)

(** The body of a response, one constructor per [jsonify] of the routes
    below, paired with the HTTP status as Flask has it. *)
Inductive reply : Type :=
| AucuneDonnee
| QuinzeParametresRequis
| ParametresNumeriques
| Recommandation (duree_minutes volume_eau_m3 : spec_float)
| PredictionInvalide
| ErreurModele (e : exn)
| ErreurServeur (e : exn)
| PlanningRecu (analyzed_schedules : dict)
| PlanningErreur (e : exn)
| EtatPlanning (active : dict) (monitoring_active : bool) (current_time : datetime)
| ManuelleLoggee
| EchecRoute (e : exn)
| LegacyManuelle
| IrrigationArretee.

Definition response : Type := (reply * Z)%type.

(** *** POST /arroser *)

(** [[float(f) for f in features]], once [features] is iterated. *)
Fixpoint floats_of (sv : services) (l : list pyval) : result (list spec_float) :=
  match l with
  | [] => Ok []
  | f :: l' =>
      match to_float (parse_float sv) f with
      | Raise e => Raise e
      | Ok x => match floats_of sv l' with
                | Raise e => Raise e
                | Ok xs => Ok (x :: xs)
                end
      end
  end.

Definition features_array_of (sv : services) (features : pyval) : result (list spec_float) :=
  match iter features with
  | Raise e => Raise e
  | Ok l => floats_of sv l
  end.

(** [not features or len(features) != 15]. *)
Definition features_rejected (features : pyval) : result bool :=
  if negb (truthy features) then Ok true
  else match len features with
       | Raise e => Raise e
       | Ok n => Ok (negb (n =? 15))
       end.

(** The [try] block around the call of the ML service. *)
Definition arroser_predict (sv : services) (features_array : list spec_float) : M response :=
  prediction <- call_predict sv (map PFloat features_array) ;;
  has_volume <- (if truthy prediction then lift (contains prediction "volume_m3")
                 else ret false) ;;
  if has_volume then
    duree <- lift (getitem prediction "duree_minutes") ;;
    volume <- lift (getitem prediction "volume_m3") ;;
    log_irrigation "ml_prediction" duree volume "prediction_ok" "ML" ;;;
    print (MsgPredictionReussie prediction) ;;;
    duree_f <- lift (to_float (parse_float sv) duree) ;;
    volume_f <- lift (to_float (parse_float sv) volume) ;;
    lift (format_f duree) ;;;
    lift (format_f volume) ;;;
    ret (Recommandation duree_f volume_f, 200)
  else ret (PredictionInvalide, 500).

Definition arroser (sv : services) (data : pyval) : M response :=
  try_except
    (if negb (truthy data) then ret (AucuneDonnee, 400)
     else
       features <- lift (get data "features" (PList [])) ;;
       rejected <- lift (features_rejected features) ;;
       if rejected then ret (QuinzeParametresRequis, 400)
       else
         print (MsgRequeteML features) ;;;
         try_else (lift (features_array_of sv features))
           (fun conv_err =>
              print (MsgErreurConversion conv_err) ;;;
              ret (ParametresNumeriques, 400))
           (fun features_array =>
              try_except (arroser_predict sv features_array)
                (fun ml_err =>
                   print (MsgErreurML ml_err) ;;;
                   ret (ErreurModele ml_err, 500))))
    (fun e => print (MsgErreurGenerale e) ;;; ret (ErreurServeur e, 500)).

(** *** POST /irrigation/schedule *)

Definition default_features : list pyval :=
  [PFloat (float_of_Z 25); PInt 0; PInt 65; PFloat (float_of_Z 12); PInt 1;
   PInt 10000; PFloat (float_of_Z 26); PInt 42; PFloat (float_lit 12 10);
   PFloat (float_lit 68 10); PInt 45; PInt 38; PInt 152; PInt 3; PInt 2].

(** The literal [0.6]. *)
Definition float_0_6 : spec_float := float_lit 6 10.

(** The slot of the [except] branch: the submitted entry with the fallback
    pair. *)
Definition fallback_slot (schedule : pyval) : result dict :=
  match unpack schedule with
  | Raise e => Raise e
  | Ok d => Ok (dict_update d [("ai_duration_minutes", PInt 30);
                               ("ai_volume_m3", PFloat float_0_6);
                               ("ai_optimized", PBool false)])
  end.

(** The slot of the [try] branch: the submitted entry with the
    recommendation. *)
Definition optimized_slot (schedule prediction : pyval) : result dict :=
  match unpack schedule with
  | Raise e => Raise e
  | Ok d =>
      match getitem prediction "duree_minutes" with
      | Raise e => Raise e
      | Ok duree =>
          match getitem prediction "volume_m3" with
          | Raise e => Raise e
          | Ok volume =>
              Ok (dict_update d [("ai_duration_minutes", duree);
                                 ("ai_volume_m3", volume);
                                 ("ai_optimized", PBool true)])
          end
      end
  end.

(** The [except] branch of the loop body, entered with the local
    [analyzed_schedules] as the [try] block left it. *)
Definition analyze_fallback (day : string) (schedule : pyval) (analyzed : dict)
    (e : exn) : M dict :=
  print (MsgErreurIA day e) ;;;
  slot <- lift (fallback_slot schedule) ;;
  ret (dict_set analyzed day (PDict slot)).

(** The body of the loop for an enabled entry.  The [try] block assigns
    [analyzed_schedules[day]] before its [print], whose format
    specification can still raise. *)
Definition analyze_day (sv : services) (day : string) (schedule : pyval)
    (analyzed : dict) : M dict :=
  try_else
    (prediction <- call_predict sv default_features ;;
     slot <- lift (optimized_slot schedule prediction) ;;
     ret (prediction, slot))
    (analyze_fallback day schedule analyzed)
    (fun ps =>
       let analyzed1 := dict_set analyzed day (PDict (snd ps)) in
       try_else
         (duree <- lift (getitem (fst ps) "duree_minutes") ;;
          lift (format_f duree) ;;;
          print (MsgPlanningOptimise day))
         (analyze_fallback day schedule analyzed1)
         (fun _ => ret analyzed1)).

(** The body of [for day, schedule in schedules.items(): ...], on the
    local [analyzed_schedules]. *)
Definition analyze_entry (sv : services) (day : string) (schedule : pyval)
    (analyzed : dict) : M dict :=
  enabled <- lift (get schedule "enabled" PNone) ;;
  if truthy enabled then analyze_day sv day schedule analyzed
  else ret analyzed.

(** The loop itself. *)
Fixpoint analyze_schedules (sv : services) (entries : list (string * pyval))
    (analyzed : dict) : M dict :=
  match entries with
  | [] => ret analyzed
  | (day, schedule) :: rest =>
      analyzed' <- analyze_entry sv day schedule analyzed ;;
      analyze_schedules sv rest analyzed'
  end.

(** Starting the monitoring thread when none is alive. *)
Definition start_schedule_thread : M unit :=
  fun w =>
    if schedule_thread w then (Ok tt, w)
    else (Ok tt, record (Print MsgThreadDemarre)
                   (mk_world (active_schedules w) true (StartThread :: trace w)
                             (ml_calls w) (mqtt_calls w) (clock_reads w))).

Definition receive_schedule (sv : services) (data : pyval) : M response :=
  try_except
    (schedules <- lift (get data "schedules" (PDict [])) ;;
     print (MsgReceptionPlanning schedules) ;;;
     entries <- lift (items schedules) ;;
     analyzed_schedules <- analyze_schedules sv entries [] ;;
     store_active_schedules analyzed_schedules ;;;
     start_schedule_thread ;;;
     log_irrigation "schedule_received" PNone PNone "ok" "SCHEDULE_AI" ;;;
     ret (PlanningRecu analyzed_schedules, 200))
    (fun e => print (MsgErreurTraitement e) ;;; ret (PlanningErreur e, 500)).

(** *** GET /irrigation/schedule/status *)

Definition get_schedule_status (sv : services) : M response :=
  try_except
    (active <- load_active_schedules ;;
     alive <- (fun w => (Ok (schedule_thread w), w)) ;;
     t <- read_clock sv ;;
     ret (EtatPlanning active alive t, 200))
    (fun e => print (MsgErreurStatut e) ;;; ret (ErreurServeur e, 500)).

(** *** The monitoring thread *)

Definition day_mapping : list (string * string) :=
  [("Monday", "Lundi"); ("Tuesday", "Mardi"); ("Wednesday", "Mercredi");
   ("Thursday", "Jeudi"); ("Friday", "Vendredi"); ("Saturday", "Samedi");
   ("Sunday", "Dimanche")].

(** [mapping.get(k)] on a dict of strings. *)
Fixpoint mapping_get (mapping : list (string * string)) (k : string) : option string :=
  match mapping with
  | [] => None
  | (k', v) :: rest => if String.eqb k' k then Some v else mapping_get rest k
  end.

(** [schedule.get('enabled') and schedule.get('startTime') == current_hour_min]. *)
Definition slot_due (schedule : pyval) (current_hour_min : string) : result bool :=
  match get schedule "enabled" PNone with
  | Raise e => Raise e
  | Ok enabled =>
      if truthy enabled then
        match get schedule "startTime" PNone with
        | Raise e => Raise e
        | Ok start_time => Ok (eq_str start_time current_hour_min)
        end
      else Ok false
  end.

(** [int(duration_minutes * 60)]. *)
Definition duration_seconds_of (sv : services) (duration_minutes : pyval) : result Z :=
  match mul_int duration_minutes 60 with
  | Raise e => Raise e
  | Ok product => to_int (parse_int sv) product
  end.

(** The block run for a slot that is due. *)
Definition trigger_irrigation (sv : services) (schedule : pyval)
    (french_day current_hour_min : string) : M unit :=
  print (MsgDeclenchement french_day current_hour_min) ;;;
  duration_minutes <- lift (get schedule "ai_duration_minutes" (PInt 30)) ;;
  volume_m3 <- lift (get schedule "ai_volume_m3" (PFloat float_0_6)) ;;
  duration_seconds <- lift (duration_seconds_of sv duration_minutes) ;;
  answer <- call_demarrer_arrosage sv duration_seconds volume_m3 "SCHEDULE_AI" ;;
  if fst answer then
    print (MsgIrrigationDemarree duration_minutes) ;;;
    log_irrigation "schedule_executed" duration_minutes volume_m3 "started" "SCHEDULE_AI"
  else print (MsgEchecIrrigation (snd answer)).

(** One evaluation at clock reading [t].  The global [active_schedules] is
    loaded twice, for the membership test and for the subscript; [loaded1]
    and [loaded2] are what the two loads give. *)
Definition evaluate_schedules (sv : services) (t : datetime) (loaded1 loaded2 : dict) : M unit :=
  let current_day := strftime_A t in
  let current_hour_min := strftime_HM t in
  match mapping_get day_mapping current_day with
  | None => ret tt
  | Some french_day =>
      if negb (String.eqb french_day "") && dict_mem loaded1 french_day then
        schedule <- lift (getitem (PDict loaded2) french_day) ;;
        due <- lift (slot_due schedule current_hour_min) ;;
        if due then trigger_irrigation sv schedule french_day current_hour_min
        else ret tt
      else ret tt
  end.

(** The [try] block of the loop, run by one thread on its own: both loads
    give the global as it stands. *)
Definition monitor_tick (sv : services) : M unit :=
  current_time <- read_clock sv ;;
  active <- load_active_schedules ;;
  evaluate_schedules sv current_time active active ;;;
  sleep 60.

(** One turn of [while True]. *)
Definition monitor_iteration (sv : services) : M unit :=
  try_except (monitor_tick sv)
    (fun e => print (MsgErreurSurveillance e) ;;; sleep 60).

(** The first [n] turns of the loop.  The monad's [bind] stops at the first
    exception that leaves a turn. *)
Fixpoint monitor_loop (sv : services) (n : nat) : M unit :=
  match n with
  | O => ret tt
  | Datatypes.S n' => monitor_iteration sv ;;; monitor_loop sv n'
  end.

Definition monitor_schedules (sv : services) (n : nat) : M unit :=
  print MsgDemarrageSurveillance ;;; monitor_loop sv n.

(** ** Observations on a trace *)

Definition is_fire (ev : event) : bool :=
  match ev with DemarrerArrosage _ _ _ => true | _ => false end.

(** The calls of the actuation gateway, newest first. *)
Definition fires (tr : list event) : list event := filter is_fire tr.

Definition initial_world : world := mk_world [] false [] 0 0 0.

Definition with_schedules (d : dict) (w : world) : world :=
  mk_world d (schedule_thread w) (trace w) (ml_calls w) (mqtt_calls w) (clock_reads w).

(** The slot the loop looks at, at clock reading [t]. *)
Definition slot_at (store : dict) (t : datetime) : option pyval :=
  match mapping_get day_mapping (strftime_A t) with
  | Some french_day =>
      if negb (String.eqb french_day "") then dict_get store french_day else None
  | None => None
  end.

(** Whether the stored schedules hold a slot that is due at [t]. *)
Definition due (store : dict) (t : datetime) : bool :=
  match slot_at store t with
  | Some schedule =>
      match slot_due schedule (strftime_HM t) with
      | Ok true => true
      | _ => false
      end
  | None => false
  end.

(** The clock readings of [n] consecutive calls, from the [k]-th on. *)
Definition readings (sv : services) (k n : nat) : list datetime :=
  map (now sv) (seq k n).

Definition count_due (store : dict) (ts : list datetime) : nat :=
  List.length (filter (due store) ts).

(** The call of the gateway a turn at clock reading [t] comes to, if any:
    the slot is due and its duration converts to seconds. *)
Definition scheduled_call (sv : services) (store : dict) (t : datetime) : option event :=
  if due store t then
    match slot_at store t with
    | Some schedule =>
        match get schedule "ai_duration_minutes" (PInt 30),
              get schedule "ai_volume_m3" (PFloat float_0_6) with
        | Ok duration_minutes, Ok volume_m3 =>
            match duration_seconds_of sv duration_minutes with
            | Ok duration_seconds =>
                Some (DemarrerArrosage duration_seconds volume_m3 "SCHEDULE_AI")
            | Raise _ => None
            end
        | _, _ => None
        end
    | None => None
    end
  else None.

(** Modelled on the spec's words, for comparison with [float_trunc]:
    [round(x)], the integer nearest to [x], ties going to the even one. *)
Definition spec_round (f : spec_float) : result Z :=
  match f with
  | S754_zero _ => Ok 0
  | S754_infinity _ => Raise OverflowError
  | S754_nan => Raise ValueError
  | S754_finite s m e =>
      Ok (cond_Zopp s
            (match e with
             | Zneg p =>
                 let q := Z.shiftr (Zpos m) (Zpos p) in
                 let r := Zpos m - Z.shiftl q (Zpos p) in
                 let half := Z.shiftl 1 (Zpos p - 1) in
                 if (half <? r) || ((r =? half) && Z.odd q) then q + 1 else q
             | _ => Z.shiftl (Zpos m) e
             end))
  end.

(** ** Scenarios *)

Definition recommendation (duree_minutes volume_m3 : spec_float) : pyval :=
  PDict [("duree_minutes", PFloat duree_minutes); ("volume_m3", PFloat volume_m3)].

(** A request body enabling one day at one start time. *)
Definition one_day_request (day start_time : string) (enabled : bool) : pyval :=
  PDict [("schedules",
          PDict [(day, PDict [("enabled", PBool enabled);
                              ("startTime", PStr start_time)])])].

(** A deployment: the ML service recommends the same pair at every call,
    the gateway gives the same answer to every command, the clock is
    stopped at [t]. *)
Definition steady (duree_minutes volume_m3 : spec_float)
    (answer : outcome (bool * string)) (t : datetime) : services :=
  mk_services (fun _ => Returns (recommendation duree_minutes volume_m3))
              (fun _ => answer) (fun _ => t) (fun _ => None) (fun _ => None).

(** Monday 08:00, a recommendation of 22.5 minutes and 0.9 m³. *)
Definition sv_monday : services :=
  steady (float_lit 225 10) (float_lit 9 10) (Returns (true, "ok"))
         (mk_datetime Monday 8 0).

Definition monday_world : world :=
  snd (receive_schedule sv_monday (one_day_request "Lundi" "08:00" true) initial_world).

(** The same with a gateway that refuses every command. *)
Definition sv_monday_refused : services :=
  steady (float_lit 225 10) (float_lit 9 10) (Returns (false, "broker unreachable"))
         (mk_datetime Monday 8 0).

(** The same with a recommendation of 22.515625 minutes, that is 1350.9375
    seconds. *)
Definition sv_monday_fraction : services :=
  steady (float_lit 1441 64) (float_lit 9 10) (Returns (true, "ok"))
         (mk_datetime Monday 8 0).

Definition fraction_world : world :=
  snd (receive_schedule sv_monday_fraction (one_day_request "Lundi" "08:00" true)
         initial_world).

(** Tuesday 09:00, with Tuesday submitted disabled. *)
Definition sv_tuesday : services :=
  steady (float_lit 225 10) (float_lit 9 10) (Returns (true, "ok"))
         (mk_datetime Tuesday 9 0).

Definition tuesday_world : world :=
  snd (receive_schedule sv_tuesday (one_day_request "Mardi" "09:00" false) initial_world).

(** A stored slot without the two [ai_] fields, due on Monday at 08:00. *)
Definition bare_world : world :=
  with_schedules [("Lundi", PDict [("enabled", PBool true); ("startTime", PStr "08:00")])]
                 initial_world.

(** ** What ingestion stores *)

(** The entry [d] with the fallback pair, and with a recommendation. *)
Definition with_fallback (d : dict) : dict :=
  dict_update (dict_update [] d)
    [("ai_duration_minutes", PInt 30); ("ai_volume_m3", PFloat float_0_6);
     ("ai_optimized", PBool false)].

Definition with_recommendation (d : dict) (duree volume : pyval) : dict :=
  dict_update (dict_update [] d)
    [("ai_duration_minutes", duree); ("ai_volume_m3", volume);
     ("ai_optimized", PBool true)].

(** Whether a value the ML service returned gets through the [try] block:
    the two fields are there and the duration can be printed with [.1f]. *)
Definition usable_recommendation (prediction : pyval) : option (pyval * pyval) :=
  match getitem prediction "duree_minutes", getitem prediction "volume_m3" with
  | Ok duree, Ok volume =>
      match format_f duree with
      | Ok _ => Some (duree, volume)
      | Raise _ => None
      end
  | _, _ => None
  end.

(** The slot stored for an enabled entry [d] when the ML service is called
    for the [k]-th time. *)
Definition analyzed_slot (sv : services) (k : nat) (d : dict) : dict :=
  match predict_irrigation sv k with
  | Returns prediction =>
      match usable_recommendation prediction with
      | Some (duree, volume) => with_recommendation d duree volume
      | None => with_fallback d
      end
  | Raises => with_fallback d
  end.

(** [schedule.get('enabled')] taken as a condition. *)
Definition is_enabled (schedule : pyval) : bool :=
  match get schedule "enabled" PNone with
  | Ok enabled => truthy enabled
  | Raise _ => false
  end.

(** The number of enabled entries the loop meets before the entry of [day]:
    the calls of the ML service made before the one for [day]. *)
Fixpoint enabled_before (entries : list (string * pyval)) (day : string) : nat :=
  match entries with
  | [] => O
  | (day', schedule) :: rest =>
      if String.eqb day' day then O
      else ((if is_enabled schedule then 1 else 0) + enabled_before rest day)%nat
  end.

Definition is_dict (v : pyval) : bool :=
  match v with PDict _ => true | _ => false end.

(** A submitted mapping as [request.get_json()] gives it: the keys are
    distinct and every entry is an object. *)
Definition well_formed_schedules (entries : list (string * pyval)) : Prop :=
  NoDup (dict_keys entries) /\ forallb (fun e => is_dict (snd e)) entries = true.

(** The ML service is down: every call raises. *)
Definition sv_ml_down : services :=
  mk_services (fun _ => Raises) (fun _ => Returns (true, "ok"))
              (fun _ => mk_datetime Monday 8 0) (fun _ => None) (fun _ => None).

Definition enabled_at (start_time : string) : pyval :=
  PDict [("enabled", PBool true); ("startTime", PStr start_time)].

(** Seven enabled days. *)
Definition week_request : pyval :=
  PDict [("schedules",
          PDict [("Lundi", enabled_at "06:00"); ("Mardi", enabled_at "06:10");
                 ("Mercredi", enabled_at "06:20"); ("Jeudi", enabled_at "06:30");
                 ("Vendredi", enabled_at "06:40"); ("Samedi", enabled_at "06:50");
                 ("Dimanche", enabled_at "07:00")])].

(** The fourth call of the ML service raises, the others recommend 22.5
    minutes and 0.9 m³. *)
Definition sv_fourth_call_fails : services :=
  mk_services (fun k => if Nat.eqb k 3 then Raises
                        else Returns (recommendation (float_lit 225 10) (float_lit 9 10)))
              (fun _ => Returns (true, "ok"))
              (fun _ => mk_datetime Monday 8 0) (fun _ => None) (fun _ => None).

Definition week_world : world :=
  snd (receive_schedule sv_fourth_call_fails week_request initial_world).

Definition is_predict (ev : event) : bool :=
  match ev with PredictIrrigation _ => true | _ => false end.

(** The calls of the ML service, newest first. *)
Definition predicts (tr : list event) : list event := filter is_predict tr.

(** A request with fourteen features, and one with fifteen of which the
    last is [null]. *)
Definition short_request : pyval :=
  PDict [("features", PList (List.repeat (PInt 1) 14))].

Definition null_request : pyval :=
  PDict [("features", PList (List.repeat (PInt 1) 14 ++ [PNone]))].

(** ** The threads, statement by statement

    The request handler and the monitoring thread run at the same time.
    Each is cut here into the steps between which the other may run; a
    step is atomic, as a load or a rebinding of a module global is under
    the interpreter lock.  The dict the handler builds is a local until the
    rebinding and is not written to after it, which is why the values of
    the model, that cannot change in place, stand for it. *)

(** Where [receive_schedule] stands: in its loop with the local
    [analyzed_schedules], about to rebind the global, past the rebinding,
    or done. *)
Inductive handler_state : Type :=
| Analyzing (remaining : list (string * pyval)) (analyzed_schedules : dict)
| Publishing (analyzed_schedules : dict)
| Published (analyzed_schedules : dict)
| Answered (r : response).

(** The [except] clause of [receive_schedule]. *)
Definition handler_fails (e : exn) (w : world) : handler_state * world :=
  (Answered (PlanningErreur e, 500), record (Print (MsgErreurTraitement e)) w).

(** Up to the loop. *)
Definition handler_start (sv : services) (data : pyval) (w : world)
    : handler_state * world :=
  match (schedules <- lift (get data "schedules" (PDict [])) ;;
         print (MsgReceptionPlanning schedules) ;;;
         lift (items schedules)) w with
  | (Ok entries, w') => (Analyzing entries [], w')
  | (Raise e, w') => handler_fails e w'
  end.

Definition handler_step (sv : services) (c : handler_state * world)
    : handler_state * world :=
  match c with
  | (Analyzing [] analyzed, w) => (Publishing analyzed, w)
  | (Analyzing ((day, schedule) :: rest) analyzed, w) =>
      match analyze_entry sv day schedule analyzed w with
      | (Ok analyzed', w') => (Analyzing rest analyzed', w')
      | (Raise e, w') => handler_fails e w'
      end
  | (Publishing analyzed, w) =>
      (Published analyzed, snd (store_active_schedules analyzed w))
  | (Published analyzed, w) =>
      (Answered (PlanningRecu analyzed, 200),
       snd ((start_schedule_thread ;;;
             log_irrigation "schedule_received" PNone PNone "ok" "SCHEDULE_AI") w))
  | (Answered r, w) => (Answered r, w)
  end.

Fixpoint handler_run (sv : services) (n : nat) (c : handler_state * world)
    : handler_state * world :=
  match n with
  | O => c
  | Datatypes.S n' => handler_run sv n' (handler_step sv c)
  end.

(** Where a turn of [monitor_schedules] stands: before it reads the clock,
    or between its two loads of the global, holding the first. *)
Inductive monitor_state : Type :=
| Waiting
| Testing (current_time : datetime) (loaded1 : dict).

Definition monitor_step (sv : services) (m : monitor_state) (w : world)
    : monitor_state * world :=
  match m with
  | Waiting =>
      match read_clock sv w with
      | (Ok t, w1) => (Testing t (active_schedules w1), w1)
      | (Raise _, w1) => (Waiting, w1)
      end
  | Testing t loaded1 =>
      (Waiting,
       snd (try_except
              (evaluate_schedules sv t loaded1 (active_schedules w) ;;; sleep 60)
              (fun e => print (MsgErreurSurveillance e) ;;; sleep 60) w))
  end.

Inductive actor : Type := Handler | Monitor | StatusQuery.

(** The process: the two threads, the world they share, and what the
    readers have loaded from the global so far (newest first). *)
Record system : Type := mk_system {
  handler : handler_state;
  monitor : monitor_state;
  shared : world;
  loads : list dict
}.

(** One step of the actor the scheduler picks.  Either step of the
    monitoring thread loads the global once; so does a status query. *)
Definition system_step (sv : services) (s : system) (a : actor) : system :=
  match a with
  | Handler =>
      let c := handler_step sv (handler s, shared s) in
      mk_system (fst c) (monitor s) (snd c) (loads s)
  | Monitor =>
      let c := monitor_step sv (monitor s) (shared s) in
      mk_system (handler s) (fst c) (snd c) (active_schedules (shared s) :: loads s)
  | StatusQuery =>
      mk_system (handler s) (monitor s) (snd (get_schedule_status sv (shared s)))
                (active_schedules (shared s) :: loads s)
  end.

Definition system_run (sv : services) (schedule : list actor) (s : system) : system :=
  fold_left (system_step sv) schedule s.

(** An update arrives while the monitoring thread is anywhere in its turn. *)
Definition update_arrives (sv : services) (data : pyval) (m : monitor_state)
    (w : world) : system :=
  let c := handler_start sv data w in
  mk_system (fst c) m (snd c) [].

(** The handler has not rebound the global yet (or has given up). *)
Definition unpublished (h : handler_state) : Prop :=
  match h with
  | Analyzing _ _ | Publishing _ => True
  | Answered (PlanningErreur _, _) => True
  | _ => False
  end.

(** The handler has rebound the global to [analyzed]. *)
Definition published (analyzed : dict) (h : handler_state) : Prop :=
  h = Published analyzed \/ h = Answered (PlanningRecu analyzed, 200).

(** What holds of the process at every step of an update of the mapping
    [old]: the global and everything loaded from it so far is [old] until
    the rebinding, and [old] or the published mapping after it. *)
Definition coherent (old : dict) (s : system) : Prop :=
  (unpublished (handler s) /\
   active_schedules (shared s) = old /\
   Forall (fun loaded => loaded = old) (loads s)) \/
  (exists analyzed,
     published analyzed (handler s) /\
     active_schedules (shared s) = analyzed /\
     Forall (fun loaded => loaded = old \/ loaded = analyzed) (loads s)).

(** ** The other routes that log or answer for the irrigation *)

(** *** POST /irrigation/log-manual

    The two values go through the [.1f] and [.3f] of the [print] before
    they reach [log_irrigation]. *)
Definition log_manual_irrigation (data : pyval) : M response :=
  try_except
    (duration_minutes <- lift (get data "duration_minutes" (PInt 0)) ;;
     volume_m3 <- lift (get data "volume_m3" (PInt 0)) ;;
     lift (format_f duration_minutes) ;;;
     lift (format_f volume_m3) ;;;
     print (MsgLogManuelle duration_minutes volume_m3) ;;;
     log_irrigation "manual_mqtt" duration_minutes volume_m3 "ok" "MANUAL_DIRECT" ;;;
     ret (ManuelleLoggee, 200))
    (fun e => print (MsgErreurLogManuelle e) ;;; ret (EchecRoute e, 500)).

(** *** POST /irrigation/manual and POST /irrigation/stop *)

Definition start_manual_irrigation : M response :=
  try_except
    (print MsgLegacyManuelle ;;; ret (LegacyManuelle, 200))
    (fun e => print (MsgErreurLegacyManuelle e) ;;; ret (EchecRoute e, 500)).

Definition stop_irrigation : M response :=
  try_except
    (print MsgArretDemande ;;; ret (IrrigationArretee, 200))
    (fun e => print (MsgErreurArret e) ;;; ret (EchecRoute e, 500)).

(** ** More observations on a trace *)

Definition is_log (ev : event) : bool :=
  match ev with LogIrrigation _ _ _ _ _ => true | _ => false end.

(** The records appended to the activity log, newest first. *)
Definition logs (tr : list event) : list event := filter is_log tr.

Definition is_thread_start (ev : event) : bool :=
  match ev with StartThread => true | _ => false end.

Definition thread_starts (tr : list event) : nat :=
  List.length (filter is_thread_start tr).

Definition is_sleep (ev : event) : bool :=
  match ev with Sleep _ => true | _ => false end.

Definition sleeps (tr : list event) : list event := filter is_sleep tr.

(** What a computation leaves alone when all it does is print and call the
    ML service: the globals, the gateway, the clock, the activity log. *)
Definition quiet (w w' : world) : Prop :=
  active_schedules w' = active_schedules w /\
  schedule_thread w' = schedule_thread w /\
  mqtt_calls w' = mqtt_calls w /\
  clock_reads w' = clock_reads w /\
  fires (trace w') = fires (trace w) /\
  logs (trace w') = logs (trace w) /\
  thread_starts (trace w') = thread_starts (trace w).

(** The entries of a submitted mapping that [schedule.get('enabled')]
    lets through, in the order submitted. *)
Definition enabled_entries (entries : list (string * pyval)) : list (string * pyval) :=
  filter (fun e => is_enabled (snd e)) entries.

(** The submitted mapping of a body that [receive_schedule] accepts: the
    body is an object, its [schedules] (an empty object when missing) is an
    object, and so is every entry. *)
Definition accepted_payload (data : pyval) : option (list (string * pyval)) :=
  match get data "schedules" (PDict []) with
  | Ok (PDict entries) =>
      if forallb (fun e => is_dict (snd e)) entries then Some entries else None
  | _ => None
  end.

(** The mapping [receive_schedule] builds from accepted entries, the ML
    service having been called [k] times before. *)
Fixpoint analysis (sv : services) (k : nat) (entries : list (string * pyval))
    (analyzed : dict) : dict :=
  match entries with
  | [] => analyzed
  | (day, schedule) :: rest =>
      match schedule with
      | PDict d =>
          if is_enabled schedule then
            analysis sv (Datatypes.S k) rest
              (dict_set analyzed day (PDict (analyzed_slot sv k d)))
          else analysis sv k rest analyzed
      | _ => analyzed
      end
  end.

(** The seven keys the monitoring thread looks up. *)
Definition french_days : list string := map snd day_mapping.

(** A stored value as ingestion leaves it: an object carrying the three
    [ai_] fields, with the fallback pair when it is not optimised. *)
Definition annotated (v : pyval) : Prop :=
  exists slot optimized duration volume,
    v = PDict slot /\
    dict_get slot "ai_optimized" = Some (PBool optimized) /\
    dict_get slot "ai_duration_minutes" = Some duration /\
    dict_get slot "ai_volume_m3" = Some volume /\
    (optimized = false -> duration = PInt 30 /\ volume = PFloat float_0_6).

Definition is_print (ev : event) : bool :=
  match ev with Print _ => true | _ => false end.


(** Monday submitted under its English name. *)
Definition english_world : world :=
  snd (receive_schedule sv_monday (one_day_request "Monday" "08:00" true) initial_world).

(** Monday 08:00 submitted as [8:00]. *)
Definition unpadded_world : world :=
  snd (receive_schedule sv_monday (one_day_request "Lundi" "8:00" true) initial_world).

(** The ML service recommends a duration that is not a number. *)
Definition sv_monday_nan : services :=
  steady S754_nan (float_lit 9 10) (Returns (true, "ok")) (mk_datetime Monday 8 0).

Definition nan_world : world :=
  snd (receive_schedule sv_monday_nan (one_day_request "Lundi" "08:00" true) initial_world).

(** The calls the turns at clock readings [ts] come to, newest first. *)
Fixpoint scheduled_calls (sv : services) (store : dict) (ts : list datetime) : list event :=
  match ts with
  | [] => []
  | t :: rest =>
      (scheduled_calls sv store rest
       ++ match scheduled_call sv store t with
          | Some call => [call]
          | None => []
          end)%list
  end.

(** What [arroser] leaves alone: the schedules, the monitoring thread, the
    gateway and the clock. *)
Definition untouched_by_arroser (w w' : world) : Prop :=
  active_schedules w' = active_schedules w /\
  schedule_thread w' = schedule_thread w /\
  mqtt_calls w' = mqtt_calls w /\
  clock_reads w' = clock_reads w /\
  fires (trace w') = fires (trace w) /\
  thread_starts (trace w') = thread_starts (trace w).

(** The ML service answers every call with [prediction]. *)
Definition sv_predicting (prediction : pyval) : services :=
  mk_services (fun _ => Returns prediction) (fun _ => Returns (true, "ok"))
              (fun _ => mk_datetime Monday 8 0) (fun _ => None) (fun _ => None).

Definition fifteen_request : pyval :=
  PDict [("features", PList (List.repeat (PInt 1) 15))].

(** A [float] parser that knows the ten digits, each as one character. *)
Definition digit_parser (s : string) : option spec_float :=
  match s with
  | String c EmptyString =>
      let n := nat_of_ascii c in
      if (48 <=? n)%nat && (n <=? 57)%nat then Some (float_of_Z (Z.of_nat (n - 48)))
      else None
  | _ => None
  end.

Definition sv_digits : services :=
  mk_services (fun _ => Returns (recommendation (float_lit 225 10) (float_lit 9 10)))
              (fun _ => Returns (true, "ok"))
              (fun _ => mk_datetime Monday 8 0) digit_parser (fun _ => None).

(** The features sent as one string of fifteen digits. *)
Definition string_request : pyval := PDict [("features", PStr "123456789012345")].

(** ** The monitoring thread on a standard output that can fail

    [print] raises when its line cannot be written: a [BrokenPipeError] or
    another [OSError] on a pipe whose reader is gone or on a full disk.
    [stdout written m] tells whether the line [m] is accepted once
    [written] lines have been; a refused line leaves no output.  The
    functions of this module are those of the monitoring thread above with
    this [print] in the place of the one that always writes;
    [log_irrigation] and [time.sleep] are as before. *)
Module Stdout.

Section Stream.

Variable stdout : nat -> message -> bool.
Variable sv : services.

(** The lines written so far. *)
Definition written (w : world) : nat := List.length (filter is_print (trace w)).

Definition print (m : message) : M unit :=
  fun w => if stdout (written w) m then (Ok tt, record (Print m) w)
           else (Raise OSError, w).

Definition trigger_irrigation (schedule : pyval)
    (french_day current_hour_min : string) : M unit :=
  print (MsgDeclenchement french_day current_hour_min) ;;;
  duration_minutes <- lift (get schedule "ai_duration_minutes" (PInt 30)) ;;
  volume_m3 <- lift (get schedule "ai_volume_m3" (PFloat float_0_6)) ;;
  duration_seconds <- lift (duration_seconds_of sv duration_minutes) ;;
  answer <- call_demarrer_arrosage sv duration_seconds volume_m3 "SCHEDULE_AI" ;;
  if fst answer then
    print (MsgIrrigationDemarree duration_minutes) ;;;
    log_irrigation "schedule_executed" duration_minutes volume_m3 "started" "SCHEDULE_AI"
  else print (MsgEchecIrrigation (snd answer)).

Definition evaluate_schedules (t : datetime) (loaded1 loaded2 : dict) : M unit :=
  let current_day := strftime_A t in
  let current_hour_min := strftime_HM t in
  match mapping_get day_mapping current_day with
  | None => ret tt
  | Some french_day =>
      if negb (String.eqb french_day "") && dict_mem loaded1 french_day then
        schedule <- lift (getitem (PDict loaded2) french_day) ;;
        due <- lift (slot_due schedule current_hour_min) ;;
        if due then trigger_irrigation schedule french_day current_hour_min
        else ret tt
      else ret tt
  end.

(** The [try] block of the loop. *)
Definition monitor_tick : M unit :=
  current_time <- read_clock sv ;;
  active <- load_active_schedules ;;
  evaluate_schedules current_time active active ;;;
  sleep 60.

(** One turn of [while True]: the [print] of the [except] clause is itself
    under no [try], and the [time.sleep] after it is reached only when the
    line was written. *)
Definition monitor_iteration : M unit :=
  try_except monitor_tick
    (fun e => print (MsgErreurSurveillance e) ;;; sleep 60).

(** The first [n] turns of the loop; an exception that leaves a turn leaves
    the loop, and the thread with it. *)
Fixpoint monitor_loop (n : nat) : M unit :=
  match n with
  | O => ret tt
  | Datatypes.S n' => monitor_iteration ;;; monitor_loop n'
  end.

Definition monitor_schedules (n : nat) : M unit :=
  print MsgDemarrageSurveillance ;;; monitor_loop n.

End Stream.

End Stdout.

(** A standard output that takes every line, and one whose reader goes
    away once [k] lines have been written. *)
Definition stdout_open : nat -> message -> bool := fun _ _ => true.

Definition stdout_breaks_after (k : nat) : nat -> message -> bool :=
  fun written _ => (written <? k)%nat.

(** Monday 08:00 with a gateway that raises at every command. *)
Definition sv_monday_unreachable : services :=
  steady (float_lit 225 10) (float_lit 9 10) Raises (mk_datetime Monday 8 0).

(** An update that schedules no day. *)
Definition empty_request : pyval := PDict [("schedules", PDict [])].

(** ** Facts about the Python model *)

Lemma dict_get_set_same (d : dict) (k : string) (v : pyval) :
  dict_get (dict_set d k v) k = Some v.
Proof.
  induction d as [|[k' v'] d IH]; simpl.
  - now rewrite String.eqb_refl.
  - destruct (String.eqb k' k) eqn:Hk; simpl; rewrite Hk; auto.
Qed.

Lemma dict_get_set_other (d : dict) (k k' : string) (v : pyval) :
  k <> k' -> dict_get (dict_set d k v) k' = dict_get d k'.
Proof.
  intros Hne. induction d as [|[k0 v0] d IH]; simpl.
  - destruct (String.eqb k k') eqn:Hk; auto.
    apply String.eqb_eq in Hk. contradiction.
  - destruct (String.eqb k0 k) eqn:Hk; simpl.
    + apply String.eqb_eq in Hk. subst k0.
      destruct (String.eqb k k') eqn:Hk'; auto.
      apply String.eqb_eq in Hk'. contradiction.
    + now rewrite IH.
Qed.

Lemma dict_set_set (d : dict) (k : string) (v1 v2 : pyval) :
  dict_set (dict_set d k v1) k v2 = dict_set d k v2.
Proof.
  induction d as [|[k' v'] d IH]; simpl.
  - now rewrite String.eqb_refl.
  - destruct (String.eqb k' k) eqn:Hk; simpl; rewrite Hk; auto.
    now rewrite IH.
Qed.

Lemma dict_mem_get (d : dict) (k : string) :
  dict_mem d k = true -> exists v, dict_get d k = Some v.
Proof.
  unfold dict_mem. destruct (dict_get d k) as [v|]; [eauto | discriminate].
Qed.

Lemma eq_str_true (v : pyval) (s : string) :
  eq_str v s = true -> v = PStr s.
Proof.
  destruct v; simpl; try discriminate.
  intros H. apply String.eqb_eq in H. now subst.
Qed.

(** What [slot_due] accepts: a dict whose [enabled] is true and whose
    [startTime] is the very string of the clock. *)
Lemma slot_due_true (schedule : pyval) (hm : string) :
  slot_due schedule hm = Ok true ->
  exists slot enabled,
    schedule = PDict slot /\
    dict_get slot "enabled" = Some enabled /\ truthy enabled = true /\
    dict_get slot "startTime" = Some (PStr hm).
Proof.
  unfold slot_due, get.
  destruct schedule as [| | | | | |slot]; try discriminate.
  destruct (dict_get slot "enabled") as [enabled|] eqn:He; simpl; [|discriminate].
  destruct (truthy enabled) eqn:Ht; [|discriminate].
  destruct (dict_get slot "startTime") as [st|] eqn:Hs; simpl; [|discriminate].
  intros H. injection H as H. apply eq_str_true in H. subst st.
  exists slot, enabled. auto.
Qed.

(** *** The clock strings *)

Lemma digit_inj (a b : nat) :
  (a < 10)%nat -> (b < 10)%nat -> digit a = digit b -> a = b.
Proof.
  intros Ha Hb H. unfold digit in H.
  apply (f_equal nat_of_ascii) in H.
  rewrite !nat_ascii_embedding in H by lia. lia.
Qed.

Lemma two_digits_inj (a b : nat) :
  (a < 100)%nat -> (b < 100)%nat -> two_digits a = two_digits b -> a = b.
Proof.
  intros Ha Hb H. unfold two_digits in H.
  assert (H1 : digit (a / 10) = digit (b / 10)) by congruence.
  assert (H2 : digit (a mod 10) = digit (b mod 10)) by congruence.
  assert (Hq : (a / 10 < 10)%nat) by (apply Nat.Div0.div_lt_upper_bound; lia).
  assert (Hq' : (b / 10 < 10)%nat) by (apply Nat.Div0.div_lt_upper_bound; lia).
  assert (Hr : (a mod 10 < 10)%nat) by (apply Nat.mod_upper_bound; lia).
  assert (Hr' : (b mod 10 < 10)%nat) by (apply Nat.mod_upper_bound; lia).
  apply digit_inj in H1; auto. apply digit_inj in H2; auto.
  pose proof (Nat.div_mod_eq a 10) as Ea. pose proof (Nat.div_mod_eq b 10) as Eb.
  rewrite H1, H2 in Ea. congruence.
Qed.

(** Two valid clock readings print the same [%H:%M] only when they agree
    on the hour and on the minute. *)
Lemma strftime_HM_inj (t t' : datetime) :
  valid_datetime t = true -> valid_datetime t' = true ->
  strftime_HM t = strftime_HM t' ->
  dt_hour t = dt_hour t' /\ dt_minute t = dt_minute t'.
Proof.
  unfold valid_datetime, strftime_HM. intros Hv Hv' H.
  apply andb_prop in Hv as [Hh Hm]. apply andb_prop in Hv' as [Hh' Hm'].
  apply Nat.ltb_lt in Hh, Hm, Hh', Hm'.
  unfold two_digits in H. cbn [append] in H.
  split; apply two_digits_inj; try lia; unfold two_digits; congruence.
Qed.

(** ** The monitoring thread, one turn at a time *)

Ltac run_monad :=
  unfold try_except, try_else, bind, lift, ret, print, sleep, log_irrigation,
    emit, load_active_schedules, read_clock, call_demarrer_arrosage; simpl.

(** The duration and the volume [trigger_irrigation] reads off a slot. *)
Lemma trigger_irrigation_spec (sv : services) (slot : dict)
    (french_day hm : string) (w : world) :
  forall dm vol,
    get (PDict slot) "ai_duration_minutes" (PInt 30) = Ok dm ->
    get (PDict slot) "ai_volume_m3" (PFloat float_0_6) = Ok vol ->
    match duration_seconds_of sv dm with
    | Raise e =>
        trigger_irrigation sv (PDict slot) french_day hm w
        = (Raise e, record (Print (MsgDeclenchement french_day hm)) w)
    | Ok secs =>
        let call := DemarrerArrosage secs vol "SCHEDULE_AI" in
        let w1 := record (Print (MsgDeclenchement french_day hm)) w in
        exists r w',
          trigger_irrigation sv (PDict slot) french_day hm w = (r, w') /\
          fires (trace w') = call :: fires (trace w) /\
          mqtt_calls w' = Datatypes.S (mqtt_calls w) /\
          active_schedules w' = active_schedules w /\
          clock_reads w' = clock_reads w /\
          match demarrer_arrosage_async sv (mqtt_calls w) with
          | Returns (true, _) =>
              r = Ok tt /\
              trace w' = LogIrrigation "schedule_executed" dm vol "started" "SCHEDULE_AI"
                         :: Print (MsgIrrigationDemarree dm) :: call :: trace w1
          | Returns (false, reason) =>
              r = Ok tt /\
              trace w' = Print (MsgEchecIrrigation reason) :: call :: trace w1
          | Raises =>
              r = Raise ServiceError /\ trace w' = call :: trace w1
          end
    end.
Proof.
  intros dm vol Hdm Hvol.
  unfold trigger_irrigation. rewrite Hdm, Hvol.
  destruct (duration_seconds_of sv dm) as [secs|e] eqn:Hs; run_monad; rewrite Hs; auto.
  destruct (demarrer_arrosage_async sv (mqtt_calls w)) as [[[|] reason]|];
    simpl; eexists; eexists; repeat split; reflexivity.
Qed.

Lemma slot_at_some (store : dict) (t : datetime) (schedule : pyval) :
  slot_at store t = Some schedule ->
  exists french_day,
    mapping_get day_mapping (strftime_A t) = Some french_day /\
    negb (String.eqb french_day "") = true /\
    dict_get store french_day = Some schedule.
Proof.
  unfold slot_at.
  destruct (mapping_get day_mapping (strftime_A t)) as [fd|]; [|discriminate].
  destruct (negb (String.eqb fd "")) eqn:Hn; [|discriminate].
  intros H. exists fd. auto.
Qed.

(** A slot that is due is a dict, enabled, whose [startTime] is the clock's
    [%H:%M]. *)
Lemma due_true (store : dict) (t : datetime) :
  due store t = true ->
  exists french_day slot enabled,
    mapping_get day_mapping (strftime_A t) = Some french_day /\
    slot_at store t = Some (PDict slot) /\
    dict_get store french_day = Some (PDict slot) /\
    dict_get slot "enabled" = Some enabled /\ truthy enabled = true /\
    dict_get slot "startTime" = Some (PStr (strftime_HM t)).
Proof.
  unfold due.
  destruct (slot_at store t) as [schedule|] eqn:Hs; [|discriminate].
  destruct (slot_due schedule (strftime_HM t)) as [[|]|] eqn:Hd; try discriminate.
  intros _.
  apply slot_due_true in Hd as (slot & enabled & -> & He & Ht & Hst).
  destruct (slot_at_some _ _ _ Hs) as (fd & Hm & _ & Hg).
  exists fd, slot, enabled. auto 10.
Qed.

(** Without a due slot a turn's evaluation leaves the world as it is. *)
Lemma evaluate_schedules_not_due (sv : services) (t : datetime) (store : dict) (w : world) :
  due store t = false ->
  snd (evaluate_schedules sv t store store w) = w.
Proof.
  unfold due, slot_at, evaluate_schedules.
  destruct (mapping_get day_mapping (strftime_A t)) as [fd|]; [|reflexivity].
  destruct (negb (String.eqb fd "")); simpl; [|reflexivity].
  unfold dict_mem.
  destruct (dict_get store fd) as [schedule|] eqn:Hg; [|reflexivity].
  run_monad.
  destruct (slot_due schedule (strftime_HM t)) as [[|]|]; simpl;
    [discriminate | reflexivity | reflexivity].
Qed.

(** With a due slot it is [trigger_irrigation] on that slot. *)
Lemma evaluate_schedules_due (sv : services) (t : datetime) (store : dict) (w : world) :
  due store t = true ->
  exists french_day slot,
    slot_at store t = Some (PDict slot) /\
    evaluate_schedules sv t store store w
    = trigger_irrigation sv (PDict slot) french_day (strftime_HM t) w.
Proof.
  intros Hdue.
  destruct (due_true _ _ Hdue) as (fd & slot & enabled & Hm & Hs & Hg & _).
  exists fd, slot. split; [assumption|].
  unfold due in Hdue. rewrite Hs in Hdue.
  unfold slot_at in Hs. rewrite Hm in Hs.
  unfold evaluate_schedules. rewrite Hm.
  destruct (negb (String.eqb fd "")); [|discriminate].
  unfold dict_mem. rewrite Hg. run_monad. unfold getitem. rewrite Hg.
  destruct (slot_due (PDict slot) (strftime_HM t)) as [[|]|]; try discriminate.
  reflexivity.
Qed.

(** The calls of the gateway after one evaluation. *)
Lemma evaluate_schedules_fires (sv : services) (t : datetime) (store : dict) (w : world) :
  let w' := snd (evaluate_schedules sv t store store w) in
  fires (trace w') =
    match scheduled_call sv store t with
    | Some call => call :: fires (trace w)
    | None => fires (trace w)
    end /\
  active_schedules w' = active_schedules w /\
  clock_reads w' = clock_reads w.
Proof.
  simpl. unfold scheduled_call.
  destruct (due store t) eqn:Hdue.
  - destruct (evaluate_schedules_due sv t store w Hdue) as (fd & slot & Hs & ->).
    rewrite Hs. simpl get.
    set (dm := match dict_get slot "ai_duration_minutes" with
               | Some x => x | None => PInt 30 end).
    set (vol := match dict_get slot "ai_volume_m3" with
                | Some x => x | None => PFloat float_0_6 end).
    pose proof (trigger_irrigation_spec sv slot fd (strftime_HM t) w dm vol
                  eq_refl eq_refl) as H.
    cbv beta iota.
    destruct (duration_seconds_of sv dm) as [secs|e].
    + destruct H as (r & w' & -> & Hf & _ & Ha & Hc & _). cbn [snd]. auto.
    + rewrite H. cbn [snd]. auto.
  - rewrite evaluate_schedules_not_due by assumption. auto.
Qed.

Lemma fires_cons (ev : event) (tr : list event) :
  fires (ev :: tr) = if is_fire ev then ev :: fires tr else fires tr.
Proof. reflexivity. Qed.

Lemma fires_record (ev : event) (w : world) :
  is_fire ev = false -> fires (trace (record ev w)) = fires (trace w).
Proof. intros H. unfold fires. simpl. now rewrite H. Qed.

(** The world a turn's evaluation starts from: the clock has been read. *)
Lemma read_clock_spec (sv : services) (w : world) :
  exists w1,
    read_clock sv w = (Ok (now sv (clock_reads w)), w1) /\
    active_schedules w1 = active_schedules w /\
    trace w1 = trace w /\
    mqtt_calls w1 = mqtt_calls w /\
    clock_reads w1 = Datatypes.S (clock_reads w).
Proof. eexists. unfold read_clock. repeat split. Qed.

(** With a [print] that always writes, a turn of the loop never raises; it
    reads the clock once, leaves the schedules alone and calls the gateway
    as [scheduled_call] says. *)
Lemma monitor_iteration_spec (sv : services) (w : world) :
  exists w',
    monitor_iteration sv w = (Ok tt, w') /\
    clock_reads w' = Datatypes.S (clock_reads w) /\
    active_schedules w' = active_schedules w /\
    fires (trace w') =
      match scheduled_call sv (active_schedules w) (now sv (clock_reads w)) with
      | Some call => call :: fires (trace w)
      | None => fires (trace w)
      end.
Proof.
  destruct (read_clock_spec sv w) as (w1 & Hr & Ha & Ht & _ & Hc).
  unfold monitor_iteration, monitor_tick, try_except, try_else, bind.
  rewrite Hr. unfold load_active_schedules.
  pose proof (evaluate_schedules_fires sv (now sv (clock_reads w))
                (active_schedules w1) w1) as (Hf & Ha' & Hc').
  destruct (evaluate_schedules sv (now sv (clock_reads w)) (active_schedules w1)
              (active_schedules w1) w1) as [[[]|e] w2]; cbn [snd] in *;
    (eexists; split; [reflexivity|]);
    unfold record; cbn [clock_reads active_schedules trace];
    rewrite !fires_cons; cbn [is_fire];
    rewrite Hf, Ha, Ht; repeat split; congruence.
Qed.

Lemma monitor_loop_succ (sv : services) (n : nat) (w : world) :
  monitor_loop sv (Datatypes.S n) w = monitor_loop sv n (snd (monitor_iteration sv w)).
Proof.
  destruct (monitor_iteration_spec sv w) as (w' & H & _).
  simpl. unfold bind. now rewrite H.
Qed.

(** Any number of turns goes through: the loop is never left. *)
Lemma monitor_loop_spec (sv : services) (n : nat) :
  forall w, exists w',
    monitor_loop sv n w = (Ok tt, w') /\
    clock_reads w' = (clock_reads w + n)%nat /\
    active_schedules w' = active_schedules w /\
    (List.length (fires (trace w'))
     <= List.length (fires (trace w))
        + count_due (active_schedules w) (readings sv (clock_reads w) n))%nat.
Proof.
  induction n as [|n IH]; intros w.
  - exists w. simpl. repeat split; lia.
  - rewrite monitor_loop_succ.
    destruct (monitor_iteration_spec sv w) as (w1 & H1 & Hc1 & Ha1 & Hf1).
    rewrite H1. cbn [snd].
    destruct (IH w1) as (w' & H & Hc & Ha & Hf).
    exists w'. split; [assumption|].
    split; [lia|]. split; [congruence|].
    rewrite Hc1, Ha1 in Hf.
    unfold readings, count_due in *. cbn [seq map filter].
    unfold scheduled_call in Hf1.
    destruct (due (active_schedules w) (now sv (clock_reads w))).
    + assert (List.length (fires (trace w1)) <= Datatypes.S (List.length (fires (trace w))))%nat.
      { rewrite Hf1.
        destruct (slot_at _ _); [|lia].
        destruct (get _ _ _); [|lia]. destruct (get _ _ _); [|lia].
        destruct (duration_seconds_of _ _); simpl; lia. }
      simpl. lia.
    + rewrite Hf1 in Hf. lia.
Qed.

Lemma monitor_loop_snoc (sv : services) (n : nat) (w : world) :
  snd (monitor_loop sv (Datatypes.S n) w)
  = snd (monitor_iteration sv (snd (monitor_loop sv n w))).
Proof.
  revert w. induction n as [|n IH]; intros w.
  - rewrite monitor_loop_succ. reflexivity.
  - rewrite monitor_loop_succ. rewrite IH. now rewrite <- monitor_loop_succ.
Qed.

(** ** The claims about the monitoring thread *)

Lemma day_mapping_total (t : datetime) :
  exists french_day,
    mapping_get day_mapping (strftime_A t) = Some french_day /\
    String.eqb french_day "" = false.
Proof.
  unfold strftime_A. destruct (dt_weekday t); simpl; eexists; split; reflexivity.
Qed.

Lemma slot_at_lookup (store : dict) (t : datetime) (french_day : string) :
  mapping_get day_mapping (strftime_A t) = Some french_day ->
  slot_at store t = dict_get store french_day.
Proof.
  intros Hm. unfold slot_at. rewrite Hm.
  destruct (day_mapping_total t) as (fd & Hm' & Hne).
  assert (fd = french_day) by congruence. subst fd. now rewrite Hne.
Qed.

Lemma not_due_no_call (sv : services) (store : dict) (t : datetime) :
  due store t = false -> scheduled_call sv store t = None.
Proof. intros H. unfold scheduled_call. now rewrite H. Qed.

(** C2: a turn of the loop calls the actuation gateway only when the
    schedules hold a slot under the current day key, that slot is enabled
    and its [startTime] is the string of the current hour and minute.
    With no slot under the day key, with a disabled slot, or with the
    [startTime] of any other minute of the day, the turn makes no call. *)
Theorem actuation_only_when_due (sv : services) (w : world) :
  let t := now sv (clock_reads w) in
  let w' := snd (monitor_iteration sv w) in
  (fires (trace w') <> fires (trace w) ->
   exists french_day slot enabled,
     mapping_get day_mapping (strftime_A t) = Some french_day /\
     dict_get (active_schedules w) french_day = Some (PDict slot) /\
     dict_get slot "enabled" = Some enabled /\ truthy enabled = true /\
     dict_get slot "startTime" = Some (PStr (strftime_HM t))) /\
  (forall french_day,
     mapping_get day_mapping (strftime_A t) = Some french_day ->
     (dict_get (active_schedules w) french_day = None ->
      fires (trace w') = fires (trace w)) /\
     (forall slot enabled,
        dict_get (active_schedules w) french_day = Some (PDict slot) ->
        get (PDict slot) "enabled" PNone = Ok enabled ->
        truthy enabled = false ->
        fires (trace w') = fires (trace w)) /\
     (forall slot t',
        dict_get (active_schedules w) french_day = Some (PDict slot) ->
        dict_get slot "startTime" = Some (PStr (strftime_HM t')) ->
        valid_datetime t = true -> valid_datetime t' = true ->
        (dt_hour t', dt_minute t') <> (dt_hour t, dt_minute t) ->
        fires (trace w') = fires (trace w))).
Proof.
  intros t w'.
  destruct (monitor_iteration_spec sv w) as (w1 & H1 & _ & _ & Hf).
  assert (Hw : w' = w1) by (unfold w'; now rewrite H1).
  rewrite Hw. fold t in Hf. clear Hw H1 w'.
  assert (Hquiet : due (active_schedules w) t = false ->
                   fires (trace w1) = fires (trace w)).
  { intros Hd. now rewrite Hf, not_due_no_call. }
  split.
  - intros Hfire.
    destruct (due (active_schedules w) t) eqn:Hdue.
    + destruct (due_true _ _ Hdue) as (fd & slot & enabled & Hm & _ & Hg & He & Ht & Hs).
      exists fd, slot, enabled. auto.
    + now elim Hfire; apply Hquiet.
  - intros fd Hm. repeat split.
    + intros Hnone. apply Hquiet. unfold due.
      now rewrite (slot_at_lookup _ _ _ Hm), Hnone.
    + intros slot enabled Hg He Ht. apply Hquiet. unfold due.
      rewrite (slot_at_lookup _ _ _ Hm), Hg. unfold slot_due.
      now rewrite He, Ht.
    + intros slot t' Hg Hs Hv Hv' Hne. apply Hquiet.
      destruct (due (active_schedules w) t) eqn:Hdue; [|reflexivity].
      destruct (due_true _ _ Hdue) as (fd' & slot' & _ & Hm' & _ & Hg' & _ & _ & Hs').
      assert (fd' = fd) by congruence. subst fd'.
      assert (slot' = slot) by congruence. subst slot'.
      assert (Heq : strftime_HM t' = strftime_HM t) by congruence.
      apply strftime_HM_inj in Heq; auto.
      destruct Heq as [Hh Hmin]. elim Hne. now rewrite Hh, Hmin.
Qed.

Lemma actuation_only_when_due_witness :
  exists slot,
    dict_get (active_schedules monday_world) "Lundi" = Some (PDict slot) /\
    dict_get slot "startTime" = Some (PStr "08:00").
Proof.
  destruct (proj1 (actuation_only_when_due sv_monday monday_world))
    as (fd & slot & enabled & Hm & Hg & _ & _ & Hs).
  - vm_compute. discriminate.
  - vm_compute in Hm. injection Hm as <-.
    exists slot. split; [exact Hg | exact Hs].
Defined.

Lemma due_intro (store : dict) (t : datetime) (french_day : string)
    (slot : dict) (enabled : pyval) :
  mapping_get day_mapping (strftime_A t) = Some french_day ->
  dict_get store french_day = Some (PDict slot) ->
  dict_get slot "enabled" = Some enabled -> truthy enabled = true ->
  dict_get slot "startTime" = Some (PStr (strftime_HM t)) ->
  due store t = true /\ slot_at store t = Some (PDict slot).
Proof.
  intros Hm Hg He Ht Hs.
  rewrite (slot_at_lookup _ _ _ Hm). split; [|assumption].
  unfold due. rewrite (slot_at_lookup _ _ _ Hm), Hg.
  unfold slot_due, get. rewrite He, Ht, Hs. cbn [eq_str].
  rewrite String.eqb_refl. reflexivity.
Qed.

(** The call made for a due slot, from the two fields as [get] reads them. *)
Lemma due_call (sv : services) (w : world) (french_day : string)
    (slot : dict) (enabled : pyval) (duration_seconds : Z) :
  let t := now sv (clock_reads w) in
  mapping_get day_mapping (strftime_A t) = Some french_day ->
  dict_get (active_schedules w) french_day = Some (PDict slot) ->
  dict_get slot "enabled" = Some enabled -> truthy enabled = true ->
  dict_get slot "startTime" = Some (PStr (strftime_HM t)) ->
  forall duration_minutes volume_m3,
    get (PDict slot) "ai_duration_minutes" (PInt 30) = Ok duration_minutes ->
    get (PDict slot) "ai_volume_m3" (PFloat float_0_6) = Ok volume_m3 ->
    duration_seconds_of sv duration_minutes = Ok duration_seconds ->
    fires (trace (snd (monitor_iteration sv w)))
    = DemarrerArrosage duration_seconds volume_m3 "SCHEDULE_AI" :: fires (trace w).
Proof.
  intros t Hm Hg He Ht Hs dm vol Hdm Hvol Hsec.
  destruct (monitor_iteration_spec sv w) as (w' & -> & _ & _ & Hf).
  cbn [snd]. rewrite Hf. fold t. unfold scheduled_call.
  destruct (due_intro _ _ _ _ _ Hm Hg He Ht Hs) as [-> ->].
  rewrite Hdm, Hvol, Hsec. reflexivity.
Qed.

(** Truncation of a positive binary64 number [m * 2^e]. *)
Lemma float_trunc_positive (m : positive) (e : Z) :
  exists z,
    float_trunc (S754_finite false m e) = Ok z /\ 0 <= z /\
    (e < 0 -> z * 2 ^ (- e) <= Zpos m < (z + 1) * 2 ^ (- e)) /\
    (0 <= e -> z = Zpos m * 2 ^ e).
Proof.
  unfold float_trunc, cond_Zopp.
  destruct e as [|p|p].
  - exists (Zpos m). simpl Z.shiftl. repeat split; try lia.
  - exists (Z.shiftl (Zpos m) (Zpos p)). rewrite Z.shiftl_mul_pow2 by lia.
    repeat split; try lia.
  - exists (Z.shiftr (Zpos m) (Zpos p)). rewrite Z.shiftr_div_pow2 by lia.
    assert (Hp : 0 < 2 ^ Zpos p) by (apply Z.pow_pos_nonneg; lia).
    split; [reflexivity|].
    split; [apply Z.div_pos; lia|].
    split; [|lia]. intros _.
    replace (- Zneg p) with (Zpos p) by reflexivity.
    pose proof (Z.div_mod (Zpos m) (2 ^ Zpos p)) as Hdm.
    pose proof (Z.mod_pos_bound (Zpos m) (2 ^ Zpos p) Hp) as Hb.
    nia.
Qed.

(** C6 (as amended): when a slot fires, the gateway is called with
    [int(ai_duration_minutes * 60)] seconds, with the slot's [ai_volume_m3]
    and with the origin tag [SCHEDULE_AI].  For a duration that is a float,
    integral or not, whose binary64 product by 60 is positive and finite,
    the seconds are that product cut towards zero, not rounded to the
    nearest integer; for a duration that is an [int] they are sixty times
    it. *)
Theorem actuation_arguments (sv : services) (w : world) (french_day : string)
    (slot : dict) (enabled duration_minutes volume_m3 : pyval) :
  let t := now sv (clock_reads w) in
  mapping_get day_mapping (strftime_A t) = Some french_day ->
  dict_get (active_schedules w) french_day = Some (PDict slot) ->
  dict_get slot "enabled" = Some enabled -> truthy enabled = true ->
  dict_get slot "startTime" = Some (PStr (strftime_HM t)) ->
  dict_get slot "ai_duration_minutes" = Some duration_minutes ->
  dict_get slot "ai_volume_m3" = Some volume_m3 ->
  (forall duration_seconds,
     duration_seconds_of sv duration_minutes = Ok duration_seconds ->
     fires (trace (snd (monitor_iteration sv w)))
     = DemarrerArrosage duration_seconds volume_m3 "SCHEDULE_AI" :: fires (trace w)) /\
  (forall duration m e,
     duration_minutes = PFloat duration ->
     float_mul duration (float_of_Z 60) = S754_finite false m e ->
     exists duration_seconds,
       duration_seconds_of sv duration_minutes = Ok duration_seconds /\
       0 <= duration_seconds /\
       (e < 0 -> duration_seconds * 2 ^ (- e) <= Zpos m
                 /\ Zpos m < (duration_seconds + 1) * 2 ^ (- e)) /\
       (0 <= e -> duration_seconds = Zpos m * 2 ^ e)) /\
  (forall n,
     duration_minutes = PInt n ->
     duration_seconds_of sv duration_minutes = Ok (n * 60)).
Proof.
  intros t Hm Hg He Ht Hs Hd Hv. split; [|split].
  - intros secs Hsec.
    apply (due_call sv w french_day slot enabled secs Hm Hg He Ht Hs
             duration_minutes volume_m3).
    + unfold get. now rewrite Hd.
    + unfold get. now rewrite Hv.
    + exact Hsec.
  - intros duration m e -> Hprod.
    destruct (float_trunc_positive m e) as (z & Hz & Hpos & Hneg & Hnonneg).
    exists z. split.
    + unfold duration_seconds_of, mul_int, to_int. now rewrite Hprod.
    + split; [assumption|]. split; [|assumption].
      intros Hlt. destruct (Hneg Hlt). auto.
  - intros n ->. reflexivity.
Qed.

Lemma actuation_arguments_witness :
  fires (trace (snd (monitor_iteration sv_monday monday_world)))
  = [DemarrerArrosage 1350 (PFloat (float_lit 9 10)) "SCHEDULE_AI"].
Proof.
  destruct (actuation_arguments sv_monday monday_world "Lundi"
              [("enabled", PBool true); ("startTime", PStr "08:00");
               ("ai_duration_minutes", PFloat (float_lit 225 10));
               ("ai_volume_m3", PFloat (float_lit 9 10));
               ("ai_optimized", PBool true)]
              (PBool true) (PFloat (float_lit 225 10)) (PFloat (float_lit 9 10)))
    as (Hcall & Hcut & _); [vm_compute; reflexivity ..|].
  destruct (Hcut (float_lit 225 10) 5937362789990400%positive (-42) eq_refl)
    as (secs & Hsec & _ & Hlo & _); [vm_compute; reflexivity|].
  destruct (Hlo eq_refl) as [Hle Hlt].
  change (2 ^ (- -42)) with 4398046511104 in Hle, Hlt.
  assert (secs = 1350) by lia.
  subst secs. exact (Hcall 1350 Hsec).
Defined.

Lemma fraction_of_second_is_cut :
  exists slot,
    dict_get (active_schedules fraction_world) "Lundi" = Some (PDict slot) /\
    dict_get slot "ai_duration_minutes" = Some (PFloat (float_lit 1441 64)) /\
    fires (trace (snd (monitor_iteration sv_monday_fraction fraction_world)))
    = [DemarrerArrosage 1350 (PFloat (float_lit 9 10)) "SCHEDULE_AI"] /\
    spec_round (float_mul (float_lit 1441 64) (float_of_Z 60)) = Ok 1351.
Proof.
  eexists. split; [vm_compute; reflexivity|].
  split; [vm_compute; reflexivity|].
  split; vm_compute; reflexivity.
Qed.

(** What a turn prints around a call of the gateway, by the gateway's
    answer; [monitor_tick] is the [try] block of the turn. *)
Lemma monitor_iteration_trace (sv : services) (w : world) (call : event) :
  scheduled_call sv (active_schedules w) (now sv (clock_reads w)) = Some call ->
  let w' := snd (monitor_iteration sv w) in
  exists french_day duration_minutes volume_m3,
    let banner := Print (MsgDeclenchement french_day
                           (strftime_HM (now sv (clock_reads w)))) in
    match demarrer_arrosage_async sv (mqtt_calls w) with
    | Returns (true, _) =>
        fst (monitor_tick sv w) = Ok tt /\
        trace w' = Sleep 60
                   :: LogIrrigation "schedule_executed" duration_minutes volume_m3
                        "started" "SCHEDULE_AI"
                   :: Print (MsgIrrigationDemarree duration_minutes)
                   :: call :: banner :: trace w
    | Returns (false, reason) =>
        fst (monitor_tick sv w) = Ok tt /\
        trace w' = Sleep 60 :: Print (MsgEchecIrrigation reason)
                   :: call :: banner :: trace w
    | Raises =>
        fst (monitor_tick sv w) = Raise ServiceError /\
        trace w' = Sleep 60 :: Print (MsgErreurSurveillance ServiceError)
                   :: call :: banner :: trace w
    end.
Proof.
  intros Hcall w'. unfold w'. clear w'.
  set (t := now sv (clock_reads w)) in *.
  unfold scheduled_call in Hcall.
  destruct (due (active_schedules w) t) eqn:Hdue; [|discriminate].
  destruct (read_clock_spec sv w) as (w1 & Hr & Ha & Ht & Hq & _).
  destruct (evaluate_schedules_due sv t (active_schedules w) w1 Hdue)
    as (fd & slot & Hs & Hev).
  rewrite Hs in Hcall. simpl get in Hcall. cbv beta iota in Hcall.
  set (dm := match dict_get slot "ai_duration_minutes" with
             | Some x => x | None => PInt 30 end) in *.
  set (vol := match dict_get slot "ai_volume_m3" with
              | Some x => x | None => PFloat float_0_6 end) in *.
  pose proof (trigger_irrigation_spec sv slot fd (strftime_HM t) w1 dm vol
                eq_refl eq_refl) as H.
  destruct (duration_seconds_of sv dm) as [secs|e]; [|discriminate].
  injection Hcall as <-.
  destruct H as (r & w2 & Htr & _ & _ & _ & _ & Hans).
  exists fd, dm, vol. cbv zeta.
  unfold monitor_iteration, monitor_tick, try_except, try_else, bind.
  rewrite Hr. unfold load_active_schedules. cbv beta iota. fold t.
  rewrite Ha, Hev, Htr.
  rewrite Hq in Hans. unfold record in Hans. cbn [trace] in Hans. rewrite Ht in Hans.
  destruct (demarrer_arrosage_async sv (mqtt_calls w)) as [[[|] reason]|];
    destruct Hans as [-> Hans]; cbn; rewrite Hans; split; reflexivity.
Qed.

(** C10: when a slot that is due lacks [ai_duration_minutes], the turn goes
    on with 30 minutes, that is 1800 seconds; when it lacks [ai_volume_m3],
    with 0.6 m³; with both missing the gateway is called with 1800 seconds
    and 0.6 m³ and, the gateway answering, the turn's [try] block ends
    without an exception. *)
Theorem defaults_for_missing_fields (sv : services) (w : world)
    (french_day : string) (slot : dict) (enabled : pyval) :
  let t := now sv (clock_reads w) in
  let w' := snd (monitor_iteration sv w) in
  mapping_get day_mapping (strftime_A t) = Some french_day ->
  dict_get (active_schedules w) french_day = Some (PDict slot) ->
  dict_get slot "enabled" = Some enabled -> truthy enabled = true ->
  dict_get slot "startTime" = Some (PStr (strftime_HM t)) ->
  (dict_get slot "ai_duration_minutes" = None ->
   forall volume_m3,
     get (PDict slot) "ai_volume_m3" (PFloat float_0_6) = Ok volume_m3 ->
     fires (trace w') = DemarrerArrosage 1800 volume_m3 "SCHEDULE_AI" :: fires (trace w) /\
     (forall answer, demarrer_arrosage_async sv (mqtt_calls w) = Returns answer ->
                     fst (monitor_tick sv w) = Ok tt)) /\
  (dict_get slot "ai_volume_m3" = None ->
   forall duration_minutes duration_seconds,
     get (PDict slot) "ai_duration_minutes" (PInt 30) = Ok duration_minutes ->
     duration_seconds_of sv duration_minutes = Ok duration_seconds ->
     fires (trace w')
     = DemarrerArrosage duration_seconds (PFloat float_0_6) "SCHEDULE_AI" :: fires (trace w) /\
     (forall answer, demarrer_arrosage_async sv (mqtt_calls w) = Returns answer ->
                     fst (monitor_tick sv w) = Ok tt)) /\
  (dict_get slot "ai_duration_minutes" = None ->
   dict_get slot "ai_volume_m3" = None ->
   fires (trace w')
   = DemarrerArrosage 1800 (PFloat float_0_6) "SCHEDULE_AI" :: fires (trace w)).
Proof.
  intros t w' Hm Hg He Ht Hs.
  assert (Hgen : forall dm vol secs,
            get (PDict slot) "ai_duration_minutes" (PInt 30) = Ok dm ->
            get (PDict slot) "ai_volume_m3" (PFloat float_0_6) = Ok vol ->
            duration_seconds_of sv dm = Ok secs ->
            fires (trace w') = DemarrerArrosage secs vol "SCHEDULE_AI" :: fires (trace w) /\
            (forall answer, demarrer_arrosage_async sv (mqtt_calls w) = Returns answer ->
                            fst (monitor_tick sv w) = Ok tt)).
  { intros dm vol secs Hdm Hvol Hsec. split.
    - apply (due_call sv w french_day slot enabled secs Hm Hg He Ht Hs dm vol); assumption.
    - intros answer Hans.
      destruct (due_intro _ _ _ _ _ Hm Hg He Ht Hs) as [Hdue Hslot].
      assert (Hcall : scheduled_call sv (active_schedules w) t
                      = Some (DemarrerArrosage secs vol "SCHEDULE_AI")).
      { unfold scheduled_call. rewrite Hdue, Hslot, Hdm, Hvol, Hsec. reflexivity. }
      destruct (monitor_iteration_trace sv w _ Hcall) as (fd & dm' & vol' & H).
      cbv zeta in H. rewrite Hans in H.
      destruct answer as [[|] reason]; apply H. }
  split; [|split].
  - intros Hnone vol Hvol.
    apply (Hgen (PInt 30) vol 1800); auto.
    unfold get. now rewrite Hnone.
  - intros Hnone dm secs Hdm Hsec.
    apply (Hgen dm (PFloat float_0_6) secs); auto.
    unfold get. now rewrite Hnone.
  - intros Hd Hv.
    apply (Hgen (PInt 30) (PFloat float_0_6) 1800); auto; unfold get.
    + now rewrite Hd.
    + now rewrite Hv.
Qed.

Lemma defaults_for_missing_fields_witness :
  fires (trace (snd (monitor_iteration sv_monday bare_world)))
  = [DemarrerArrosage 1800 (PFloat float_0_6) "SCHEDULE_AI"].
Proof.
  apply (defaults_for_missing_fields sv_monday bare_world "Lundi"
           [("enabled", PBool true); ("startTime", PStr "08:00")] (PBool true));
    vm_compute; reflexivity.
Defined.

(** C1, as stated, fails: the loop keeps no record of the minutes it has
    fired in.  With Monday 08:00 scheduled and two turns reading the same
    Monday 08:00 from the clock, the gateway is called twice, whether it
    accepts the commands or refuses them. *)
Lemma double_tick_fires_twice :
  now sv_monday 0%nat = now sv_monday 1%nat /\
  due (active_schedules monday_world) (now sv_monday 0%nat) = true /\
  ~ (List.length (fires (trace (snd (monitor_loop sv_monday 2 monday_world)))) <= 1)%nat /\
  ~ (List.length (fires (trace (snd (monitor_loop sv_monday_refused 2 monday_world)))) <= 1)%nat.
Proof.
  split; [reflexivity|]. split; [vm_compute; reflexivity|].
  split; vm_compute; lia.
Qed.

(** C1 (as amended): no minute is recorded before the actuation; a turn
    calls the gateway at most once, and only when the slot of the current
    day is due at the current minute, and then it does call it as soon as
    the slot's duration converts to seconds.  Over any number of turns the
    calls are at most as many as the turns whose clock reading falls on a
    due minute, whatever the gateway answered to the earlier ones; one call
    at most for a day and minute needs the turns to fall in different
    minutes. *)
Theorem fires_at_most_once_per_due_turn (sv : services) (n : nat) (w : world) :
  let w' := snd (monitor_loop sv n w) in
  (List.length (fires (trace w'))
   <= List.length (fires (trace w))
      + count_due (active_schedules w) (readings sv (clock_reads w) n))%nat /\
  (List.length (fires (trace (snd (monitor_iteration sv w))))
   <= List.length (fires (trace w))
      + (if due (active_schedules w) (now sv (clock_reads w)) then 1 else 0))%nat /\
  fires (trace (snd (monitor_iteration sv w)))
  = match scheduled_call sv (active_schedules w) (now sv (clock_reads w)) with
    | Some call => call :: fires (trace w)
    | None => fires (trace w)
    end.
Proof.
  intros w'. split; [|split].
  - destruct (monitor_loop_spec sv n w) as (w1 & H & _ & _ & Hf).
    unfold w'. now rewrite H.
  - destruct (monitor_loop_spec sv 1 w) as (w1 & H & _ & _ & Hf).
    rewrite monitor_loop_succ in H. simpl in H. injection H as H.
    rewrite H. unfold count_due, readings in Hf. cbn [seq map filter] in Hf.
    destruct (due (active_schedules w) (now sv (clock_reads w))); simpl in *; lia.
  - destruct (monitor_iteration_spec sv w) as (w1 & -> & _ & _ & Hf). exact Hf.
Qed.

(** With a [print] that always writes, no exception leaves a turn of the
    loop, and the loop goes on for any number of turns, reading the clock
    once in each.  A turn whose [try] block raises prints the error and
    sleeps; a turn whose command the gateway refuses prints the refusal; a
    turn in which the gateway itself raises prints that error. *)
Lemma monitor_loop_turns (sv : services) (n : nat) (w : world) :
  fst (monitor_loop sv n w) = Ok tt /\
  clock_reads (snd (monitor_loop sv n w)) = (clock_reads w + n)%nat /\
  forall k, (k < n)%nat ->
    let wk := snd (monitor_loop sv k w) in
    let wk' := snd (monitor_loop sv (Datatypes.S k) w) in
    fst (monitor_iteration sv wk) = Ok tt /\
    wk' = snd (monitor_iteration sv wk) /\
    clock_reads wk' = Datatypes.S (clock_reads wk) /\
    (forall e w1, monitor_tick sv wk = (Raise e, w1) ->
       trace wk' = Sleep 60 :: Print (MsgErreurSurveillance e) :: trace w1) /\
    (forall call reason,
       scheduled_call sv (active_schedules wk) (now sv (clock_reads wk)) = Some call ->
       demarrer_arrosage_async sv (mqtt_calls wk) = Returns (false, reason) ->
       exists banner,
         trace wk' = Sleep 60 :: Print (MsgEchecIrrigation reason)
                     :: call :: banner :: trace wk) /\
    (forall call,
       scheduled_call sv (active_schedules wk) (now sv (clock_reads wk)) = Some call ->
       demarrer_arrosage_async sv (mqtt_calls wk) = Raises ->
       exists banner,
         trace wk' = Sleep 60 :: Print (MsgErreurSurveillance ServiceError)
                     :: call :: banner :: trace wk).
Proof.
  destruct (monitor_loop_spec sv n w) as (w' & H & Hc & _).
  rewrite H. split; [reflexivity|]. split; [assumption|].
  intros k _ wk wk'.
  assert (Hwk : wk' = snd (monitor_iteration sv wk)) by apply monitor_loop_snoc.
  destruct (monitor_iteration_spec sv wk) as (w1 & H1 & Hc1 & _).
  split; [now rewrite H1|]. split; [assumption|].
  split; [now rewrite Hwk, H1|].
  split; [|split].
  - intros e w2 Hraise. rewrite Hwk.
    unfold monitor_iteration, try_except, try_else. rewrite Hraise. reflexivity.
  - intros call reason Hcall Hans.
    destruct (monitor_iteration_trace sv wk call Hcall) as (fd & dm & vol & Ht).
    cbv zeta in Ht. rewrite Hans in Ht. rewrite Hwk. eexists. apply Ht.
  - intros call Hcall Hans.
    destruct (monitor_iteration_trace sv wk call Hcall) as (fd & dm & vol & Ht).
    cbv zeta in Ht. rewrite Hans in Ht. rewrite Hwk. eexists. apply Ht.
Qed.

(** ** The loop and its standard output *)

Lemma bind_ext {A B : Type} (m m' : M A) (k k' : A -> M B) (w : world) :
  (forall w0, m w0 = m' w0) -> (forall a w0, k a w0 = k' a w0) ->
  bind m k w = bind m' k' w.
Proof.
  intros Hm Hk. unfold bind. rewrite Hm.
  destruct (m' w) as [[a|e] w']; auto.
Qed.

Section OpenStdout.

Variable stdout : nat -> message -> bool.
Variable sv : services.
Hypothesis stdout_writes : forall k m, stdout k m = true.

Lemma print_open (m : message) (w : world) : Stdout.print stdout m w = print m w.
Proof. unfold Stdout.print. now rewrite stdout_writes. Qed.

Lemma trigger_irrigation_open (schedule : pyval) (french_day hm : string) (w : world) :
  Stdout.trigger_irrigation stdout sv schedule french_day hm w
  = trigger_irrigation sv schedule french_day hm w.
Proof.
  unfold Stdout.trigger_irrigation, trigger_irrigation.
  apply bind_ext; [apply print_open|]. intros _ w0.
  apply bind_ext; [reflexivity|]. intros dm w1.
  apply bind_ext; [reflexivity|]. intros vol w2.
  apply bind_ext; [reflexivity|]. intros secs w3.
  apply bind_ext; [reflexivity|]. intros answer w4.
  destruct (fst answer).
  - apply bind_ext; [apply print_open|reflexivity].
  - apply print_open.
Qed.

Lemma evaluate_schedules_open (t : datetime) (loaded1 loaded2 : dict) (w : world) :
  Stdout.evaluate_schedules stdout sv t loaded1 loaded2 w
  = evaluate_schedules sv t loaded1 loaded2 w.
Proof.
  unfold Stdout.evaluate_schedules, evaluate_schedules.
  destruct (mapping_get day_mapping (strftime_A t)) as [french_day|]; [|reflexivity].
  destruct (negb (String.eqb french_day "") && dict_mem loaded1 french_day); [|reflexivity].
  apply bind_ext; [reflexivity|]. intros schedule w0.
  apply bind_ext; [reflexivity|]. intros due w1.
  destruct due; [apply trigger_irrigation_open|reflexivity].
Qed.

Lemma monitor_tick_open (w : world) : Stdout.monitor_tick stdout sv w = monitor_tick sv w.
Proof.
  unfold Stdout.monitor_tick, monitor_tick.
  apply bind_ext; [reflexivity|]. intros t w0.
  apply bind_ext; [reflexivity|]. intros active w1.
  apply bind_ext; [apply evaluate_schedules_open|reflexivity].
Qed.

Lemma monitor_iteration_open (w : world) :
  Stdout.monitor_iteration stdout sv w = monitor_iteration sv w.
Proof.
  unfold Stdout.monitor_iteration, monitor_iteration, try_except, try_else.
  rewrite monitor_tick_open.
  destruct (monitor_tick sv w) as [[[]|e] w1]; [reflexivity|].
  apply bind_ext; [apply print_open|reflexivity].
Qed.

(** On a standard output that takes every line the loop is the one the
    facts above are about. *)
Lemma monitor_loop_open (n : nat) :
  forall w, Stdout.monitor_loop stdout sv n w = monitor_loop sv n w.
Proof.
  induction n as [|n IH]; intros w; [reflexivity|].
  cbn [Stdout.monitor_loop monitor_loop].
  apply bind_ext; [apply monitor_iteration_open|]. intros _ w0. apply IH.
Qed.

End OpenStdout.

Section AnyStdout.

Variable stdout : nat -> message -> bool.
Variable sv : services.

Lemma stdout_print_clock (m : message) (w : world) :
  clock_reads (snd (Stdout.print stdout m w)) = clock_reads w.
Proof. unfold Stdout.print. destruct (stdout _ _); reflexivity. Qed.

Lemma stdout_trigger_clock (schedule : pyval) (french_day hm : string) (w : world) :
  clock_reads (snd (Stdout.trigger_irrigation stdout sv schedule french_day hm w))
  = clock_reads w.
Proof.
  unfold Stdout.trigger_irrigation, Stdout.print, bind, lift, call_demarrer_arrosage,
    log_irrigation, emit, record.
  destruct (stdout (Stdout.written w) _); [|reflexivity]. cbn [fst snd].
  destruct (get schedule "ai_duration_minutes" (PInt 30)) as [dm|e]; [|reflexivity].
  destruct (get schedule "ai_volume_m3" (PFloat float_0_6)) as [vol|e]; [|reflexivity].
  destruct (duration_seconds_of sv dm) as [secs|e]; [|reflexivity].
  cbn [mqtt_calls].
  destruct (demarrer_arrosage_async sv (mqtt_calls w)) as [[ok reason]|]; [|reflexivity].
  cbn [fst snd]. destruct ok; destruct (stdout _ _); reflexivity.
Qed.

Lemma stdout_evaluate_clock (t : datetime) (loaded1 loaded2 : dict) (w : world) :
  clock_reads (snd (Stdout.evaluate_schedules stdout sv t loaded1 loaded2 w))
  = clock_reads w.
Proof.
  unfold Stdout.evaluate_schedules.
  destruct (mapping_get day_mapping (strftime_A t)) as [french_day|]; [|reflexivity].
  destruct (negb (String.eqb french_day "") && dict_mem loaded1 french_day); [|reflexivity].
  unfold bind, lift.
  destruct (getitem (PDict loaded2) french_day) as [schedule|e]; [|reflexivity].
  destruct (slot_due schedule (strftime_HM t)) as [[|]|e]; try reflexivity.
  apply stdout_trigger_clock.
Qed.

(** The [try] block reads the clock once, however it ends. *)
Lemma stdout_tick_clock (w : world) :
  clock_reads (snd (Stdout.monitor_tick stdout sv w)) = Datatypes.S (clock_reads w).
Proof.
  unfold Stdout.monitor_tick, bind, read_clock, load_active_schedules.
  cbn [active_schedules].
  match goal with
  | |- context [Stdout.evaluate_schedules stdout sv ?t ?a ?b ?w0] =>
      pose proof (stdout_evaluate_clock t a b w0) as H;
      destruct (Stdout.evaluate_schedules stdout sv t a b w0) as [[[]|e] w1]
  end; cbn [snd] in *; unfold sleep, emit, record; cbn [snd clock_reads]; exact H.
Qed.

(** A turn, by the way its [try] block ends: the [except] clause writes
    its line and sleeps, or is left by the exception of its [print]. *)
Lemma stdout_iteration_cases (w : world) :
  match Stdout.monitor_tick stdout sv w with
  | (Ok _, w1) => Stdout.monitor_iteration stdout sv w = (Ok tt, w1)
  | (Raise e, w1) =>
      Stdout.monitor_iteration stdout sv w
      = if stdout (Stdout.written w1) (MsgErreurSurveillance e)
        then (Ok tt, record (Sleep 60) (record (Print (MsgErreurSurveillance e)) w1))
        else (Raise OSError, w1)
  end.
Proof.
  unfold Stdout.monitor_iteration, try_except, try_else.
  destruct (Stdout.monitor_tick stdout sv w) as [[[]|e] w1]; [reflexivity|].
  unfold bind, Stdout.print, sleep, emit.
  destruct (stdout (Stdout.written w1) (MsgErreurSurveillance e)); reflexivity.
Qed.

Lemma stdout_iteration_clock (w : world) :
  clock_reads (snd (Stdout.monitor_iteration stdout sv w)) = Datatypes.S (clock_reads w).
Proof.
  pose proof (stdout_iteration_cases w) as H.
  pose proof (stdout_tick_clock w) as Hc.
  destruct (Stdout.monitor_tick stdout sv w) as [[[]|e] w1]; cbn [snd] in Hc.
  - now rewrite H.
  - rewrite H. destruct (stdout _ _); exact Hc.
Qed.

Lemma stdout_loop_succ (n : nat) (w : world) :
  fst (Stdout.monitor_iteration stdout sv w) = Ok tt ->
  Stdout.monitor_loop stdout sv (Datatypes.S n) w
  = Stdout.monitor_loop stdout sv n (snd (Stdout.monitor_iteration stdout sv w)).
Proof.
  intros H. cbn [Stdout.monitor_loop]. unfold bind.
  destruct (Stdout.monitor_iteration stdout sv w) as [[[]|e] w1]; [reflexivity|discriminate].
Qed.

(** The loop is left only where a turn's [try] block has raised and the
    line of the [except] clause could not be written. *)
Lemma stdout_loop_left (n : nat) :
  forall w e,
    fst (Stdout.monitor_loop stdout sv n w) = Raise e ->
    e = OSError /\
    exists k e0 w1,
      (k < n)%nat /\
      fst (Stdout.monitor_loop stdout sv k w) = Ok tt /\
      Stdout.monitor_tick stdout sv (snd (Stdout.monitor_loop stdout sv k w)) = (Raise e0, w1) /\
      stdout (Stdout.written w1) (MsgErreurSurveillance e0) = false /\
      snd (Stdout.monitor_loop stdout sv n w) = w1.
Proof.
  induction n as [|n IH]; intros w e Hr; [discriminate|].
  destruct (Stdout.monitor_iteration stdout sv w) as [[[]|e'] w'] eqn:Hit.
  - assert (Hok : fst (Stdout.monitor_iteration stdout sv w) = Ok tt) by now rewrite Hit.
    rewrite (stdout_loop_succ n w Hok), Hit in Hr. cbn [snd] in Hr.
    destruct (IH w' e Hr) as (-> & k & e0 & w1 & Hk & Hfst & Htick & Hout & Hw).
    split; [reflexivity|].
    exists (Datatypes.S k), e0, w1.
    rewrite (stdout_loop_succ k w Hok), (stdout_loop_succ n w Hok), Hit. cbn [snd].
    repeat split; auto; lia.
  - pose proof (stdout_iteration_cases w) as Hc.
    destruct (Stdout.monitor_tick stdout sv w) as [[[]|e0] w1] eqn:Htick;
      [rewrite Hit in Hc; discriminate|].
    rewrite Hit in Hc.
    destruct (stdout (Stdout.written w1) (MsgErreurSurveillance e0)) eqn:Hout;
      [discriminate|].
    injection Hc as -> ->.
    cbn [Stdout.monitor_loop] in *. unfold bind in *. rewrite Hit in *. cbn [fst snd] in *.
    injection Hr as <-. split; [reflexivity|].
    exists 0%nat, e0, w1. cbn [Stdout.monitor_loop ret fst snd].
    repeat split; auto; lia.
Qed.

Hypothesis error_line_written : forall k e, stdout k (MsgErreurSurveillance e) = true.

Lemma stdout_iteration_returns (w : world) :
  fst (Stdout.monitor_iteration stdout sv w) = Ok tt.
Proof.
  pose proof (stdout_iteration_cases w) as H.
  destruct (Stdout.monitor_tick stdout sv w) as [[[]|e] w1]; rewrite H;
    [reflexivity|]. now rewrite error_line_written.
Qed.

Lemma stdout_loop_returns (n : nat) :
  forall w,
    fst (Stdout.monitor_loop stdout sv n w) = Ok tt /\
    clock_reads (snd (Stdout.monitor_loop stdout sv n w)) = (clock_reads w + n)%nat.
Proof.
  induction n as [|n IH]; intros w.
  - cbn. split; [reflexivity|lia].
  - rewrite (stdout_loop_succ n w (stdout_iteration_returns w)).
    destruct (IH (snd (Stdout.monitor_iteration stdout sv w))) as (H1 & H2).
    split; [exact H1|]. rewrite H2, stdout_iteration_clock. lia.
Qed.

Lemma stdout_loop_snoc (n : nat) :
  forall w,
    snd (Stdout.monitor_loop stdout sv (Datatypes.S n) w)
    = snd (Stdout.monitor_iteration stdout sv (snd (Stdout.monitor_loop stdout sv n w))).
Proof.
  induction n as [|n IH]; intros w.
  - rewrite (stdout_loop_succ 0 w (stdout_iteration_returns w)). reflexivity.
  - rewrite (stdout_loop_succ (Datatypes.S n) w (stdout_iteration_returns w)).
    rewrite IH. now rewrite <- (stdout_loop_succ n w (stdout_iteration_returns w)).
Qed.

End AnyStdout.

(** C7, as stated, fails: the [print] of the [except] clause is itself
    under no [try].  Monday 08:00 is due, and the pipe that takes the
    standard output is closed once the line of the trigger is written.
    With a gateway that raises, the exception is caught, the line that
    should log it raises in its turn and the loop is left: of two turns the
    second is never made, the clock was read once, no error was printed and
    nothing was slept.  A gateway that refuses the command ends the loop in
    the same way, through the line of the refusal.  On a standard output
    that takes every line the two turns are made. *)
Lemma broken_stdout_ends_the_loop :
  let lines := Datatypes.S (Stdout.written monday_world) in
  let raising :=
    Stdout.monitor_loop (stdout_breaks_after lines) sv_monday_unreachable 2 monday_world in
  let refusing :=
    Stdout.monitor_loop (stdout_breaks_after lines) sv_monday_refused 2 monday_world in
  fst raising = Raise OSError /\
  clock_reads (snd raising) = Datatypes.S (clock_reads monday_world) /\
  trace (snd raising)
  = DemarrerArrosage 1350 (PFloat (float_lit 9 10)) "SCHEDULE_AI"
    :: Print (MsgDeclenchement "Lundi" "08:00") :: trace monday_world /\
  fst refusing = Raise OSError /\
  clock_reads (snd refusing) = Datatypes.S (clock_reads monday_world) /\
  trace (snd refusing)
  = DemarrerArrosage 1350 (PFloat (float_lit 9 10)) "SCHEDULE_AI"
    :: Print (MsgDeclenchement "Lundi" "08:00") :: trace monday_world /\
  fst (Stdout.monitor_loop stdout_open sv_monday_unreachable 2 monday_world) = Ok tt /\
  clock_reads (snd (Stdout.monitor_loop stdout_open sv_monday_unreachable 2 monday_world))
  = Datatypes.S (Datatypes.S (clock_reads monday_world)).
Proof. repeat split; vm_compute; reflexivity. Qed.

(** C7 (as amended): the loop is left only by an exception of the [print]
    in its [except] clause, that is when the [try] block of a turn has
    raised and the line that logs the error cannot be written.  As long as
    that line can be written no error ends the loop: every turn returns,
    the clock is read once in each of any number of turns, and a turn whose
    [try] block raises prints the error and sleeps.  On a standard output
    that takes every line the loop is [monitor_loop]: a turn whose command
    the gateway refuses prints the refusal, a turn in which the gateway
    raises prints that error, and the next turn follows. *)
Theorem loop_is_left_only_by_its_error_line
    (stdout : nat -> message -> bool) (sv : services) (n : nat) (w : world) :
  (forall e,
     fst (Stdout.monitor_loop stdout sv n w) = Raise e ->
     e = OSError /\
     exists k e0 w1,
       (k < n)%nat /\
       fst (Stdout.monitor_loop stdout sv k w) = Ok tt /\
       Stdout.monitor_tick stdout sv (snd (Stdout.monitor_loop stdout sv k w))
       = (Raise e0, w1) /\
       stdout (Stdout.written w1) (MsgErreurSurveillance e0) = false /\
       snd (Stdout.monitor_loop stdout sv n w) = w1) /\
  ((forall k e, stdout k (MsgErreurSurveillance e) = true) ->
   fst (Stdout.monitor_loop stdout sv n w) = Ok tt /\
   clock_reads (snd (Stdout.monitor_loop stdout sv n w)) = (clock_reads w + n)%nat /\
   forall k, (k < n)%nat ->
     let wk := snd (Stdout.monitor_loop stdout sv k w) in
     let wk' := snd (Stdout.monitor_loop stdout sv (Datatypes.S k) w) in
     fst (Stdout.monitor_iteration stdout sv wk) = Ok tt /\
     wk' = snd (Stdout.monitor_iteration stdout sv wk) /\
     clock_reads wk' = Datatypes.S (clock_reads wk) /\
     (forall e w1, Stdout.monitor_tick stdout sv wk = (Raise e, w1) ->
        trace wk' = Sleep 60 :: Print (MsgErreurSurveillance e) :: trace w1)) /\
  ((forall k m, stdout k m = true) ->
   (forall k, Stdout.monitor_loop stdout sv k w = monitor_loop sv k w) /\
   forall k, (k < n)%nat ->
     let wk := snd (Stdout.monitor_loop stdout sv k w) in
     let wk' := snd (Stdout.monitor_loop stdout sv (Datatypes.S k) w) in
     (forall call reason,
        scheduled_call sv (active_schedules wk) (now sv (clock_reads wk)) = Some call ->
        demarrer_arrosage_async sv (mqtt_calls wk) = Returns (false, reason) ->
        exists banner,
          trace wk' = Sleep 60 :: Print (MsgEchecIrrigation reason)
                      :: call :: banner :: trace wk) /\
     (forall call,
        scheduled_call sv (active_schedules wk) (now sv (clock_reads wk)) = Some call ->
        demarrer_arrosage_async sv (mqtt_calls wk) = Raises ->
        exists banner,
          trace wk' = Sleep 60 :: Print (MsgErreurSurveillance ServiceError)
                      :: call :: banner :: trace wk)).
Proof.
  split; [|split].
  - intros e. apply stdout_loop_left.
  - intros Herr.
    destruct (stdout_loop_returns stdout sv Herr n w) as (H1 & H2).
    split; [exact H1|]. split; [exact H2|].
    intros k _ wk wk'.
    assert (Hwk : wk' = snd (Stdout.monitor_iteration stdout sv wk))
      by apply (stdout_loop_snoc stdout sv Herr).
    split; [apply (stdout_iteration_returns stdout sv Herr)|].
    split; [exact Hwk|].
    split; [rewrite Hwk; apply stdout_iteration_clock|].
    intros e w1 Htick. rewrite Hwk.
    pose proof (stdout_iteration_cases stdout sv wk) as Hc.
    rewrite Htick in Hc. rewrite Hc, Herr. reflexivity.
  - intros Hopen.
    split; [intros k; apply (monitor_loop_open stdout sv Hopen)|].
    intros k Hk wk wk'. unfold wk, wk'.
    rewrite !(monitor_loop_open stdout sv Hopen).
    destruct (monitor_loop_turns sv n w) as (_ & _ & H).
    destruct (H k Hk) as (_ & _ & _ & _ & Hrefused & Hraises).
    split; assumption.
Qed.

Lemma loop_is_left_only_by_its_error_line_witness :
  fst (Stdout.monitor_loop stdout_open sv_monday_refused 1 monday_world) = Ok tt /\
  trace (snd (Stdout.monitor_loop stdout_open sv_monday_refused 1 monday_world))
  = Sleep 60 :: Print (MsgEchecIrrigation "broker unreachable")
    :: DemarrerArrosage 1350 (PFloat (float_lit 9 10)) "SCHEDULE_AI"
    :: Print (MsgDeclenchement "Lundi" "08:00") :: trace monday_world.
Proof.
  destruct (loop_is_left_only_by_its_error_line stdout_open sv_monday_refused 1 monday_world)
    as (_ & Hreturns & Hopen).
  split.
  - apply Hreturns. reflexivity.
  - destruct (Hopen ltac:(reflexivity)) as (_ & H).
    destruct (H 0%nat ltac:(lia)) as (Hrefused & _).
    destruct (Hrefused (DemarrerArrosage 1350 (PFloat (float_lit 9 10)) "SCHEDULE_AI")
                "broker unreachable" ltac:(vm_compute; reflexivity) eq_refl)
      as (banner & Ht).
    rewrite Ht. vm_compute in Ht. injection Ht as <-. reflexivity.
Defined.

(** ** Ingestion *)

Lemma ai_fields (d : dict) (duree volume optimized : pyval) :
  let slot := dict_update d [("ai_duration_minutes", duree); ("ai_volume_m3", volume);
                             ("ai_optimized", optimized)] in
  dict_get slot "ai_duration_minutes" = Some duree /\
  dict_get slot "ai_volume_m3" = Some volume /\
  dict_get slot "ai_optimized" = Some optimized.
Proof.
  unfold dict_update. cbn [fold_left fst snd].
  repeat split.
  - rewrite !dict_get_set_other by discriminate. apply dict_get_set_same.
  - rewrite dict_get_set_other by discriminate. apply dict_get_set_same.
  - apply dict_get_set_same.
Qed.

Lemma analyzed_slot_fallback (sv : services) (k : nat) (d : dict) :
  predict_irrigation sv k = Raises -> analyzed_slot sv k d = with_fallback d.
Proof. intros H. unfold analyzed_slot. now rewrite H. Qed.

Lemma analyzed_slot_recommendation (sv : services) (k : nat) (d : dict)
    (prediction duree volume : pyval) :
  predict_irrigation sv k = Returns prediction ->
  getitem prediction "duree_minutes" = Ok duree ->
  getitem prediction "volume_m3" = Ok volume ->
  format_f duree = Ok tt ->
  analyzed_slot sv k d = with_recommendation d duree volume.
Proof.
  intros H Hd Hv Hf. unfold analyzed_slot, usable_recommendation.
  now rewrite H, Hd, Hv, Hf.
Qed.

(** The loop body for an enabled entry never raises: it calls the ML
    service once and stores a slot under [day], whatever the answer. *)
Lemma analyze_day_spec (sv : services) (day : string) (d analyzed : dict) (w : world) :
  exists w',
    analyze_day sv day (PDict d) analyzed w
    = (Ok (dict_set analyzed day (PDict (analyzed_slot sv (ml_calls w) d))), w') /\
    ml_calls w' = Datatypes.S (ml_calls w) /\
    active_schedules w' = active_schedules w.
Proof.
  unfold analyze_day, analyzed_slot, usable_recommendation, analyze_fallback,
    call_predict, optimized_slot, fallback_slot, unpack,
    with_fallback, with_recommendation.
  unfold try_else, bind, lift, ret, print, emit, record.
  destruct (predict_irrigation sv (ml_calls w)) as [prediction|]; cbn.
  - destruct (getitem prediction "duree_minutes") as [duree|e1] eqn:Hd; cbn.
    + destruct (getitem prediction "volume_m3") as [volume|e2]; cbn.
      * rewrite Hd. cbn.
        destruct (format_f duree) as [[]|e3]; cbn.
        -- eexists; repeat split.
        -- rewrite dict_set_set. eexists; repeat split.
      * eexists; repeat split.
    + eexists; repeat split.
  - eexists; repeat split.
Qed.

Lemma dict_get_in_keys (d : dict) (k : string) (v : pyval) :
  dict_get d k = Some v -> In k (dict_keys d).
Proof.
  induction d as [|[k' v'] d IH]; simpl; [discriminate|].
  destruct (String.eqb k' k) eqn:Hk.
  - apply String.eqb_eq in Hk. auto.
  - auto.
Qed.

Lemma analyze_entry_dict (sv : services) (day : string) (d analyzed : dict) (w : world) :
  analyze_entry sv day (PDict d) analyzed w
  = if is_enabled (PDict d) then analyze_day sv day (PDict d) analyzed w
    else (Ok analyzed, w).
Proof.
  unfold analyze_entry, is_enabled, bind, lift, ret. cbn [get].
  destruct (truthy _); reflexivity.
Qed.

(** The loop over the submitted entries: every entry being an object, it
    ends without an exception; an enabled entry gets the slot of its own
    call of the ML service, a disabled one and a day that was not submitted
    get nothing. *)
Lemma analyze_schedules_spec (sv : services) (entries : list (string * pyval)) :
  well_formed_schedules entries ->
  forall analyzed w,
  exists analyzed' w',
    analyze_schedules sv entries analyzed w = (Ok analyzed', w') /\
    active_schedules w' = active_schedules w /\
    forall day,
      match dict_get entries day with
      | Some schedule =>
          if is_enabled schedule then
            exists d, schedule = PDict d /\
              dict_get analyzed' day
              = Some (PDict (analyzed_slot sv (ml_calls w + enabled_before entries day) d))
          else dict_get analyzed' day = dict_get analyzed day
      | None => dict_get analyzed' day = dict_get analyzed day
      end.
Proof.
  induction entries as [|[day0 schedule0] rest IH]; intros [Hnd Hall] analyzed w.
  - exists analyzed, w. simpl. auto.
  - simpl in Hnd, Hall. apply NoDup_cons_iff in Hnd as [Hnotin Hnd].
    apply andb_prop in Hall as [Hd0 Hall].
    destruct schedule0 as [| | | | | |d0]; try discriminate. clear Hd0.
    assert (Hwf : well_formed_schedules rest) by (split; assumption).
    cbn [analyze_schedules]. unfold bind. rewrite analyze_entry_dict.
    destruct (is_enabled (PDict d0)) eqn:Hen.
    + destruct (analyze_day_spec sv day0 d0 analyzed w) as (w1 & H1 & Hm1 & Ha1).
      rewrite H1.
      destruct (IH Hwf (dict_set analyzed day0
                          (PDict (analyzed_slot sv (ml_calls w) d0))) w1)
        as (analyzed' & w' & H & Ha & Hlook).
      exists analyzed', w'. split; [assumption|]. split; [congruence|].
      intros day. specialize (Hlook day). cbn [dict_get enabled_before].
      destruct (String.eqb day0 day) eqn:Hk.
      * apply String.eqb_eq in Hk. subst day.
        rewrite Hen. exists d0. split; [reflexivity|].
        destruct (dict_get rest day0) as [s|] eqn:Hr.
        { elim Hnotin. eapply dict_get_in_keys; eassumption. }
        rewrite Hlook, dict_get_set_same, Nat.add_0_r. reflexivity.
      * assert (Hne : day0 <> day) by (now apply String.eqb_neq).
        rewrite Hen. rewrite Hm1 in Hlook.
        destruct (dict_get rest day) as [s|].
        -- destruct (is_enabled s).
           ++ destruct Hlook as (d & -> & Hg). exists d. split; [reflexivity|].
              rewrite Hg. do 3 f_equal. lia.
           ++ rewrite Hlook. now apply dict_get_set_other.
        -- rewrite Hlook. now apply dict_get_set_other.
    + destruct (IH Hwf analyzed w) as (analyzed' & w' & H & Ha & Hlook).
      exists analyzed', w'. split; [assumption|]. split; [assumption|].
      intros day. specialize (Hlook day). cbn [dict_get enabled_before].
      destruct (String.eqb day0 day) eqn:Hk.
      * apply String.eqb_eq in Hk. subst day. rewrite Hen.
        destruct (dict_get rest day0) as [s|] eqn:Hr.
        { elim Hnotin. eapply dict_get_in_keys; eassumption. }
        assumption.
      * rewrite Hen. cbn [Nat.add]. assumption.
Qed.

(** An accepted update: the answer is 200 and the global holds the analysed
    mapping, entry by entry as [analyze_schedules_spec] says. *)
Lemma receive_schedule_spec (sv : services) (data : pyval)
    (entries : list (string * pyval)) (w : world) :
  get data "schedules" (PDict []) = Ok (PDict entries) ->
  well_formed_schedules entries ->
  exists analyzed w',
    receive_schedule sv data w = (Ok (PlanningRecu analyzed, 200), w') /\
    active_schedules w' = analyzed /\
    forall day,
      match dict_get entries day with
      | Some schedule =>
          if is_enabled schedule then
            exists d, schedule = PDict d /\
              dict_get analyzed day
              = Some (PDict (analyzed_slot sv (ml_calls w + enabled_before entries day) d))
          else dict_get analyzed day = None
      | None => dict_get analyzed day = None
      end.
Proof.
  intros Hget Hwf.
  unfold receive_schedule, try_except, try_else.
  unfold bind at 1, lift at 1. rewrite Hget.
  unfold bind at 1, print at 1, emit at 1.
  unfold bind at 1, lift at 1. cbn [items].
  set (w0 := record (Print (MsgReceptionPlanning (PDict entries))) w).
  destruct (analyze_schedules_spec sv entries Hwf [] w0)
    as (analyzed & w1 & H & Ha & Hlook).
  unfold bind at 1. rewrite H.
  exists analyzed.
  destruct (schedule_thread w1) eqn:Hth;
    (eexists; split;
     [ unfold bind, store_active_schedules, start_schedule_thread, log_irrigation,
         emit, ret; cbn; rewrite Hth; reflexivity
     | split; [reflexivity | exact Hlook] ]).
Qed.

(** C3: an entry submitted enabled whose recommendation call fails (the
    ML service raises, or returns something the handler cannot use) is
    stored with [ai_optimized] false, 30 minutes and 0.6 m³. *)
Theorem fallback_when_recommendation_fails (sv : services) (data : pyval)
    (entries : list (string * pyval)) (w : world) (day : string) (d : dict) :
  get data "schedules" (PDict []) = Ok (PDict entries) ->
  well_formed_schedules entries ->
  dict_get entries day = Some (PDict d) ->
  is_enabled (PDict d) = true ->
  (predict_irrigation sv (ml_calls w + enabled_before entries day) = Raises \/
   exists prediction,
     predict_irrigation sv (ml_calls w + enabled_before entries day) = Returns prediction /\
     usable_recommendation prediction = None) ->
  exists slot,
    dict_get (active_schedules (snd (receive_schedule sv data w))) day = Some (PDict slot) /\
    dict_get slot "ai_optimized" = Some (PBool false) /\
    dict_get slot "ai_duration_minutes" = Some (PInt 30) /\
    dict_get slot "ai_volume_m3" = Some (PFloat float_0_6).
Proof.
  intros Hget Hwf Hday Hen Hfail.
  destruct (receive_schedule_spec sv data entries w Hget Hwf)
    as (analyzed & w' & -> & Ha & Hlook).
  cbn [snd]. rewrite Ha. specialize (Hlook day). rewrite Hday, Hen in Hlook.
  destruct Hlook as (d' & Hd & Hg). injection Hd as <-.
  exists (with_fallback d). split.
  - rewrite Hg. do 2 f_equal. unfold analyzed_slot.
    destruct Hfail as [-> | (p & -> & ->)]; reflexivity.
  - pose proof (ai_fields (dict_update [] d) (PInt 30) (PFloat float_0_6) (PBool false))
      as (H1 & H2 & H3).
    unfold with_fallback. auto.
Qed.

Lemma fallback_when_recommendation_fails_witness :
  exists slot,
    dict_get (active_schedules
                (snd (receive_schedule sv_ml_down (one_day_request "Lundi" "08:00" true)
                        initial_world))) "Lundi" = Some (PDict slot) /\
    dict_get slot "ai_optimized" = Some (PBool false) /\
    dict_get slot "ai_duration_minutes" = Some (PInt 30) /\
    dict_get slot "ai_volume_m3" = Some (PFloat float_0_6).
Proof.
  apply (fallback_when_recommendation_fails sv_ml_down
           (one_day_request "Lundi" "08:00" true)
           [("Lundi", PDict [("enabled", PBool true); ("startTime", PStr "08:00")])]
           initial_world "Lundi"
           [("enabled", PBool true); ("startTime", PStr "08:00")]).
  - reflexivity.
  - split; [|reflexivity].
    constructor; [intros []|constructor].
  - reflexivity.
  - reflexivity.
  - left. reflexivity.
Defined.

(** C4: a failing recommendation call leaves the other days alone.  The
    update is answered with 200 and replaces the schedules whatever calls
    failed, and every enabled day whose own call returned a recommendation
    is stored with that duration and volume and [ai_optimized] true: with
    seven enabled days and one failing call, the six others. *)
Theorem recommendation_failure_is_isolated (sv : services) (data : pyval)
    (entries : list (string * pyval)) (w : world) :
  get data "schedules" (PDict []) = Ok (PDict entries) ->
  well_formed_schedules entries ->
  let answer := receive_schedule sv data w in
  (exists analyzed,
     fst answer = Ok (PlanningRecu analyzed, 200) /\
     active_schedules (snd answer) = analyzed) /\
  forall day d prediction duree volume,
    dict_get entries day = Some (PDict d) ->
    is_enabled (PDict d) = true ->
    predict_irrigation sv (ml_calls w + enabled_before entries day) = Returns prediction ->
    getitem prediction "duree_minutes" = Ok duree ->
    getitem prediction "volume_m3" = Ok volume ->
    format_f duree = Ok tt ->
    exists slot,
      dict_get (active_schedules (snd answer)) day = Some (PDict slot) /\
      dict_get slot "ai_optimized" = Some (PBool true) /\
      dict_get slot "ai_duration_minutes" = Some duree /\
      dict_get slot "ai_volume_m3" = Some volume.
Proof.
  intros Hget Hwf answer.
  destruct (receive_schedule_spec sv data entries w Hget Hwf)
    as (analyzed & w' & Hr & Ha & Hlook).
  unfold answer. rewrite Hr. cbn [fst snd]. split.
  - exists analyzed. auto.
  - intros day d prediction duree volume Hday Hen Hp Hd Hv Hf.
    specialize (Hlook day). rewrite Hday, Hen in Hlook.
    destruct Hlook as (d' & Heq & Hg). injection Heq as <-.
    exists (with_recommendation d duree volume). split.
    + rewrite Ha, Hg.
      now rewrite (analyzed_slot_recommendation sv _ d prediction duree volume).
    + pose proof (ai_fields (dict_update [] d) duree volume (PBool true))
        as (H1 & H2 & H3).
      unfold with_recommendation. auto.
Qed.

Lemma recommendation_failure_is_isolated_witness :
  (exists analyzed,
     fst (receive_schedule sv_fourth_call_fails week_request initial_world)
     = Ok (PlanningRecu analyzed, 200)) /\
  (exists slot,
     dict_get (active_schedules week_world) "Jeudi" = Some (PDict slot) /\
     dict_get slot "ai_optimized" = Some (PBool false)) /\
  forall day,
    In day ["Lundi"; "Mardi"; "Mercredi"; "Vendredi"; "Samedi"; "Dimanche"] ->
    exists slot,
      dict_get (active_schedules week_world) day = Some (PDict slot) /\
      dict_get slot "ai_optimized" = Some (PBool true) /\
      dict_get slot "ai_duration_minutes" = Some (PFloat (float_lit 225 10)) /\
      dict_get slot "ai_volume_m3" = Some (PFloat (float_lit 9 10)).
Proof.
  assert (Hwf : well_formed_schedules
                  [("Lundi", enabled_at "06:00"); ("Mardi", enabled_at "06:10");
                   ("Mercredi", enabled_at "06:20"); ("Jeudi", enabled_at "06:30");
                   ("Vendredi", enabled_at "06:40"); ("Samedi", enabled_at "06:50");
                   ("Dimanche", enabled_at "07:00")]).
  { split; [|reflexivity].
    repeat (constructor; [simpl; intuition discriminate|]). constructor. }
  destruct (recommendation_failure_is_isolated sv_fourth_call_fails week_request _
              initial_world eq_refl Hwf) as [(analyzed & Hok & _) Hdays].
  split; [exists analyzed; exact Hok|].
  split.
  - eexists. split; vm_compute; reflexivity.
  - intros day Hin. simpl in Hin.
    destruct Hin as [<-|[<-|[<-|[<-|[<-|[<-|[]]]]]]];
      eapply Hdays; reflexivity.
Defined.

Lemma get_schedule_status_spec (sv : services) (w : world) :
  fst (get_schedule_status sv w)
  = Ok (EtatPlanning (active_schedules w) (schedule_thread w)
          (now sv (clock_reads w)), 200).
Proof. reflexivity. Qed.

(** C5, as stated, fails: an entry submitted with [enabled] false is not
    stored.  After Tuesday is submitted disabled at 09:00 the update is
    answered with 200, the schedules have no entry for Mardi and the status
    route shows an empty mapping. *)
Lemma disabled_slot_is_not_stored :
  get (one_day_request "Mardi" "09:00" false) "schedules" (PDict [])
  = Ok (PDict [("Mardi", PDict [("enabled", PBool false); ("startTime", PStr "09:00")])]) /\
  fst (receive_schedule sv_tuesday (one_day_request "Mardi" "09:00" false) initial_world)
  = Ok (PlanningRecu [], 200) /\
  dict_mem (active_schedules tuesday_world) "Mardi" = false /\
  fst (get_schedule_status sv_tuesday tuesday_world)
  = Ok (EtatPlanning [] true (mk_datetime Tuesday 9 0), 200).
Proof. repeat split. Qed.

(** C5 (as amended): an entry submitted with [enabled] false (or without
    [enabled]) is left out of the stored schedules: after the update the
    mapping has no entry for that day, the status route shows the mapping
    without it, and a turn of the loop on that day, at any time and with
    any services, makes no actuation call. *)
Theorem disabled_slots_are_dropped (sv : services) (data : pyval)
    (entries : list (string * pyval)) (w : world) (day : string) (d : dict) :
  get data "schedules" (PDict []) = Ok (PDict entries) ->
  well_formed_schedules entries ->
  dict_get entries day = Some (PDict d) ->
  is_enabled (PDict d) = false ->
  let w' := snd (receive_schedule sv data w) in
  dict_get (active_schedules w') day = None /\
  (exists alive t,
     fst (get_schedule_status sv w') = Ok (EtatPlanning (active_schedules w') alive t, 200)) /\
  forall sv' w'',
    active_schedules w'' = active_schedules w' ->
    mapping_get day_mapping (strftime_A (now sv' (clock_reads w''))) = Some day ->
    fires (trace (snd (monitor_iteration sv' w''))) = fires (trace w'').
Proof.
  intros Hget Hwf Hday Hdis w'.
  destruct (receive_schedule_spec sv data entries w Hget Hwf)
    as (analyzed & w1 & Hr & Ha & Hlook).
  assert (Hw : w' = w1) by (unfold w'; now rewrite Hr).
  specialize (Hlook day). rewrite Hday, Hdis in Hlook.
  assert (Hnone : dict_get (active_schedules w') day = None) by (now rewrite Hw, Ha).
  split; [assumption|]. split.
  - do 2 eexists. apply get_schedule_status_spec.
  - intros sv' w'' Hsame Hm.
    destruct (monitor_iteration_spec sv' w'') as (w2 & -> & _ & _ & Hf).
    cbn [snd]. rewrite Hf, not_due_no_call; [reflexivity|].
    unfold due. now rewrite (slot_at_lookup _ _ _ Hm), Hsame, Hnone.
Qed.

Lemma disabled_slots_are_dropped_witness :
  dict_get (active_schedules tuesday_world) "Mardi" = None /\
  fires (trace (snd (monitor_iteration sv_tuesday tuesday_world))) = fires (trace tuesday_world).
Proof.
  destruct (disabled_slots_are_dropped sv_tuesday (one_day_request "Mardi" "09:00" false)
              [("Mardi", PDict [("enabled", PBool false); ("startTime", PStr "09:00")])]
              initial_world "Mardi"
              [("enabled", PBool false); ("startTime", PStr "09:00")])
    as (Hnone & _ & Hquiet).
  - reflexivity.
  - split; [|reflexivity]. constructor; [intros []|constructor].
  - reflexivity.
  - reflexivity.
  - split; [exact Hnone|].
    apply (Hquiet sv_tuesday tuesday_world); reflexivity.
Defined.

(** ** The recommendation endpoint *)

Lemma floats_of_length (sv : services) (l : list pyval) (fs : list spec_float) :
  floats_of sv l = Ok fs -> List.length fs = List.length l.
Proof.
  revert fs. induction l as [|f l IH]; intros fs; simpl.
  - intros H. injection H as <-. reflexivity.
  - destruct (to_float (parse_float sv) f); [|discriminate].
    destruct (floats_of sv l) as [xs|]; [|discriminate].
    intros H. injection H as <-. simpl. now rewrite (IH xs).
Qed.

Lemma floats_of_raises (sv : services) (l : list pyval) (f : pyval) (e : exn) :
  In f l -> to_float (parse_float sv) f = Raise e ->
  exists e', floats_of sv l = Raise e'.
Proof.
  induction l as [|f0 l IH]; simpl; [intros []|].
  intros [->|Hin] Hraise.
  - rewrite Hraise. eauto.
  - destruct (to_float (parse_float sv) f0); [|eauto].
    destruct (IH Hin Hraise) as (e' & ->). eauto.
Qed.

Lemma length_list_ascii_of_string (s : string) :
  List.length (list_ascii_of_string s) = String.length s.
Proof. induction s; simpl; auto. Qed.

(** [len] counts what [iter] yields. *)
Lemma iter_length (v : pyval) (n : Z) (l : list pyval) :
  len v = Ok n -> iter v = Ok l -> Z.of_nat (List.length l) = n.
Proof.
  destruct v; simpl; try discriminate; intros Hn Hl;
    injection Hn as <-; injection Hl as <-.
  - now rewrite length_map, length_list_ascii_of_string.
  - reflexivity.
  - unfold dict_keys. now rewrite !length_map.
Qed.

(** Features that pass the two checks of [arroser] make an array of 15
    floats. *)
Lemma accepted_features (sv : services) (features : pyval) (fs : list spec_float) :
  features_rejected features = Ok false ->
  features_array_of sv features = Ok fs ->
  List.length fs = 15%nat.
Proof.
  unfold features_rejected, features_array_of.
  destruct (negb (truthy features)); [discriminate|].
  destruct (len features) as [n|] eqn:Hn; [|discriminate].
  destruct (iter features) as [l|] eqn:Hl; [|discriminate].
  intros Hrej Hfs. injection Hrej as Hrej.
  apply negb_false_iff, Z.eqb_eq in Hrej. subst n.
  apply floats_of_length in Hfs.
  pose proof (iter_length _ _ _ Hn Hl). lia.
Qed.

Lemma predicts_cons (ev : event) (tr : list event) :
  predicts (ev :: tr) = if is_predict ev then ev :: predicts tr else predicts tr.
Proof. reflexivity. Qed.

(** The [try] block around the ML service calls it once, with the array it
    was given, whatever comes next. *)
Lemma arroser_predict_spec (sv : services) (fs : list spec_float) (w : world) :
  exists r w',
    arroser_predict sv fs w = (r, w') /\
    ml_calls w' = Datatypes.S (ml_calls w) /\
    predicts (trace w') = PredictIrrigation (map PFloat fs) :: predicts (trace w).
Proof.
  unfold arroser_predict, call_predict, bind, lift, ret, log_irrigation, print, emit, record.
  destruct (predict_irrigation sv (ml_calls w)) as [prediction|];
    [|do 2 eexists; repeat split].
  destruct (truthy prediction); [|do 2 eexists; repeat split].
  destruct (contains prediction "volume_m3") as [[|]|];
    [|do 2 eexists; repeat split ..].
  destruct (getitem prediction "duree_minutes") as [duree|];
    [|do 2 eexists; repeat split].
  destruct (getitem prediction "volume_m3") as [volume|];
    [|do 2 eexists; repeat split].
  cbn [trace ml_calls].
  destruct (to_float (parse_float sv) duree); [|do 2 eexists; repeat split].
  destruct (to_float (parse_float sv) volume); [|do 2 eexists; repeat split].
  destruct (format_f duree); [|do 2 eexists; repeat split].
  destruct (format_f volume); do 2 eexists; repeat split.
Qed.

(** The ways through [arroser]: either the ML service is not called, or the
    features passed both checks and it is called once with their array. *)
Lemma arroser_calls (sv : services) (data : pyval) (w : world) :
  let w' := snd (arroser sv data w) in
  (ml_calls w' = ml_calls w /\ predicts (trace w') = predicts (trace w)) \/
  (exists features fs,
     get data "features" (PList []) = Ok features /\
     features_rejected features = Ok false /\
     features_array_of sv features = Ok fs /\
     ml_calls w' = Datatypes.S (ml_calls w) /\
     predicts (trace w') = PredictIrrigation (map PFloat fs) :: predicts (trace w)).
Proof.
  unfold arroser, try_except, try_else, bind, lift, ret, print, emit.
  cbv beta.
  destruct (negb (truthy data)); [left; split; reflexivity|].
  destruct (get data "features" (PList [])) as [features|e];
    [|left; split; reflexivity].
  destruct (features_rejected features) as [[|]|e] eqn:Hrej;
    [left; split; reflexivity| |left; split; reflexivity].
  destruct (features_array_of sv features) as [fs|e] eqn:Hfs;
    [|left; split; reflexivity].
  right. exists features, fs.
  destruct (arroser_predict_spec sv fs (record (Print (MsgRequeteML features)) w))
    as (r & w2 & -> & Hm & Hp).
  repeat split; destruct r; cbn; assumption.
Qed.

(** C8: the ML service is called by [arroser] only with an array of exactly
    15 floats; a request whose feature list has another length, or holds a
    value that [float] does not convert, is answered with 400 and the
    service is not called. *)
Theorem arroser_validates_features (sv : services) (data : pyval) (w : world) :
  let answer := arroser sv data w in
  let w' := snd answer in
  ((ml_calls w' = ml_calls w /\ predicts (trace w') = predicts (trace w)) \/
   (exists features_array,
      List.length features_array = 15%nat /\
      ml_calls w' = Datatypes.S (ml_calls w) /\
      predicts (trace w')
      = PredictIrrigation (map PFloat features_array) :: predicts (trace w))) /\
  (forall body l,
     data = PDict body ->
     dict_get body "features" = Some (PList l) ->
     (List.length l <> 15%nat \/
      exists f e, In f l /\ to_float (parse_float sv) f = Raise e) ->
     (fst answer = Ok (QuinzeParametresRequis, 400) \/
      fst answer = Ok (ParametresNumeriques, 400)) /\
     ml_calls w' = ml_calls w /\
     predicts (trace w') = predicts (trace w)).
Proof.
  intros answer w'. split.
  - destruct (arroser_calls sv data w) as [H|(features & fs & _ & Hrej & Hfs & Hm & Hp)].
    + left. exact H.
    + right. exists fs. split; [|split; assumption].
      eapply accepted_features; eassumption.
  - intros body l -> Hfeat Hbad.
    unfold w', answer. clear w' answer.
    unfold arroser, try_except, try_else, bind, lift, ret, print, emit.
    cbv beta.
    assert (Htruthy : negb (truthy (PDict body)) = false).
    { destruct body; [discriminate|reflexivity]. }
    rewrite Htruthy. cbn [get]. rewrite Hfeat.
    unfold features_rejected. cbn [truthy len].
    destruct l as [|f0 l0] eqn:Hl; [cbn; auto|]. rewrite <- Hl in *.
    cbn [negb].
    destruct (Z.of_nat (List.length l) =? 15) eqn:Hlen; cbn [negb]; [|cbn; auto].
    apply Z.eqb_eq in Hlen.
    destruct Hbad as [Hbad|(f & e & Hin & Hraise)]; [lia|].
    destruct (floats_of_raises sv l f e Hin Hraise) as (e' & He').
    unfold features_array_of. cbn [iter]. rewrite He'. cbn. auto.
Qed.

Lemma arroser_validates_features_witness :
  fst (arroser sv_monday short_request initial_world) = Ok (QuinzeParametresRequis, 400) /\
  fst (arroser sv_monday null_request initial_world) = Ok (ParametresNumeriques, 400) /\
  ml_calls (snd (arroser sv_monday null_request initial_world)) = 0%nat.
Proof.
  destruct (proj2 (arroser_validates_features sv_monday short_request initial_world)
              _ _ eq_refl eq_refl) as ([H|H] & _).
  { left. simpl. lia. }
  2: { vm_compute in H. discriminate. }
  destruct (proj2 (arroser_validates_features sv_monday null_request initial_world)
              _ _ eq_refl eq_refl) as ([H'|H'] & Hm & _).
  { right. exists PNone, TypeError. split; [|reflexivity]. simpl. tauto. }
  { vm_compute in H'. discriminate. }
  split; [exact H|]. split; [exact H'|exact Hm].
Defined.

(** ** The update against its readers *)

Lemma analyze_entry_store (sv : services) (day : string) (schedule : pyval)
    (analyzed : dict) (w : world) :
  active_schedules (snd (analyze_entry sv day schedule analyzed w)) = active_schedules w.
Proof.
  destruct schedule as [| | | | | |d]; try reflexivity.
  rewrite analyze_entry_dict.
  destruct (is_enabled (PDict d)); [|reflexivity].
  destruct (analyze_day_spec sv day d analyzed w) as (w' & -> & _ & Ha).
  exact Ha.
Qed.

Lemma trigger_irrigation_store (sv : services) (slot : dict)
    (french_day hm : string) (w : world) :
  active_schedules (snd (trigger_irrigation sv (PDict slot) french_day hm w))
  = active_schedules w.
Proof.
  pose proof (trigger_irrigation_spec sv slot french_day hm w _ _ eq_refl eq_refl) as H.
  destruct (duration_seconds_of sv _).
  - destruct H as (r & w' & -> & _ & _ & Ha & _). exact Ha.
  - rewrite H. reflexivity.
Qed.

(** The first load only decides whether the second is made. *)
Lemma evaluate_schedules_two_loads (sv : services) (t : datetime)
    (loaded1 loaded2 : dict) (w : world) (french_day : string) :
  mapping_get day_mapping (strftime_A t) = Some french_day ->
  evaluate_schedules sv t loaded1 loaded2 w
  = if dict_mem loaded1 french_day then
      match dict_get loaded2 french_day with
      | Some _ => evaluate_schedules sv t loaded2 loaded2 w
      | None => (Raise KeyError, w)
      end
    else (Ok tt, w).
Proof.
  intros Hm. unfold evaluate_schedules. rewrite Hm.
  destruct (day_mapping_total t) as (fd & Hm' & Hne).
  assert (fd = french_day) by congruence. subst fd. rewrite Hne. cbn [negb andb].
  destruct (dict_mem loaded1 french_day); [|reflexivity].
  unfold dict_mem.
  destruct (dict_get loaded2 french_day) eqn:Hg; [reflexivity|].
  unfold bind, lift, getitem. now rewrite Hg.
Qed.

Lemma evaluate_schedules_store (sv : services) (t : datetime)
    (loaded1 loaded2 : dict) (w : world) :
  active_schedules (snd (evaluate_schedules sv t loaded1 loaded2 w)) = active_schedules w.
Proof.
  destruct (day_mapping_total t) as (fd & Hm & Hne).
  rewrite (evaluate_schedules_two_loads sv t loaded1 loaded2 w fd Hm).
  destruct (dict_mem loaded1 fd); [|reflexivity].
  destruct (dict_get loaded2 fd); [|reflexivity].
  destruct (due loaded2 t) eqn:Hdue.
  - destruct (evaluate_schedules_due sv t loaded2 w Hdue) as (fd' & slot & _ & ->).
    apply trigger_irrigation_store.
  - now rewrite evaluate_schedules_not_due.
Qed.

(** A turn whose two loads straddle an update calls the gateway as a turn
    that saw the one mapping, or the other, in both. *)
Lemma straddling_turn_is_coherent (sv : services) (t : datetime)
    (loaded1 loaded2 : dict) (w : world) :
  fires (trace (snd (evaluate_schedules sv t loaded1 loaded2 w)))
  = fires (trace (snd (evaluate_schedules sv t loaded1 loaded1 w))) \/
  fires (trace (snd (evaluate_schedules sv t loaded1 loaded2 w)))
  = fires (trace (snd (evaluate_schedules sv t loaded2 loaded2 w))).
Proof.
  destruct (day_mapping_total t) as (fd & Hm & Hne).
  rewrite (evaluate_schedules_two_loads sv t loaded1 loaded2 w fd Hm).
  rewrite (evaluate_schedules_two_loads sv t loaded1 loaded1 w fd Hm).
  destruct (dict_mem loaded1 fd) eqn:H1; [|left; reflexivity].
  right.
  destruct (dict_get loaded2 fd) eqn:H2; [reflexivity|].
  rewrite (evaluate_schedules_two_loads sv t loaded2 loaded2 w fd Hm).
  unfold dict_mem. now rewrite H2.
Qed.

Lemma monitor_step_store (sv : services) (m : monitor_state) (w : world) :
  active_schedules (snd (monitor_step sv m w)) = active_schedules w.
Proof.
  destruct m as [|t loaded1]; [reflexivity|].
  unfold monitor_step, try_except, try_else, bind. cbn [snd].
  pose proof (evaluate_schedules_store sv t loaded1 (active_schedules w) w) as H.
  destruct (evaluate_schedules sv t loaded1 (active_schedules w) w) as [[[]|e] w1];
    exact H.
Qed.

(** The two steps of the monitoring thread make a turn of the loop. *)
Lemma monitor_steps_make_a_turn (sv : services) (w : world) :
  let c := monitor_step sv Waiting w in
  monitor_step sv (fst c) (snd c) = (Waiting, snd (monitor_iteration sv w)).
Proof.
  unfold monitor_step, monitor_iteration, monitor_tick, read_clock,
    load_active_schedules, try_except, try_else, bind.
  cbn [fst snd active_schedules].
  destruct (evaluate_schedules _ _ _ _ _) as [[[]|e] w1]; reflexivity.
Qed.

Lemma handler_run_answered (sv : services) (n : nat) (r : response) (w : world) :
  handler_run sv n (Answered r, w) = (Answered r, w).
Proof. induction n; simpl; auto. Qed.

Lemma handler_run_loop (sv : services) (entries : list (string * pyval)) :
  forall analyzed w,
    handler_run sv (Datatypes.S (List.length entries)) (Analyzing entries analyzed, w)
    = match analyze_schedules sv entries analyzed w with
      | (Ok analyzed', w') => (Publishing analyzed', w')
      | (Raise e, w') => handler_fails e w'
      end.
Proof.
  induction entries as [|[day schedule] rest IH]; intros analyzed w.
  - reflexivity.
  - cbn [List.length]. change (handler_run sv (Datatypes.S (Datatypes.S (List.length rest)))
                                 (Analyzing ((day, schedule) :: rest) analyzed, w))
      with (handler_run sv (Datatypes.S (List.length rest))
              (handler_step sv (Analyzing ((day, schedule) :: rest) analyzed, w))).
    cbn [handler_step analyze_schedules]. unfold bind.
    destruct (analyze_entry sv day schedule analyzed w) as [[analyzed'|e] w1].
    + apply IH.
    + unfold handler_fails. apply handler_run_answered.
Qed.

Lemma handler_run_add (sv : services) (n m : nat) (c : handler_state * world) :
  handler_run sv (n + m) c = handler_run sv m (handler_run sv n c).
Proof. revert c. induction n as [|n IH]; intros c; simpl; auto. Qed.

(** Run to its end, the handler cut in steps is [receive_schedule]. *)
Lemma handler_steps_make_the_route (sv : services) (data : pyval) (w : world) :
  exists n r w',
    receive_schedule sv data w = (Ok r, w') /\
    handler_run sv n (handler_start sv data w) = (Answered r, w').
Proof.
  unfold receive_schedule, handler_start, try_except, try_else, bind, lift, print, emit.
  cbv beta.
  destruct (get data "schedules" (PDict [])) as [schedules|e].
  - destruct (items schedules) as [entries|e].
    + exists (Datatypes.S (List.length entries) + 2)%nat.
      rewrite handler_run_add, handler_run_loop.
      destruct (analyze_schedules sv entries []
                  (record (Print (MsgReceptionPlanning schedules)) w))
        as [[analyzed|e] w1].
      * unfold store_active_schedules, start_schedule_thread, log_irrigation,
          emit, ret, bind. cbn.
        destruct (schedule_thread w1); do 2 eexists; split; reflexivity.
      * do 2 eexists. split; [reflexivity|]. apply handler_run_answered.
    + exists 0%nat. do 2 eexists. split; reflexivity.
  - exists 0%nat. do 2 eexists. split; reflexivity.
Qed.

Lemma coherent_start (sv : services) (data : pyval) (m : monitor_state) (w : world) :
  coherent (active_schedules w) (update_arrives sv data m w).
Proof.
  left. unfold update_arrives, handler_start, bind, lift, print, emit. cbn [handler shared loads].
  destruct (get data "schedules" (PDict [])) as [schedules|e]; cbn.
  - destruct (items schedules) as [entries|e]; cbn; auto.
  - auto.
Qed.

Lemma coherent_step (sv : services) (old : dict) (s : system) (a : actor) :
  coherent old s -> coherent old (system_step sv s a).
Proof.
  intros Hc. destruct a; unfold system_step.
  - (* the handler moves *)
    destruct s as [h m w l]. cbn [handler monitor shared loads] in *.
    destruct Hc as [(Hu & Hs & Hl)|(analyzed & [Hp|Hp] & Hs & Hl)];
      cbn [handler shared loads] in *.
    + destruct h as [[|[day schedule] rest] analyzed|analyzed|analyzed|[r code]];
        cbn [handler_step unpublished] in *.
      * left. cbn. auto.
      * pose proof (analyze_entry_store sv day schedule analyzed w) as Hst.
        destruct (analyze_entry sv day schedule analyzed w) as [[analyzed'|e] w'];
          cbn [snd] in Hst; left; cbn; repeat split; auto; congruence.
      * right. exists analyzed. cbn. repeat split; [left; reflexivity|].
        eapply Forall_impl; [|exact Hl]. cbn. auto.
      * contradiction.
      * left. cbn. auto.
    + subst h. right. exists analyzed. cbn [handler_step fst snd handler shared loads].
      split; [right; reflexivity|]. split; [|assumption].
      unfold bind, start_schedule_thread, log_irrigation, emit.
      destruct (schedule_thread w); cbn; assumption.
    + subst h. right. exists analyzed. cbn. repeat split; auto. right. reflexivity.
  - (* the monitoring thread moves *)
    pose proof (monitor_step_store sv (monitor s) (shared s)) as Hst.
    destruct Hc as [(Hu & Hs & Hl)|(analyzed & Hp & Hs & Hl)]; [left|right; exists analyzed];
      cbn [handler shared loads]; repeat split; auto; try congruence;
      constructor; auto.
  - (* a status query *)
    destruct Hc as [(Hu & Hs & Hl)|(analyzed & Hp & Hs & Hl)]; [left|right; exists analyzed];
      cbn [handler shared loads]; repeat split; auto;
      constructor; auto.
Qed.

Lemma coherent_run (sv : services) (old : dict) (schedule : list actor) :
  forall s, coherent old s -> coherent old (system_run sv schedule s).
Proof.
  unfold system_run. induction schedule as [|a rest IH]; intros s Hc; simpl.
  - exact Hc.
  - apply IH. now apply coherent_step.
Qed.

(** What a turn does once its first load is made, by the mapping it loads
    second: the first load only says whether the day is looked up; the
    slot, when there is one, is the one of the second load. *)
Lemma straddling_turn (sv : services) (t : datetime) (loaded1 : dict) (w : world)
    (french_day : string) :
  mapping_get day_mapping (strftime_A t) = Some french_day ->
  monitor_step sv (Testing t loaded1) w
  = if dict_mem loaded1 french_day then
      if dict_mem (active_schedules w) french_day
      then monitor_step sv (Testing t (active_schedules w)) w
      else (Waiting, record (Sleep 60) (record (Print (MsgErreurSurveillance KeyError)) w))
    else (Waiting, record (Sleep 60) w).
Proof.
  intros Hm. unfold monitor_step, try_except, try_else, bind.
  rewrite (evaluate_schedules_two_loads sv t loaded1 (active_schedules w) w french_day Hm).
  destruct (dict_mem loaded1 french_day); [|reflexivity].
  unfold dict_mem.
  destruct (dict_get (active_schedules w) french_day) eqn:Hg; reflexivity.
Qed.

(** C9, as stated, fails for the monitoring thread, which loads the global
    twice in a turn: for the membership test and for the subscript.  Monday
    08:00 is stored, and an update that schedules no day rebinds the global
    between the two loads of a turn at Monday 08:00.  Each load gives a
    whole mapping, the old one and then the new one, but the turn finds
    Monday in the first and looks it up in the second: it ends on a
    [KeyError].  A turn that has run before the update calls the gateway,
    one that runs after it only sleeps; the turn in between does what
    neither mapping has it do. *)
Lemma straddling_turn_sees_neither :
  let start := update_arrives sv_monday empty_request Waiting monday_world in
  let straddling := system_run sv_monday [Monitor; Handler; Handler; Monitor] start in
  let before := system_run sv_monday [Monitor; Monitor; Handler; Handler] start in
  let after := system_run sv_monday [Handler; Handler; Monitor; Monitor] start in
  loads straddling = [ []; active_schedules monday_world ] /\
  loads before = [active_schedules monday_world; active_schedules monday_world] /\
  loads after = [ []; [] ] /\
  trace (shared straddling)
  = Sleep 60 :: Print (MsgErreurSurveillance KeyError) :: trace (shared start) /\
  trace (shared before)
  = Sleep 60
    :: LogIrrigation "schedule_executed" (PFloat (float_lit 225 10))
         (PFloat (float_lit 9 10)) "started" "SCHEDULE_AI"
    :: Print (MsgIrrigationDemarree (PFloat (float_lit 225 10)))
    :: DemarrerArrosage 1350 (PFloat (float_lit 9 10)) "SCHEDULE_AI"
    :: Print (MsgDeclenchement "Lundi" "08:00") :: trace (shared start) /\
  trace (shared after) = Sleep 60 :: trace (shared start).
Proof. repeat split; vm_compute; reflexivity. Qed.

(** C9 (as amended): the new mapping is built in a local and published by
    one rebinding of the global, so while an update runs, whatever the
    order in which the handler, the monitoring thread and the status
    queries take their steps, every single load of the global gives the
    old mapping or the new one, whole, and a status query, which loads
    once, reports one of the two.  A turn of the loop loads twice.  When
    the global is rebound between its two loads, the turn looks the day up
    only if the old mapping has it; it then does all that a turn on the new
    mapping alone does when the new mapping has the day too, and otherwise
    ends on a [KeyError] that its [except] clause prints, without a call of
    the gateway.  The slot a turn acts on comes from one load. *)
Theorem readers_load_old_or_new (sv : services) (data : pyval)
    (m : monitor_state) (w : world) (schedule : list actor) :
  let old := active_schedules w in
  let s := system_run sv schedule (update_arrives sv data m w) in
  (exists new,
     Forall (fun loaded => loaded = old \/ loaded = new) (loads s) /\
     (active_schedules (shared s) = old \/ active_schedules (shared s) = new) /\
     (forall analyzed,
        handler s = Answered (PlanningRecu analyzed, 200) ->
        new = analyzed /\ active_schedules (shared s) = analyzed) /\
     (exists reported alive t,
        fst (get_schedule_status sv (shared s)) = Ok (EtatPlanning reported alive t, 200) /\
        (reported = old \/ reported = new))) /\
  (forall (t : datetime) (loaded1 : dict) (w' : world) (french_day : string),
     mapping_get day_mapping (strftime_A t) = Some french_day ->
     let loaded2 := active_schedules w' in
     let turn := monitor_step sv (Testing t loaded1) w' in
     (dict_mem loaded1 french_day = false -> turn = (Waiting, record (Sleep 60) w')) /\
     (dict_mem loaded1 french_day = true -> dict_mem loaded2 french_day = true ->
        turn = monitor_step sv (Testing t loaded2) w') /\
     (dict_mem loaded1 french_day = true -> dict_mem loaded2 french_day = false ->
        turn = (Waiting,
                record (Sleep 60) (record (Print (MsgErreurSurveillance KeyError)) w')) /\
        fires (trace (snd turn)) = fires (trace w'))).
Proof.
  intros old s. split.
  - pose proof (coherent_run sv old schedule _ (coherent_start sv data m w)) as Hc.
    fold s in Hc.
    destruct Hc as [(Hu & Hs & Hl)|(analyzed & Hp & Hs & Hl)].
    + exists old. split.
      { eapply Forall_impl; [|exact Hl]. cbn. auto. }
      split; [auto|]. split.
      { intros analyzed Hh. rewrite Hh in Hu. contradiction. }
      do 3 eexists. split; [apply get_schedule_status_spec|auto].
    + exists analyzed. split; [exact Hl|]. split; [auto|]. split.
      { intros analyzed' Hh. destruct Hp as [Hp|Hp]; rewrite Hp in Hh; [discriminate|].
        injection Hh as <-. auto. }
      do 3 eexists. split; [apply get_schedule_status_spec|auto].
  - intros t loaded1 w' french_day Hm loaded2 turn.
    pose proof (straddling_turn sv t loaded1 w' french_day Hm) as H.
    fold loaded2 turn in H.
    split; [|split].
    + intros H1. now rewrite H1 in H.
    + intros H1 H2. now rewrite H1, H2 in H.
    + intros H1 H2. rewrite H1, H2 in H. split; [exact H|]. now rewrite H.
Qed.

Lemma readers_load_old_or_new_witness :
  monitor_step sv_monday (Testing (mk_datetime Monday 8 0) (active_schedules monday_world))
    (with_schedules [] monday_world)
  = (Waiting,
     record (Sleep 60)
       (record (Print (MsgErreurSurveillance KeyError)) (with_schedules [] monday_world))).
Proof.
  destruct (readers_load_old_or_new sv_monday empty_request Waiting monday_world [])
    as (_ & H).
  destruct (H (mk_datetime Monday 8 0) (active_schedules monday_world)
              (with_schedules [] monday_world) "Lundi" eq_refl) as (_ & _ & H3).
  destruct H3 as [Hturn _]; [vm_compute; reflexivity ..|exact Hturn].
Defined.

(** A run in which the first load of a turn comes before the rebinding and
    the second after it: Monday 08:00 is stored without its [ai_] fields,
    the update brings the recommendation of 22.5 minutes, and the turn
    calls the gateway with the 1350 seconds of the new mapping, not the
    1800 of the old. *)
Example straddling_run :
  let s := system_run sv_monday [Monitor; Handler; Handler; Handler; Monitor]
             (update_arrives sv_monday (one_day_request "Lundi" "08:00" true)
                Waiting bare_world) in
  loads s = [active_schedules monday_world; active_schedules bare_world] /\
  fires (trace (shared s))
  = [DemarrerArrosage 1350 (PFloat (float_lit 9 10)) "SCHEDULE_AI"].
Proof. split; vm_compute; reflexivity. Qed.

(** ** Further properties of the routes *)

Lemma quiet_refl (w : world) : quiet w w.
Proof. unfold quiet. repeat split. Qed.

Lemma quiet_trans (w1 w2 w3 : world) : quiet w1 w2 -> quiet w2 w3 -> quiet w1 w3.
Proof.
  unfold quiet. intros (A1 & B1 & C1 & D1 & E1 & F1 & G1) (A2 & B2 & C2 & D2 & E2 & F2 & G2).
  repeat split; congruence.
Qed.

Lemma quiet_print (m : message) (w : world) : quiet w (record (Print m) w).
Proof. unfold quiet. repeat split. Qed.

Lemma quiet_call_predict (sv : services) (features : list pyval) (w : world) :
  quiet w (snd (call_predict sv features w)).
Proof.
  unfold call_predict.
  destruct (predict_irrigation sv (ml_calls w)); unfold quiet; repeat split.
Qed.

(** The loop body for a day leaves everything alone but the output and the
    count of ML calls, whatever way it takes. *)
Lemma analyze_day_quiet (sv : services) (day : string) (schedule : pyval)
    (analyzed : dict) (w : world) :
  quiet w (snd (analyze_day sv day schedule analyzed w)) /\
  predicts (trace (snd (analyze_day sv day schedule analyzed w)))
  = PredictIrrigation default_features :: predicts (trace w) /\
  ml_calls (snd (analyze_day sv day schedule analyzed w)) = Datatypes.S (ml_calls w).
Proof.
  unfold analyze_day, analyze_fallback, call_predict, try_else, bind, lift, ret,
    print, emit, record.
  destruct (predict_irrigation sv (ml_calls w)) as [prediction|]; cbn [fst snd].
  - destruct (optimized_slot schedule prediction) as [slot|e]; cbn [fst snd].
    + destruct (getitem prediction "duree_minutes") as [duree|e]; cbn [fst snd].
      * destruct (format_f duree) as [[]|e]; cbn [fst snd].
        -- unfold quiet. repeat split.
        -- destruct (fallback_slot schedule); unfold quiet; repeat split.
      * destruct (fallback_slot schedule); unfold quiet; repeat split.
    + destruct (fallback_slot schedule); unfold quiet; repeat split.
  - destruct (fallback_slot schedule); unfold quiet; repeat split.
Qed.

Lemma repeat_app_cons {A : Type} (x : A) (n : nat) (l : list A) :
  (List.repeat x n ++ x :: l = x :: List.repeat x n ++ l)%list.
Proof. induction n as [|n IH]; simpl; [reflexivity|]. now rewrite IH. Qed.

(** The loop of [receive_schedule], entries not being assumed distinct: it
    goes through exactly when every entry is an object, it builds
    [analysis], it calls the ML service once for each enabled entry with
    the default features, and it leaves the rest of the world alone. *)
Lemma analyze_schedules_frame (sv : services) (entries : list (string * pyval)) :
  forall analyzed w,
    let r := analyze_schedules sv entries analyzed w in
    quiet w (snd r) /\
    (forallb (fun e => is_dict (snd e)) entries = true ->
     fst r = Ok (analysis sv (ml_calls w) entries analyzed) /\
     ml_calls (snd r) = (ml_calls w + List.length (enabled_entries entries))%nat /\
     predicts (trace (snd r))
     = (List.repeat (PredictIrrigation default_features)
          (List.length (enabled_entries entries)) ++ predicts (trace w))%list) /\
    (forallb (fun e => is_dict (snd e)) entries = false ->
     fst r = Raise AttributeError).
Proof.
  induction entries as [|[day schedule] rest IH]; intros analyzed w r.
  - unfold r. cbn. split; [apply quiet_refl|]. split; [|discriminate].
    intros _. rewrite Nat.add_0_r. auto.
  - unfold r. clear r. cbn [analyze_schedules forallb snd]. unfold bind.
    destruct schedule as [| | | | | |d];
      try (cbn; split; [apply quiet_refl|]; split; [discriminate|reflexivity]).
    rewrite analyze_entry_dict. cbn [is_dict andb analysis enabled_entries filter snd].
    destruct (is_enabled (PDict d)) eqn:Hen.
    + destruct (analyze_day_spec sv day d analyzed w) as (w1 & H1 & Hm1 & _).
      pose proof (analyze_day_quiet sv day (PDict d) analyzed w) as (Hq & Hp & _).
      rewrite H1 in *. cbn [snd] in Hq, Hp.
      specialize (IH (dict_set analyzed day (PDict (analyzed_slot sv (ml_calls w) d))) w1).
      cbv zeta in IH. destruct IH as (Hq' & Hok & Hbad).
      split; [eapply quiet_trans; eassumption|]. split.
      * intros Hall. destruct (Hok Hall) as (Hr & Hm & Hps).
        rewrite Hm1 in Hr. split; [exact Hr|].
        fold (enabled_entries rest). cbn [List.length List.repeat].
        split; [lia|]. rewrite Hps, Hp. cbn [app]. apply repeat_app_cons.
      * exact Hbad.
    + specialize (IH analyzed w). cbv zeta in IH. exact IH.
Qed.

(** The two outcomes of an update. *)
Lemma receive_schedule_outcome (sv : services) (data : pyval) (w : world) :
  let answer := receive_schedule sv data w in
  match accepted_payload data with
  | Some entries =>
      fst answer = Ok (PlanningRecu (analysis sv (ml_calls w) entries []), 200) /\
      active_schedules (snd answer) = analysis sv (ml_calls w) entries [] /\
      schedule_thread (snd answer) = true
  | None =>
      (exists e, fst answer = Ok (PlanningErreur e, 500)) /\ quiet w (snd answer)
  end.
Proof.
  cbv zeta. unfold accepted_payload, receive_schedule, try_except, try_else,
    bind, lift, ret, print, emit.
  destruct (get data "schedules" (PDict [])) as [schedules|e];
    [|split; [eexists; reflexivity|apply quiet_print]].
  destruct schedules as [| | | | | |entries];
    try (split; [eexists; reflexivity|]; unfold quiet; repeat split).
  cbn [items].
  pose proof (analyze_schedules_frame sv entries []
                (record (Print (MsgReceptionPlanning (PDict entries))) w)) as H.
  cbv zeta in H. destruct H as (Hq & Hok & Hbad).
  destruct (forallb (fun e => is_dict (snd e)) entries).
  - destruct (Hok eq_refl) as (Hr & _).
    destruct (analyze_schedules sv entries [] _) as [r w1]. cbn [fst snd] in *.
    subst r. unfold store_active_schedules, start_schedule_thread, log_irrigation,
      emit. cbn.
    destruct (schedule_thread w1); cbn; auto.
  - specialize (Hbad eq_refl).
    destruct (analyze_schedules sv entries [] _) as [r w1]. cbn [fst snd] in *.
    subst r. split; [eexists; reflexivity|].
    eapply quiet_trans; [apply quiet_print|].
    eapply quiet_trans; [exact Hq|apply quiet_print].
Qed.

(** X1: an update is all or nothing.  When the body is accepted the answer
    is 200, the global holds the mapping of the answer and the monitoring
    thread is alive; otherwise the answer is 500 and the schedules, the
    thread, the gateway and the activity log are as they were, however many
    days had been analysed before the malformed one. *)
Theorem update_is_all_or_nothing (sv : services) (data : pyval) (w : world) :
  let answer := receive_schedule sv data w in
  match accepted_payload data with
  | Some entries =>
      fst answer = Ok (PlanningRecu (analysis sv (ml_calls w) entries []), 200) /\
      active_schedules (snd answer) = analysis sv (ml_calls w) entries [] /\
      schedule_thread (snd answer) = true
  | None =>
      (exists e, fst answer = Ok (PlanningErreur e, 500)) /\ quiet w (snd answer)
  end.
Proof. apply receive_schedule_outcome. Qed.

Lemma logs_cons (ev : event) (tr : list event) :
  logs (ev :: tr) = if is_log ev then ev :: logs tr else logs tr.
Proof. reflexivity. Qed.

Lemma thread_starts_cons (ev : event) (tr : list event) :
  thread_starts (ev :: tr)
  = if is_thread_start ev then Datatypes.S (thread_starts tr) else thread_starts tr.
Proof. unfold thread_starts. simpl. now destruct (is_thread_start ev). Qed.

Lemma sleeps_cons (ev : event) (tr : list event) :
  sleeps (ev :: tr) = if is_sleep ev then ev :: sleeps tr else sleeps tr.
Proof. reflexivity. Qed.

(** What an accepted update does besides building the mapping. *)
Lemma receive_schedule_accepted (sv : services) (data : pyval)
    (entries : list (string * pyval)) (w : world) :
  accepted_payload data = Some entries ->
  let w' := snd (receive_schedule sv data w) in
  let called := List.length (enabled_entries entries) in
  active_schedules w' = analysis sv (ml_calls w) entries [] /\
  schedule_thread w' = true /\
  ml_calls w' = (ml_calls w + called)%nat /\
  predicts (trace w')
  = (List.repeat (PredictIrrigation default_features) called ++ predicts (trace w))%list /\
  mqtt_calls w' = mqtt_calls w /\
  clock_reads w' = clock_reads w /\
  fires (trace w') = fires (trace w) /\
  logs (trace w')
  = LogIrrigation "schedule_received" PNone PNone "ok" "SCHEDULE_AI" :: logs (trace w) /\
  thread_starts (trace w')
  = (thread_starts (trace w) + if schedule_thread w then 0 else 1)%nat.
Proof.
  unfold accepted_payload. intros Hacc. cbv zeta.
  unfold receive_schedule, try_except, try_else, bind, lift, ret, print, emit.
  destruct (get data "schedules" (PDict [])) as [schedules|e]; [|discriminate].
  destruct schedules as [| | | | | |entries']; try discriminate.
  destruct (forallb (fun e => is_dict (snd e)) entries') eqn:Hall; [|discriminate].
  injection Hacc as ->. cbn [items].
  pose proof (analyze_schedules_frame sv entries []
                (record (Print (MsgReceptionPlanning (PDict entries))) w)) as H.
  cbv zeta in H. destruct H as (Hq & Hok & _).
  destruct (Hok Hall) as (Hr & Hm & Hp). clear Hok.
  destruct (analyze_schedules sv entries [] _) as [r w1]. cbn [fst snd] in *.
  subst r. destruct Hq as (_ & Ht & Hmq & Hc & Hf & Hl & Hs).
  cbn [record schedule_thread mqtt_calls clock_reads trace ml_calls] in *.
  rewrite ?fires_cons, ?logs_cons, ?thread_starts_cons, ?predicts_cons in *.
  cbn [is_fire is_log is_thread_start is_predict] in *.
  unfold store_active_schedules, start_schedule_thread, log_irrigation, emit, record.
  cbn [fst snd schedule_thread active_schedules trace ml_calls mqtt_calls clock_reads].
  rewrite <- Ht.
  destruct (schedule_thread w1);
    cbn [fst snd schedule_thread active_schedules trace ml_calls mqtt_calls clock_reads];
    rewrite ?fires_cons, ?logs_cons, ?thread_starts_cons, ?predicts_cons;
    cbn [is_fire is_log is_thread_start is_predict];
    repeat split; auto; try congruence; lia.
Qed.

Lemma accepted_payload_inv (data : pyval) (entries : list (string * pyval)) :
  accepted_payload data = Some entries ->
  get data "schedules" (PDict []) = Ok (PDict entries) /\
  forallb (fun e => is_dict (snd e)) entries = true.
Proof.
  unfold accepted_payload.
  destruct (get data "schedules" (PDict [])) as [[| | | | | |entries']|]; try discriminate.
  destruct (forallb _ entries') eqn:H; [|discriminate].
  intros Heq. injection Heq as <-. auto.
Qed.

(** X2: an accepted update calls the ML service once for each entry that
    [enabled] lets through, in the order submitted and each time with the
    same fifteen default features, and never for a disabled entry. *)
Theorem ml_called_once_per_enabled_day (sv : services) (data : pyval)
    (entries : list (string * pyval)) (w : world) :
  accepted_payload data = Some entries ->
  let w' := snd (receive_schedule sv data w) in
  let called := List.length (enabled_entries entries) in
  ml_calls w' = (ml_calls w + called)%nat /\
  predicts (trace w')
  = (List.repeat (PredictIrrigation default_features) called ++ predicts (trace w))%list /\
  List.length default_features = 15%nat.
Proof.
  intros Hacc.
  destruct (receive_schedule_accepted sv data entries w Hacc)
    as (_ & _ & Hm & Hp & _).
  cbv zeta. auto.
Qed.

Lemma ml_called_once_per_enabled_day_witness :
  ml_calls week_world = 7%nat /\
  ml_calls tuesday_world = 0%nat.
Proof.
  split.
  - apply (ml_called_once_per_enabled_day sv_fourth_call_fails week_request _
             initial_world eq_refl).
  - apply (ml_called_once_per_enabled_day sv_tuesday
             (one_day_request "Mardi" "09:00" false) _ initial_world eq_refl).
Defined.

(** X3: an accepted update appends one [schedule_received] record to the
    activity log, makes no call of the actuation gateway and reads no
    clock; it starts the monitoring thread when none is alive and never a
    second one. *)
Theorem update_bookkeeping (sv : services) (data : pyval)
    (entries : list (string * pyval)) (w : world) :
  accepted_payload data = Some entries ->
  let w' := snd (receive_schedule sv data w) in
  logs (trace w')
  = LogIrrigation "schedule_received" PNone PNone "ok" "SCHEDULE_AI" :: logs (trace w) /\
  fires (trace w') = fires (trace w) /\
  mqtt_calls w' = mqtt_calls w /\
  clock_reads w' = clock_reads w /\
  schedule_thread w' = true /\
  thread_starts (trace w')
  = (thread_starts (trace w) + if schedule_thread w then 0 else 1)%nat /\
  (forall sv2 data2 entries2,
     accepted_payload data2 = Some entries2 ->
     thread_starts (trace (snd (receive_schedule sv2 data2 w')))
     = thread_starts (trace w')).
Proof.
  intros Hacc.
  destruct (receive_schedule_accepted sv data entries w Hacc)
    as (_ & Ht & _ & _ & Hq & Hc & Hf & Hl & Hs).
  cbv zeta. repeat split; auto.
  intros sv2 data2 entries2 Hacc2.
  destruct (receive_schedule_accepted sv2 data2 entries2
              (snd (receive_schedule sv data w)) Hacc2)
    as (_ & _ & _ & _ & _ & _ & _ & _ & Hs2).
  cbv zeta in Hs2. rewrite Hs2, Ht. lia.
Qed.

Lemma update_bookkeeping_witness :
  thread_starts (trace monday_world) = 1%nat /\
  thread_starts (trace (snd (receive_schedule sv_monday week_request monday_world))) = 1%nat.
Proof.
  destruct (update_bookkeeping sv_monday (one_day_request "Lundi" "08:00" true) _
              initial_world eq_refl) as (_ & _ & _ & _ & _ & Hs & Hagain).
  unfold monday_world. split.
  - exact Hs.
  - rewrite (Hagain sv_monday week_request _ eq_refl). exact Hs.
Defined.

(** *** The mapping an update stores *)

Lemma is_enabled_dict (schedule : pyval) :
  is_enabled schedule = true -> exists d, schedule = PDict d.
Proof.
  destruct schedule; try discriminate. eauto.
Qed.

Lemma analysis_lookup_other (sv : services) (entries : list (string * pyval)) (day : string) :
  ~ In day (map fst (enabled_entries entries)) ->
  forall k analyzed,
    dict_get (analysis sv k entries analyzed) day = dict_get analyzed day.
Proof.
  induction entries as [|[day0 schedule] rest IH]; intros Hnotin k analyzed.
  - reflexivity.
  - cbn [analysis]. cbn [enabled_entries filter snd] in Hnotin.
    destruct schedule as [| | | | | |d]; try reflexivity.
    destruct (is_enabled (PDict d)).
    + cbn [map fst In] in Hnotin.
      rewrite IH by (intros H; apply Hnotin; right; exact H).
      apply dict_get_set_other. intros ->. apply Hnotin. now left.
    + apply IH. exact Hnotin.
Qed.

Lemma dict_keys_set_new (d : dict) (k : string) (v : pyval) :
  ~ In k (dict_keys d) -> dict_keys (dict_set d k v) = (dict_keys d ++ [k])%list.
Proof.
  induction d as [|[k' v'] d IH]; intros Hnotin; simpl.
  - reflexivity.
  - destruct (String.eqb k' k) eqn:Hk.
    + apply String.eqb_eq in Hk. elim Hnotin. now left.
    + simpl. rewrite IH; [reflexivity|]. intros H. apply Hnotin. now right.
Qed.

Lemma analysis_keys (sv : services) (entries : list (string * pyval)) :
  forallb (fun e => is_dict (snd e)) entries = true ->
  forall k analyzed,
    NoDup (dict_keys analyzed ++ dict_keys entries) ->
    dict_keys (analysis sv k entries analyzed)
    = (dict_keys analyzed ++ map fst (enabled_entries entries))%list.
Proof.
  induction entries as [|[day0 schedule] rest IH]; intros Hall k analyzed Hnd.
  - cbn. now rewrite app_nil_r.
  - cbn [forallb snd] in Hall. apply andb_prop in Hall as [Hd Hall].
    destruct schedule as [| | | | | |d]; try discriminate.
    cbn [analysis enabled_entries filter snd].
    cbn [dict_keys map fst] in Hnd.
    assert (Hnotin : ~ In day0 (dict_keys analyzed)).
    { intros Hin. apply NoDup_remove_2 in Hnd. apply Hnd.
      apply in_or_app. now left. }
    assert (Hnd' : NoDup ((dict_keys analyzed ++ [day0]) ++ dict_keys rest)).
    { rewrite <- app_assoc. exact Hnd. }
    destruct (is_enabled (PDict d)).
    + rewrite IH; auto.
      * rewrite dict_keys_set_new by assumption.
        rewrite <- app_assoc. reflexivity.
      * rewrite dict_keys_set_new by assumption. exact Hnd'.
    + apply IH; auto. apply NoDup_remove_1 in Hnd. exact Hnd.
Qed.

Lemma analyzed_slot_annotated (sv : services) (k : nat) (d : dict) :
  annotated (PDict (analyzed_slot sv k d)).
Proof.
  unfold analyzed_slot.
  destruct (predict_irrigation sv k) as [prediction|].
  - destruct (usable_recommendation prediction) as [[duree volume]|].
    + pose proof (ai_fields (dict_update [] d) duree volume (PBool true))
        as (H1 & H2 & H3).
      exists (with_recommendation d duree volume), true, duree, volume.
      unfold with_recommendation. repeat split; auto; discriminate.
    + pose proof (ai_fields (dict_update [] d) (PInt 30) (PFloat float_0_6) (PBool false))
        as (H1 & H2 & H3).
      exists (with_fallback d), false, (PInt 30), (PFloat float_0_6).
      unfold with_fallback. repeat split; auto.
  - pose proof (ai_fields (dict_update [] d) (PInt 30) (PFloat float_0_6) (PBool false))
      as (H1 & H2 & H3).
    exists (with_fallback d), false, (PInt 30), (PFloat float_0_6).
    unfold with_fallback. repeat split; auto.
Qed.

Lemma analysis_annotated (sv : services) (entries : list (string * pyval)) :
  forall k analyzed,
    (forall day v, dict_get analyzed day = Some v -> annotated v) ->
    forall day v, dict_get (analysis sv k entries analyzed) day = Some v -> annotated v.
Proof.
  induction entries as [|[day0 schedule] rest IH]; intros k analyzed Hinv; cbn [analysis].
  - exact Hinv.
  - destruct schedule as [| | | | | |d]; try exact Hinv.
    destruct (is_enabled (PDict d)).
    + apply IH. intros day v.
      destruct (String.eqb day0 day) eqn:Hk.
      * apply String.eqb_eq in Hk. subst day.
        rewrite dict_get_set_same. intros H. injection H as <-.
        apply analyzed_slot_annotated.
      * apply String.eqb_neq in Hk. rewrite dict_get_set_other by assumption.
        apply Hinv.
    + apply IH. exact Hinv.
Qed.

(** X4: after an accepted update whose days are distinct, the keys of the
    stored schedules are the days submitted enabled, in the order
    submitted. *)
Theorem stored_days_are_the_enabled_ones (sv : services) (data : pyval)
    (entries : list (string * pyval)) (w : world) :
  accepted_payload data = Some entries ->
  NoDup (dict_keys entries) ->
  dict_keys (active_schedules (snd (receive_schedule sv data w)))
  = map fst (enabled_entries entries).
Proof.
  intros Hacc Hnd.
  destruct (receive_schedule_accepted sv data entries w Hacc) as (-> & _).
  destruct (accepted_payload_inv _ _ Hacc) as (_ & Hall).
  now rewrite analysis_keys.
Qed.

Lemma stored_days_are_the_enabled_ones_witness :
  dict_keys (active_schedules week_world)
  = ["Lundi"; "Mardi"; "Mercredi"; "Jeudi"; "Vendredi"; "Samedi"; "Dimanche"].
Proof.
  apply (stored_days_are_the_enabled_ones sv_fourth_call_fails week_request _
           initial_world eq_refl).
  repeat (constructor; [simpl; intuition discriminate|]). constructor.
Defined.

(** X5: an accepted update replaces the schedules, it does not merge into
    them.  What it stores does not depend on what was stored; a day that
    is not submitted enabled is absent afterwards even if it was stored
    before; an update without [schedules], or with none, empties the
    store. *)
Theorem update_replaces_everything (sv : services) (data : pyval)
    (entries : list (string * pyval)) (w : world) :
  accepted_payload data = Some entries ->
  let stored := active_schedules (snd (receive_schedule sv data w)) in
  (forall old,
     active_schedules (snd (receive_schedule sv data (with_schedules old w))) = stored) /\
  (forall day, ~ In day (map fst (enabled_entries entries)) -> dict_get stored day = None) /\
  (entries = [] -> stored = []).
Proof.
  intros Hacc stored. unfold stored.
  destruct (receive_schedule_accepted sv data entries w Hacc) as (-> & _).
  split; [|split].
  - intros old.
    destruct (receive_schedule_accepted sv data entries (with_schedules old w) Hacc)
      as (-> & _).
    reflexivity.
  - intros day Hnotin. now rewrite analysis_lookup_other.
  - intros ->. reflexivity.
Qed.

Lemma update_replaces_everything_witness :
  active_schedules (snd (receive_schedule sv_monday (PDict [("unrelated", PNone)]) week_world))
  = [].
Proof.
  apply (update_replaces_everything sv_monday (PDict [("unrelated", PNone)]) []
           week_world eq_refl).
  reflexivity.
Defined.

(** X6: after an accepted update every stored value is an object carrying
    [ai_optimized], [ai_duration_minutes] and [ai_volume_m3], with 30 and
    0.6 when [ai_optimized] is false; the defaults of the monitoring thread
    for missing fields are never needed on what ingestion stored. *)
Theorem stored_slots_are_annotated (sv : services) (data : pyval)
    (entries : list (string * pyval)) (w : world) (day : string) (v : pyval) :
  accepted_payload data = Some entries ->
  dict_get (active_schedules (snd (receive_schedule sv data w))) day = Some v ->
  annotated v.
Proof.
  intros Hacc.
  destruct (receive_schedule_accepted sv data entries w Hacc) as (-> & _).
  apply analysis_annotated. intros day' v' H. discriminate.
Qed.

Lemma stored_slots_are_annotated_witness :
  exists v, dict_get (active_schedules week_world) "Jeudi" = Some v /\ annotated v.
Proof.
  eexists. split; [vm_compute; reflexivity|].
  eapply (stored_slots_are_annotated sv_fourth_call_fails week_request _
            initial_world "Jeudi"); [reflexivity|vm_compute; reflexivity].
Defined.

Lemma dict_update_fresh (d : dict) :
  forall acc, NoDup (dict_keys acc ++ dict_keys d) -> dict_update acc d = (acc ++ d)%list.
Proof.
  unfold dict_update.
  induction d as [|[k v] d IH]; intros acc Hnd; cbn [fold_left fst snd].
  - now rewrite app_nil_r.
  - cbn [dict_keys map fst] in Hnd.
    assert (Hnotin : ~ In k (dict_keys acc)).
    { intros Hin. apply NoDup_remove_2 in Hnd. apply Hnd. apply in_or_app. now left. }
    assert (Hset : dict_set acc k v = (acc ++ [(k, v)])%list).
    { clear -Hnotin. induction acc as [|[k' v'] acc IH]; simpl; [reflexivity|].
      destruct (String.eqb k' k) eqn:Hk.
      - apply String.eqb_eq in Hk. elim Hnotin. now left.
      - rewrite IH; [reflexivity|]. intros H. apply Hnotin. now right. }
    rewrite Hset, IH.
    + now rewrite <- app_assoc.
    + unfold dict_keys in *. rewrite map_app, <- app_assoc. exact Hnd.
Qed.

(** X7: an enabled entry is stored with every field it was submitted with
    (its keys being distinct, as in a parsed JSON object); only the three
    [ai_] fields are set by the handler, over whatever the client sent
    under those names.  The stored slot is therefore enabled. *)
Theorem submitted_fields_are_kept (sv : services) (data : pyval)
    (entries : list (string * pyval)) (w : world) (day : string) (d : dict) :
  accepted_payload data = Some entries ->
  NoDup (dict_keys entries) ->
  dict_get entries day = Some (PDict d) ->
  is_enabled (PDict d) = true ->
  NoDup (dict_keys d) ->
  exists slot,
    dict_get (active_schedules (snd (receive_schedule sv data w))) day = Some (PDict slot) /\
    (forall k, k <> "ai_duration_minutes" -> k <> "ai_volume_m3" -> k <> "ai_optimized" ->
               dict_get slot k = dict_get d k) /\
    is_enabled (PDict slot) = true.
Proof.
  intros Hacc Hnd Hday Hen Hndd.
  destruct (accepted_payload_inv _ _ Hacc) as (Hget & Hall).
  destruct (receive_schedule_spec sv data entries w Hget (conj Hnd Hall))
    as (analyzed & w' & -> & Ha & Hlook).
  cbn [snd]. rewrite Ha. specialize (Hlook day). rewrite Hday, Hen in Hlook.
  destruct Hlook as (d' & Heq & Hg). injection Heq as <-.
  exists (analyzed_slot sv (ml_calls w + enabled_before entries day) d).
  split; [exact Hg|].
  assert (Hkeep : forall k, k <> "ai_duration_minutes" -> k <> "ai_volume_m3" ->
                            k <> "ai_optimized" ->
                  dict_get (analyzed_slot sv (ml_calls w + enabled_before entries day) d) k
                  = dict_get d k).
  { intros k H1 H2 H3. unfold analyzed_slot, with_recommendation, with_fallback.
    rewrite (dict_update_fresh d []) by exact Hndd. cbn [app].
    destruct (predict_irrigation sv _) as [prediction|];
      [destruct (usable_recommendation prediction) as [[duree volume]|]|];
      unfold dict_update; cbn [fold_left fst snd];
      rewrite !dict_get_set_other by congruence; reflexivity. }
  split; [exact Hkeep|].
  unfold is_enabled, get in *. rewrite Hkeep by discriminate. exact Hen.
Qed.

Lemma submitted_fields_are_kept_witness :
  exists slot,
    dict_get (active_schedules week_world) "Samedi" = Some (PDict slot) /\
    dict_get slot "startTime" = Some (PStr "06:50").
Proof.
  destruct (submitted_fields_are_kept sv_fourth_call_fails week_request _ initial_world
              "Samedi" [("enabled", PBool true); ("startTime", PStr "06:50")] eq_refl)
    as (slot & Hg & Hkeep & _).
  - repeat (constructor; [simpl; intuition discriminate|]). constructor.
  - reflexivity.
  - reflexivity.
  - repeat (constructor; [simpl; intuition discriminate|]). constructor.
  - exists slot. split; [exact Hg|].
    rewrite Hkeep by discriminate. reflexivity.
Defined.

(** ** Further properties of the monitoring thread *)












Lemma french_day_of (t : datetime) (french_day : string) :
  mapping_get day_mapping (strftime_A t) = Some french_day -> In french_day french_days.
Proof.
  unfold strftime_A. destruct (dt_weekday t); intros H; injection H as <-;
    cbn; tauto.
Qed.

Lemma no_french_key_never_due (store : dict) (t : datetime) :
  (forall french_day, In french_day french_days -> dict_get store french_day = None) ->
  due store t = false.
Proof.
  intros Hnone. destruct (day_mapping_total t) as (fd & Hm & _).
  unfold due. rewrite (slot_at_lookup _ _ _ Hm), (Hnone fd); [reflexivity|].
  eapply french_day_of; eassumption.
Qed.

(** X10: the monitoring thread looks the schedules up under the seven
    French day names only.  When none of them is a key of the stored
    schedules, as when the days were submitted under their English names,
    no turn ever calls the gateway, whatever the time. *)
Theorem only_french_day_keys_fire (sv : services) (n : nat) (w : world) :
  (forall french_day, In french_day french_days ->
                      dict_get (active_schedules w) french_day = None) ->
  fires (trace (snd (monitor_loop sv n w))) = fires (trace w).
Proof.
  revert w. induction n as [|n IH]; intros w Hnone; [reflexivity|].
  rewrite monitor_loop_succ.
  destruct (monitor_iteration_spec sv w) as (w1 & H1 & _ & Ha & Hf).
  rewrite H1. cbn [snd]. rewrite IH.
  - rewrite Hf, not_due_no_call; [reflexivity|].
    now apply no_french_key_never_due.
  - now rewrite Ha.
Qed.

Lemma only_french_day_keys_fire_witness :
  dict_keys (active_schedules english_world) = ["Monday"] /\
  now sv_monday (clock_reads english_world) = mk_datetime Monday 8 0 /\
  fires (trace (snd (monitor_loop sv_monday 3 english_world))) = [].
Proof.
  split; [reflexivity|]. split; [reflexivity|].
  apply (only_french_day_keys_fire sv_monday 3 english_world).
  intros fd Hin. cbn in Hin.
  destruct Hin as [<-|[<-|[<-|[<-|[<-|[<-|[<-|[]]]]]]]]; reflexivity.
Defined.

Lemma strftime_HM_length (t : datetime) : String.length (strftime_HM t) = 5%nat.
Proof. reflexivity. Qed.

(** X11: a slot fires only on a [startTime] written as the clock prints
    it, two digits, a colon, two digits.  A stored [startTime] that is
    missing, is not a string, or is a string of another length, such as
    [8:00], makes no turn of its day call the gateway. *)
Theorem start_time_must_be_hh_mm (sv : services) (w : world)
    (french_day : string) (slot : dict) :
  mapping_get day_mapping (strftime_A (now sv (clock_reads w))) = Some french_day ->
  dict_get (active_schedules w) french_day = Some (PDict slot) ->
  (forall s, dict_get slot "startTime" = Some (PStr s) -> String.length s <> 5%nat) ->
  fires (trace (snd (monitor_iteration sv w))) = fires (trace w).
Proof.
  intros Hm Hg Hlen.
  destruct (monitor_iteration_spec sv w) as (w1 & -> & _ & _ & Hf).
  cbn [snd]. rewrite Hf, not_due_no_call; [reflexivity|].
  destruct (due (active_schedules w) (now sv (clock_reads w))) eqn:Hdue; [|reflexivity].
  destruct (due_true _ _ Hdue) as (fd & slot' & _ & Hm' & _ & Hg' & _ & _ & Hs).
  assert (fd = french_day) by congruence. subst fd.
  assert (slot' = slot) by congruence. subst slot'.
  elim (Hlen _ Hs). apply strftime_HM_length.
Qed.

Lemma start_time_must_be_hh_mm_witness :
  now sv_monday (clock_reads unpadded_world) = mk_datetime Monday 8 0 /\
  fires (trace (snd (monitor_iteration sv_monday unpadded_world))) = [].
Proof.
  split; [reflexivity|].
  apply (start_time_must_be_hh_mm sv_monday unpadded_world "Lundi"
           [("enabled", PBool true); ("startTime", PStr "8:00");
            ("ai_duration_minutes", PFloat (float_lit 225 10));
            ("ai_volume_m3", PFloat (float_lit 9 10));
            ("ai_optimized", PBool true)]).
  - reflexivity.
  - vm_compute. reflexivity.
  - intros s H. vm_compute in H. injection H as <-. discriminate.
Defined.

Lemma evaluate_schedules_due_on (sv : services) (t : datetime) (store : dict)
    (w : world) (french_day : string) (slot : dict) :
  mapping_get day_mapping (strftime_A t) = Some french_day ->
  dict_get store french_day = Some (PDict slot) ->
  slot_due (PDict slot) (strftime_HM t) = Ok true ->
  evaluate_schedules sv t store store w
  = trigger_irrigation sv (PDict slot) french_day (strftime_HM t) w.
Proof.
  intros Hm Hg Hdue. unfold evaluate_schedules. rewrite Hm.
  destruct (day_mapping_total t) as (fd & Hm' & Hne).
  assert (fd = french_day) by congruence. subst fd. rewrite Hne.
  unfold dict_mem. rewrite Hg. cbn [negb andb].
  unfold bind, lift, getitem. rewrite Hg, Hdue. reflexivity.
Qed.

Lemma slot_due_intro (slot : dict) (enabled : pyval) (hm : string) :
  dict_get slot "enabled" = Some enabled -> truthy enabled = true ->
  dict_get slot "startTime" = Some (PStr hm) ->
  slot_due (PDict slot) hm = Ok true.
Proof.
  intros He Ht Hs. unfold slot_due, get. rewrite He, Ht, Hs. cbn [eq_str].
  now rewrite String.eqb_refl.
Qed.

(** X12: a due slot whose duration does not convert to seconds (a float
    that is not a number or is infinite, [None], an object) is skipped:
    the turn announces the slot, prints the conversion error, sleeps and
    makes no call of the gateway. *)
Theorem unconvertible_duration_is_skipped (sv : services) (w : world)
    (french_day : string) (slot : dict) (enabled duration_minutes : pyval) (e : exn) :
  let t := now sv (clock_reads w) in
  mapping_get day_mapping (strftime_A t) = Some french_day ->
  dict_get (active_schedules w) french_day = Some (PDict slot) ->
  dict_get slot "enabled" = Some enabled -> truthy enabled = true ->
  dict_get slot "startTime" = Some (PStr (strftime_HM t)) ->
  get (PDict slot) "ai_duration_minutes" (PInt 30) = Ok duration_minutes ->
  duration_seconds_of sv duration_minutes = Raise e ->
  trace (snd (monitor_iteration sv w))
  = Sleep 60 :: Print (MsgErreurSurveillance e)
    :: Print (MsgDeclenchement french_day (strftime_HM t)) :: trace w /\
  duration_seconds_of sv (PFloat S754_nan) = Raise ValueError /\
  (forall s, duration_seconds_of sv (PFloat (S754_infinity s)) = Raise OverflowError) /\
  duration_seconds_of sv PNone = Raise TypeError.
Proof.
  intros t Hm Hg He Ht Hs Hdm Hsec.
  split; [|repeat split].
  destruct (read_clock_spec sv w) as (w1 & Hr & Ha & Htr & _).
  unfold monitor_iteration, monitor_tick, try_except, try_else, bind.
  rewrite Hr. unfold load_active_schedules. cbv beta iota. fold t. rewrite Ha.
  rewrite (evaluate_schedules_due_on sv t _ w1 french_day slot Hm Hg
             (slot_due_intro _ _ _ He Ht Hs)).
  pose proof (trigger_irrigation_spec sv slot french_day (strftime_HM t) w1 _ _
                Hdm eq_refl) as H.
  rewrite Hsec in H. rewrite H. cbn. rewrite Htr. reflexivity.
Qed.

Lemma unconvertible_duration_is_skipped_witness :
  trace (snd (monitor_iteration sv_monday_nan nan_world))
  = Sleep 60 :: Print (MsgErreurSurveillance ValueError)
    :: Print (MsgDeclenchement "Lundi" "08:00") :: trace nan_world.
Proof.
  apply (unconvertible_duration_is_skipped sv_monday_nan nan_world "Lundi"
           [("enabled", PBool true); ("startTime", PStr "08:00");
            ("ai_duration_minutes", PFloat S754_nan);
            ("ai_volume_m3", PFloat (float_lit 9 10));
            ("ai_optimized", PBool true)]
           (PBool true) (PFloat S754_nan) ValueError); reflexivity.
Defined.

Lemma monitor_loop_fires (sv : services) (n : nat) :
  forall w,
    fires (trace (snd (monitor_loop sv n w)))
    = (scheduled_calls sv (active_schedules w) (readings sv (clock_reads w) n)
       ++ fires (trace w))%list.
Proof.
  induction n as [|n IH]; intros w; [reflexivity|].
  rewrite monitor_loop_succ.
  destruct (monitor_iteration_spec sv w) as (w1 & H1 & Hc & Ha & Hf).
  rewrite H1. cbn [snd]. rewrite IH, Hc, Ha, Hf.
  unfold readings. cbn [seq map scheduled_calls]. rewrite <- app_assoc.
  destruct (scheduled_call sv (active_schedules w) (now sv (clock_reads w)));
    reflexivity.
Qed.




(** X14: [POST /irrigation/stop] and [POST /irrigation/manual] answer 200
    and do nothing else than print: they make no call of the gateway and
    leave the schedules in place, so the turns that follow call the gateway
    exactly as if the route had not been requested. *)
Theorem stop_cancels_nothing (sv : services) (n : nat) (w : world) :
  let stopped := snd (stop_irrigation w) in
  let started := snd (start_manual_irrigation w) in
  fst (stop_irrigation w) = Ok (IrrigationArretee, 200) /\
  fst (start_manual_irrigation w) = Ok (LegacyManuelle, 200) /\
  active_schedules stopped = active_schedules w /\
  mqtt_calls stopped = mqtt_calls w /\ mqtt_calls started = mqtt_calls w /\
  fires (trace (snd (monitor_loop sv n stopped))) = fires (trace (snd (monitor_loop sv n w))) /\
  fires (trace (snd (monitor_loop sv n started))) = fires (trace (snd (monitor_loop sv n w))).
Proof.
  cbv zeta. repeat split; rewrite !monitor_loop_fires; reflexivity.
Qed.



(** ** From the update to the actuation *)

Lemma is_enabled_inv (d : dict) :
  is_enabled (PDict d) = true ->
  exists enabled, dict_get d "enabled" = Some enabled /\ truthy enabled = true.
Proof.
  unfold is_enabled, get.
  destruct (dict_get d "enabled") as [enabled|]; [eauto|discriminate].
Qed.

Lemma analyzed_slot_keeps (sv : services) (k : nat) (d : dict) (key : string) :
  NoDup (dict_keys d) ->
  key <> "ai_duration_minutes" -> key <> "ai_volume_m3" -> key <> "ai_optimized" ->
  dict_get (analyzed_slot sv k d) key = dict_get d key.
Proof.
  intros Hnd H1 H2 H3. unfold analyzed_slot, with_recommendation, with_fallback.
  rewrite (dict_update_fresh d []) by exact Hnd. cbn [app].
  destruct (predict_irrigation sv k) as [prediction|];
    [destruct (usable_recommendation prediction) as [[duree volume]|]|];
    unfold dict_update; cbn [fold_left fst snd];
    rewrite !dict_get_set_other by congruence; reflexivity.
Qed.

(** X16: what is ingested is what is actuated.  A day submitted enabled
    with a start time, in an accepted update, makes the turn of that day
    and minute call the gateway: with the truncated seconds and the volume
    of its recommendation when the ML service gave one, and with 1800
    seconds and 0.6 m³ when the call of the ML service failed. *)
Theorem ingested_slot_is_actuated (sv sv' : services) (data : pyval)
    (entries : list (string * pyval)) (w w2 : world) (day : string) (d : dict) :
  accepted_payload data = Some entries ->
  NoDup (dict_keys entries) ->
  dict_get entries day = Some (PDict d) ->
  is_enabled (PDict d) = true ->
  NoDup (dict_keys d) ->
  active_schedules w2 = active_schedules (snd (receive_schedule sv data w)) ->
  let t := now sv' (clock_reads w2) in
  let call_index := (ml_calls w + enabled_before entries day)%nat in
  mapping_get day_mapping (strftime_A t) = Some day ->
  dict_get d "startTime" = Some (PStr (strftime_HM t)) ->
  (predict_irrigation sv call_index = Raises ->
   fires (trace (snd (monitor_iteration sv' w2)))
   = DemarrerArrosage 1800 (PFloat float_0_6) "SCHEDULE_AI" :: fires (trace w2)) /\
  (forall prediction duree volume duration_seconds,
     predict_irrigation sv call_index = Returns prediction ->
     getitem prediction "duree_minutes" = Ok duree ->
     getitem prediction "volume_m3" = Ok volume ->
     format_f duree = Ok tt ->
     duration_seconds_of sv' duree = Ok duration_seconds ->
     fires (trace (snd (monitor_iteration sv' w2)))
     = DemarrerArrosage duration_seconds volume "SCHEDULE_AI" :: fires (trace w2)).
Proof.
  intros Hacc Hnd Hday Hen Hndd Hstore t call_index Hm Hstart.
  destruct (accepted_payload_inv _ _ Hacc) as (Hget & Hall).
  destruct (receive_schedule_spec sv data entries w Hget (conj Hnd Hall))
    as (analyzed & w' & Hr & Ha & Hlook).
  rewrite Hr in Hstore. cbn [snd] in Hstore. rewrite Ha in Hstore.
  specialize (Hlook day). rewrite Hday, Hen in Hlook.
  destruct Hlook as (d' & Heq & Hg). injection Heq as <-.
  fold call_index in Hg. rewrite <- Hstore in Hg.
  destruct (is_enabled_inv d Hen) as (enabled & He & Ht).
  assert (He' : dict_get (analyzed_slot sv call_index d) "enabled" = Some enabled)
    by (rewrite analyzed_slot_keeps by (assumption || discriminate); exact He).
  assert (Hs' : dict_get (analyzed_slot sv call_index d) "startTime"
                = Some (PStr (strftime_HM t)))
    by (rewrite analyzed_slot_keeps by (assumption || discriminate); exact Hstart).
  split.
  - intros Hfail.
    rewrite (analyzed_slot_fallback sv call_index d Hfail) in *.
    pose proof (ai_fields (dict_update [] d) (PInt 30) (PFloat float_0_6) (PBool false))
      as (H1 & H2 & _).
    apply (due_call sv' w2 day (with_fallback d) enabled 1800 Hm Hg He' Ht Hs'
             (PInt 30) (PFloat float_0_6)).
    + unfold get, with_fallback. now rewrite H1.
    + unfold get, with_fallback. now rewrite H2.
    + reflexivity.
  - intros prediction duree volume secs Hp Hd Hv Hf Hsec.
    rewrite (analyzed_slot_recommendation sv call_index d prediction duree volume
               Hp Hd Hv Hf) in *.
    pose proof (ai_fields (dict_update [] d) duree volume (PBool true))
      as (H1 & H2 & _).
    apply (due_call sv' w2 day (with_recommendation d duree volume) enabled secs
             Hm Hg He' Ht Hs' duree volume).
    + unfold get, with_recommendation. now rewrite H1.
    + unfold get, with_recommendation. now rewrite H2.
    + exact Hsec.
Qed.

Lemma ingested_slot_is_actuated_witness :
  fires (trace (snd (monitor_iteration sv_ml_down
                       (snd (receive_schedule sv_ml_down
                               (one_day_request "Lundi" "08:00" true) initial_world)))))
  = [DemarrerArrosage 1800 (PFloat float_0_6) "SCHEDULE_AI"].
Proof.
  refine (proj1 (ingested_slot_is_actuated sv_ml_down sv_ml_down
                   (one_day_request "Lundi" "08:00" true) _ initial_world _ "Lundi"
                   [("enabled", PBool true); ("startTime", PStr "08:00")]
                   eq_refl _ eq_refl eq_refl _ eq_refl eq_refl eq_refl) eq_refl).
  - constructor; [intros []|constructor].
  - repeat (constructor; [simpl; intuition discriminate|]). constructor.
Defined.

(** ** Further properties of the recommendation endpoint *)

(** The [try] block around the ML service, way by way: what it returns
    and what it appends to the activity log. *)
Lemma arroser_predict_outcome (sv : services) (fs : list spec_float) (w : world) :
  let r := arroser_predict sv fs w in
  untouched_by_arroser w (snd r) /\
  match predict_irrigation sv (ml_calls w) with
  | Raises => fst r = Raise ServiceError /\ logs (trace (snd r)) = logs (trace w)
  | Returns prediction =>
      match (if truthy prediction then contains prediction "volume_m3" else Ok false) with
      | Raise e => fst r = Raise e /\ logs (trace (snd r)) = logs (trace w)
      | Ok false =>
          fst r = Ok (PredictionInvalide, 500) /\ logs (trace (snd r)) = logs (trace w)
      | Ok true =>
          match getitem prediction "duree_minutes", getitem prediction "volume_m3" with
          | Ok duree, Ok volume =>
              logs (trace (snd r))
              = LogIrrigation "ml_prediction" duree volume "prediction_ok" "ML"
                :: logs (trace w) /\
              match to_float (parse_float sv) duree, to_float (parse_float sv) volume,
                    format_f duree, format_f volume with
              | Ok f1, Ok f2, Ok _, Ok _ => fst r = Ok (Recommandation f1 f2, 200)
              | _, _, _, _ => exists e, fst r = Raise e
              end
          | _, _ => (exists e, fst r = Raise e) /\ logs (trace (snd r)) = logs (trace w)
          end
      end
  end.
Proof.
  cbv zeta.
  unfold arroser_predict, call_predict, bind, lift, ret, log_irrigation, print, emit, record.
  destruct (predict_irrigation sv (ml_calls w)) as [prediction|];
    [|split; [unfold untouched_by_arroser|]; repeat split].
  destruct (truthy prediction);
    [|split; [unfold untouched_by_arroser|]; repeat split].
  destruct (contains prediction "volume_m3") as [[|]|];
    [|split; [unfold untouched_by_arroser|]; repeat split ..].
  destruct (getitem prediction "duree_minutes") as [duree|];
    [|split; [unfold untouched_by_arroser; repeat split|split; [eexists|]; reflexivity]].
  destruct (getitem prediction "volume_m3") as [volume|];
    [|split; [unfold untouched_by_arroser; repeat split|split; [eexists|]; reflexivity]].
  cbn [trace ml_calls].
  destruct (to_float (parse_float sv) duree);
    [|split; [unfold untouched_by_arroser; repeat split|split; [|eexists]; reflexivity]].
  destruct (to_float (parse_float sv) volume);
    [|split; [unfold untouched_by_arroser; repeat split|split; [|eexists]; reflexivity]].
  destruct (format_f duree) as [[]|];
    [|split; [unfold untouched_by_arroser; repeat split|split; [|eexists]; reflexivity]].
  destruct (format_f volume) as [[]|];
    (split; [unfold untouched_by_arroser; repeat split|split; [|try eexists]; reflexivity]).
Qed.

Ltac rejected_early :=
  left; do 2 eexists; cbn;
  split; [reflexivity|]; split; [discriminate|]; split; [reflexivity|];
  unfold untouched_by_arroser; repeat split.

(** The ways through [arroser] up to the call of the ML service. *)
Lemma arroser_paths (sv : services) (data : pyval) (w : world) :
  (exists r code,
     fst (arroser sv data w) = Ok (r, code) /\ code <> 200 /\
     logs (trace (snd (arroser sv data w))) = logs (trace w) /\
     untouched_by_arroser w (snd (arroser sv data w))) \/
  (exists features fs,
     truthy data = true /\
     get data "features" (PList []) = Ok features /\
     features_rejected features = Ok false /\
     features_array_of sv features = Ok fs /\
     arroser sv data w
     = try_except (arroser_predict sv fs)
         (fun ml_err => print (MsgErreurML ml_err) ;;; ret (ErreurModele ml_err, 500))
         (record (Print (MsgRequeteML features)) w)).
Proof.
  unfold arroser, try_except, try_else, bind, lift, ret, print, emit.
  cbv beta.
  destruct (truthy data) eqn:Hdata; cbn [negb]; [|rejected_early].
  destruct (get data "features" (PList [])) as [features|e]; [|rejected_early].
  destruct (features_rejected features) as [[|]|e] eqn:Hrej;
    [rejected_early| |rejected_early].
  destruct (features_array_of sv features) as [fs|e] eqn:Hfs; [|rejected_early].
  right. exists features, fs. repeat split; auto.
  destruct (arroser_predict sv fs (record (Print (MsgRequeteML features)) w))
    as [[resp|e] w1]; reflexivity.
Qed.

(** X17: [arroser] answers 200 only with a recommendation it has logged:
    the answer carries the floats of the two values the ML service
    returned, and one [ml_prediction] record with those values has been
    appended to the activity log.  Whatever the request, at most one record
    is appended, and the schedules, the monitoring thread, the gateway and
    the clock are left alone. *)
Theorem recommendation_is_logged (sv : services) (data : pyval) (w : world) :
  let answer := arroser sv data w in
  let w' := snd answer in
  (forall r, fst answer = Ok (r, 200) ->
     exists prediction duree volume f1 f2,
       predict_irrigation sv (ml_calls w) = Returns prediction /\
       getitem prediction "duree_minutes" = Ok duree /\
       getitem prediction "volume_m3" = Ok volume /\
       to_float (parse_float sv) duree = Ok f1 /\
       to_float (parse_float sv) volume = Ok f2 /\
       r = Recommandation f1 f2 /\
       logs (trace w')
       = LogIrrigation "ml_prediction" duree volume "prediction_ok" "ML" :: logs (trace w)) /\
  (logs (trace w') = logs (trace w) \/
   exists duree volume,
     logs (trace w')
     = LogIrrigation "ml_prediction" duree volume "prediction_ok" "ML" :: logs (trace w)) /\
  untouched_by_arroser w w'.
Proof.
  cbv zeta.
  destruct (arroser_paths sv data w)
    as [(r0 & code & Hr & Hcode & Hl & Hu)|(features & fs & _ & _ & _ & _ & Heq)].
  - split; [|split; auto].
    intros r H. rewrite Hr in H. injection H as _ H. congruence.
  - rewrite Heq. clear Heq.
    set (w0 := record (Print (MsgRequeteML features)) w).
    pose proof (arroser_predict_outcome sv fs w0) as H. cbv zeta in H.
    change (ml_calls w0) with (ml_calls w) in H.
    change (logs (trace w0)) with (logs (trace w)) in H.
    destruct H as (Hu & H).
    assert (Hu' : forall w1, untouched_by_arroser w0 w1 -> untouched_by_arroser w w1)
      by (intros w1 Hw; exact Hw).
    unfold try_except, try_else.
    destruct (arroser_predict sv fs w0) as [r w1]. cbn [fst snd] in *.
    destruct (predict_irrigation sv (ml_calls w)) as [prediction|] eqn:Hp.
    2: { destruct H as [-> Hl]. cbn. split; [intros r H; discriminate|]. auto. }
    destruct (if truthy prediction then contains prediction "volume_m3" else Ok false)
      as [[|]|e].
    2, 3: destruct H as [-> Hl]; cbn; (split; [intros r H; discriminate|]); auto.
    destruct (getitem prediction "duree_minutes") as [duree|e1] eqn:Hd.
    2: { destruct H as [[e' ->] Hl]. cbn. split; [intros r H; discriminate|]. auto. }
    destruct (getitem prediction "volume_m3") as [volume|e2] eqn:Hv.
    2: { destruct H as [[e' ->] Hl]. cbn. split; [intros r H; discriminate|]. auto. }
    destruct H as [Hl H].
    assert (Hlog : forall w2 : world, logs (trace w2) = logs (trace w1) ->
              logs (trace w2) = logs (trace w) \/
              exists duree volume,
                logs (trace w2)
                = LogIrrigation "ml_prediction" duree volume "prediction_ok" "ML"
                  :: logs (trace w))
      by (intros w2 Hw2; right; exists duree, volume; congruence).
    destruct (to_float (parse_float sv) duree) as [f1|] eqn:Hf1.
    2: { destruct H as [e' ->]. cbn. split; [intros r H; discriminate|].
         split; [apply Hlog; reflexivity|exact Hu]. }
    destruct (to_float (parse_float sv) volume) as [f2|] eqn:Hf2.
    2: { destruct H as [e' ->]. cbn. split; [intros r H; discriminate|].
         split; [apply Hlog; reflexivity|exact Hu]. }
    destruct (format_f duree) as [[]|].
    2: { destruct H as [e' ->]. cbn. split; [intros r H; discriminate|].
         split; [apply Hlog; reflexivity|exact Hu]. }
    destruct (format_f volume) as [[]|].
    2: { destruct H as [e' ->]. cbn. split; [intros r H; discriminate|].
         split; [apply Hlog; reflexivity|exact Hu]. }
    subst r. cbn. split.
    + intros r H. injection H as <-.
      exists prediction, duree, volume, f1, f2. repeat split; auto.
    + split; [apply Hlog; reflexivity|exact Hu].
Qed.

Lemma recommendation_is_logged_witness :
  exists duree volume,
    logs (trace (snd (arroser sv_monday fifteen_request initial_world)))
    = [LogIrrigation "ml_prediction" duree volume "prediction_ok" "ML"].
Proof.
  destruct (proj1 (recommendation_is_logged sv_monday fifteen_request initial_world)
              (Recommandation (float_lit 225 10) (float_lit 9 10)) eq_refl)
    as (prediction & duree & volume & f1 & f2 & _ & _ & _ & _ & _ & _ & Hl).
  exists duree, volume. exact Hl.
Defined.

Lemma arroser_accepted (sv : services) (data features : pyval)
    (fs : list spec_float) (w : world) :
  truthy data = true ->
  get data "features" (PList []) = Ok features ->
  features_rejected features = Ok false ->
  features_array_of sv features = Ok fs ->
  arroser sv data w
  = try_except (arroser_predict sv fs)
      (fun ml_err => print (MsgErreurML ml_err) ;;; ret (ErreurModele ml_err, 500))
      (record (Print (MsgRequeteML features)) w).
Proof.
  intros Hdata Hget Hrej Hfs.
  unfold arroser, try_except, try_else, bind, lift, ret, print, emit.
  rewrite Hdata, Hget, Hrej, Hfs. cbn [negb].
  destruct (arroser_predict sv fs (record (Print (MsgRequeteML features)) w))
    as [[resp|e] w1]; reflexivity.
Qed.

Lemma arroser_predict_unconvertible (sv : services) (fs : list spec_float) (w : world)
    (prediction duree volume : pyval) (e : exn) :
  predict_irrigation sv (ml_calls w) = Returns prediction ->
  truthy prediction = true ->
  contains prediction "volume_m3" = Ok true ->
  getitem prediction "duree_minutes" = Ok duree ->
  getitem prediction "volume_m3" = Ok volume ->
  to_float (parse_float sv) duree = Raise e ->
  fst (arroser_predict sv fs w) = Raise e /\
  logs (trace (snd (arroser_predict sv fs w)))
  = LogIrrigation "ml_prediction" duree volume "prediction_ok" "ML" :: logs (trace w).
Proof.
  intros Hp Ht Hc Hd Hv Hf.
  unfold arroser_predict, call_predict, bind, lift, ret, log_irrigation, print, emit, record.
  rewrite Hp, Ht, Hc, Hd, Hv. cbn [trace]. rewrite Hf. split; reflexivity.
Qed.

(** X18: how a recommendation fails once the features are accepted.  When
    the ML service raises, the answer is 500 and nothing is logged; when it
    returns nothing, or an object without [volume_m3], the answer is 500
    and nothing is logged; when it returns both values but [float] cannot
    convert the duration, the answer is 500 although the [ml_prediction]
    record, with the status [prediction_ok], is already in the activity
    log. *)
Theorem recommendation_failures (sv : services) (data features : pyval)
    (fs : list spec_float) (w : world) :
  truthy data = true ->
  get data "features" (PList []) = Ok features ->
  features_rejected features = Ok false ->
  features_array_of sv features = Ok fs ->
  let answer := arroser sv data w in
  (predict_irrigation sv (ml_calls w) = Raises ->
   fst answer = Ok (ErreurModele ServiceError, 500) /\
   logs (trace (snd answer)) = logs (trace w)) /\
  (forall prediction,
     predict_irrigation sv (ml_calls w) = Returns prediction ->
     truthy prediction = false \/ contains prediction "volume_m3" = Ok false ->
     fst answer = Ok (PredictionInvalide, 500) /\
     logs (trace (snd answer)) = logs (trace w)) /\
  (forall prediction duree volume e,
     predict_irrigation sv (ml_calls w) = Returns prediction ->
     truthy prediction = true ->
     contains prediction "volume_m3" = Ok true ->
     getitem prediction "duree_minutes" = Ok duree ->
     getitem prediction "volume_m3" = Ok volume ->
     to_float (parse_float sv) duree = Raise e ->
     fst answer = Ok (ErreurModele e, 500) /\
     logs (trace (snd answer))
     = LogIrrigation "ml_prediction" duree volume "prediction_ok" "ML" :: logs (trace w)).
Proof.
  intros Hdata Hget Hrej Hfs answer. unfold answer.
  rewrite (arroser_accepted sv data features fs w Hdata Hget Hrej Hfs).
  set (w0 := record (Print (MsgRequeteML features)) w).
  pose proof (arroser_predict_outcome sv fs w0) as H. cbv zeta in H.
  change (ml_calls w0) with (ml_calls w) in H.
  change (logs (trace w0)) with (logs (trace w)) in H.
  destruct H as (_ & H).
  split; [|split].
  - intros Hp. rewrite Hp in H.
    unfold try_except, try_else.
    destruct (arroser_predict sv fs w0) as [r w1]. cbn [fst snd] in *.
    destruct H as [-> Hl]. cbn. auto.
  - intros prediction Hp Hbad. rewrite Hp in H.
    assert (Hc : (if truthy prediction then contains prediction "volume_m3" else Ok false)
                 = Ok false).
    { destruct Hbad as [->| ->]; [reflexivity|]. now destruct (truthy prediction). }
    rewrite Hc in H.
    unfold try_except, try_else.
    destruct (arroser_predict sv fs w0) as [r w1]. cbn [fst snd] in *.
    destruct H as [-> Hl]. cbn. auto.
  - intros prediction duree volume e Hp Ht Hc Hd Hv Hf.
    destruct (arroser_predict_unconvertible sv fs w0 prediction duree volume e
                Hp Ht Hc Hd Hv Hf) as [Hr Hl].
    unfold try_except, try_else.
    destruct (arroser_predict sv fs w0) as [r w1]. cbn [fst snd] in *.
    subst r. cbn. auto.
Qed.

Lemma recommendation_failures_witness :
  let sv := sv_predicting (PDict [("duree_minutes", PStr "long"); ("volume_m3", PInt 1)]) in
  fst (arroser sv fifteen_request initial_world) = Ok (ErreurModele ValueError, 500) /\
  logs (trace (snd (arroser sv fifteen_request initial_world)))
  = [LogIrrigation "ml_prediction" (PStr "long") (PInt 1) "prediction_ok" "ML"].
Proof.
  intros sv.
  apply (proj2 (proj2 (recommendation_failures sv fifteen_request _ _ initial_world
                         eq_refl eq_refl eq_refl eq_refl))
           (PDict [("duree_minutes", PStr "long"); ("volume_m3", PInt 1)])
           (PStr "long") (PInt 1) ValueError); reflexivity.
Defined.

Lemma floats_of_chars (sv : services) (cs : list ascii) :
  (forall c, In c cs -> parse_float sv (String c EmptyString) <> None) ->
  exists fs,
    floats_of sv (map (fun c => PStr (String c EmptyString)) cs) = Ok fs.
Proof.
  induction cs as [|c cs IH]; intros Hall.
  - exists []. reflexivity.
  - destruct IH as (fs & Hfs); [intros c' Hin; apply Hall; now right|].
    cbn [map floats_of to_float]. rewrite Hfs.
    destruct (parse_float sv (String c EmptyString)) as [x|] eqn:Hx.
    + eauto.
    + elim (Hall c); [now left|exact Hx].
Qed.

(** X19: the check on the features looks at their number only, and what
    [float] converts counts as numeric.  Features sent as one string of
    fifteen characters, each of which [float] converts, pass the check:
    the ML service is called with the fifteen floats of the characters. *)
Theorem string_of_digits_passes (sv : services) (body : dict) (s : string) (w : world) :
  dict_get body "features" = Some (PStr s) ->
  String.length s = 15%nat ->
  (forall c, In c (list_ascii_of_string s) -> parse_float sv (String c EmptyString) <> None) ->
  let w' := snd (arroser sv (PDict body) w) in
  exists fs,
    features_array_of sv (PStr s) = Ok fs /\
    List.length fs = 15%nat /\
    ml_calls w' = Datatypes.S (ml_calls w) /\
    predicts (trace w') = PredictIrrigation (map PFloat fs) :: predicts (trace w).
Proof.
  intros Hfeat Hlen Hall. cbv zeta.
  destruct (floats_of_chars sv _ Hall) as (fs & Hfs).
  assert (Harr : features_array_of sv (PStr s) = Ok fs) by exact Hfs.
  assert (Hrej : features_rejected (PStr s) = Ok false).
  { unfold features_rejected. cbn [truthy len]. rewrite Hlen.
    destruct s; [discriminate|]. reflexivity. }
  assert (Hdata : truthy (PDict body) = true) by (destruct body; [discriminate|reflexivity]).
  assert (Hget : get (PDict body) "features" (PList []) = Ok (PStr s))
    by (unfold get; now rewrite Hfeat).
  exists fs. split; [exact Harr|].
  split; [eapply accepted_features; eassumption|].
  rewrite (arroser_accepted sv (PDict body) (PStr s) fs w Hdata Hget Hrej Harr).
  destruct (arroser_predict_spec sv fs (record (Print (MsgRequeteML (PStr s))) w))
    as (r & w1 & Heq & Hm & Hp).
  unfold try_except, try_else. rewrite Heq.
  destruct r; cbn; auto.
Qed.

Lemma string_of_digits_passes_witness :
  fst (arroser sv_digits string_request initial_world)
  = Ok (Recommandation (float_lit 225 10) (float_lit 9 10), 200) /\
  ml_calls (snd (arroser sv_digits string_request initial_world)) = 1%nat.
Proof.
  split; [reflexivity|].
  destruct (string_of_digits_passes sv_digits [("features", PStr "123456789012345")]
              "123456789012345" initial_world eq_refl eq_refl)
    as (fs & _ & _ & Hm & _).
  - intros c Hin. cbn in Hin.
    repeat (destruct Hin as [<-|Hin]; [discriminate|]). destruct Hin.
  - exact Hm.
Defined.

(** ** The manual log *)

Ltac manual_fails :=
  cbn;
  split; [split; [discriminate|intros (? & ? & ? & ? & ? & ?); congruence]|];
  split; [intros; congruence|];
  split; [intros _; split; [eexists; reflexivity|reflexivity]|];
  split; reflexivity.

(** X20: [POST /irrigation/log-manual] logs only numbers.  It answers 200
    exactly when the body is an object whose [duration_minutes] and
    [volume_m3], taken as 0 when missing, both go through the [f] format
    of its [print]; it then appends one [manual_mqtt] record with the two
    values as sent.  In every other case it answers 500 and the activity
    log is as it was.  It never calls the gateway. *)
Theorem manual_log_needs_numbers (data : pyval) (w : world) :
  let answer := log_manual_irrigation data w in
  let w' := snd answer in
  (fst answer = Ok (ManuelleLoggee, 200) <->
   exists duration_minutes volume_m3,
     get data "duration_minutes" (PInt 0) = Ok duration_minutes /\
     get data "volume_m3" (PInt 0) = Ok volume_m3 /\
     format_f duration_minutes = Ok tt /\ format_f volume_m3 = Ok tt) /\
  (forall duration_minutes volume_m3,
     get data "duration_minutes" (PInt 0) = Ok duration_minutes ->
     get data "volume_m3" (PInt 0) = Ok volume_m3 ->
     format_f duration_minutes = Ok tt -> format_f volume_m3 = Ok tt ->
     logs (trace w')
     = LogIrrigation "manual_mqtt" duration_minutes volume_m3 "ok" "MANUAL_DIRECT"
       :: logs (trace w)) /\
  (fst answer <> Ok (ManuelleLoggee, 200) ->
   (exists e, fst answer = Ok (EchecRoute e, 500)) /\ logs (trace w') = logs (trace w)) /\
  fires (trace w') = fires (trace w) /\ active_schedules w' = active_schedules w.
Proof.
  cbv zeta.
  unfold log_manual_irrigation, try_except, try_else, bind, lift, ret, print,
    log_irrigation, emit.
  destruct (get data "duration_minutes" (PInt 0)) as [dm|e1]; [|manual_fails].
  destruct (get data "volume_m3" (PInt 0)) as [vol|e2]; [|manual_fails].
  destruct (format_f dm) as [[]|e3] eqn:Hf1; [|manual_fails].
  destruct (format_f vol) as [[]|e4] eqn:Hf2; [|manual_fails].
  cbn. split; [split; [intros _; exists dm, vol; auto|reflexivity]|].
  split; [intros dm' vol' H1 H2 _ _; injection H1 as <-; injection H2 as <-; reflexivity|].
  split; [intros H; now elim H|]. split; reflexivity.
Qed.

Lemma manual_log_needs_numbers_witness :
  fst (log_manual_irrigation (PDict []) initial_world) = Ok (ManuelleLoggee, 200) /\
  logs (trace (snd (log_manual_irrigation (PDict []) initial_world)))
  = [LogIrrigation "manual_mqtt" (PInt 0) (PInt 0) "ok" "MANUAL_DIRECT"] /\
  (exists e, fst (log_manual_irrigation (PDict [("volume_m3", PStr "1.5")]) initial_world)
             = Ok (EchecRoute e, 500)).
Proof.
  destruct (manual_log_needs_numbers (PDict []) initial_world) as (Hiff & Hlog & _).
  destruct (manual_log_needs_numbers (PDict [("volume_m3", PStr "1.5")]) initial_world)
    as (_ & _ & Hfail & _).
  split; [apply Hiff; exists (PInt 0), (PInt 0); repeat split|].
  split; [apply (Hlog (PInt 0) (PInt 0)); reflexivity|].
  apply Hfail. discriminate.
Defined.
